(** * TimeGAN hyperparameter search and sample evaluation

    A shallow embedding of the two scripts of the repository:
    - [timeGAN_opt_seq_len_MonthlyMilkProduction.py]: [postprocess_data],
      the module global [best_scores], [objective] and [run_TimeGAN];
    - [evaluate_schachtschneider.py]: [test_samples].

    Python state (the global [best_scores], the attributes set on the
    function object [objective], the files written, the study kept by the
    optimization driver) is threaded explicitly through a state-and-exception
    monad; every call into an external collaborator is recorded in a
    chronological trace of events. *)

From Stdlib Require Import ZArith Lia Floats Sorted.
From stdpp Require Import base option list gmap strings.

Local Open Scope Z_scope.

(** ** Python floats and their ordering *)

(** Scores are Python floats (IEEE 754 binary64); [x > y] and [x <= y] are
    the IEEE comparisons, false whenever one side is NaN. *)
Definition float_gt (x y : float) : bool := PrimFloat.ltb y x.
Definition float_le (x y : float) : bool := PrimFloat.leb x y.

(** ** Python values, arrays and data frames *)

(** The values suggested for hyperparameters are strings or integers. *)
Inductive pyval : Type :=
| VStr (s : string)
| VInt (n : Z).

Global Instance pyval_eq_dec : EqDecision pyval.
Proof. solve_decision. Defined.

(** The exceptions that the modelled code paths can raise. *)
Inductive exn : Type :=
| ValueError
| AttributeError
| FileNotFoundError
| RuntimeError.

Inductive outcome (A : Type) : Type :=
| Return (a : A)
| Raised (e : exn).
Arguments Return {A} a.
Arguments Raised {A} e.

(** A three-dimensional numpy array: its shape and its entries
    [item i j k], meaningful for indices within the shape. *)
Record ndarray : Type := mk_ndarray {
  shape0 : nat;
  shape1 : nat;
  shape2 : nat;
  item : nat -> nat -> nat -> float
}.

(** Number of entries selected by the Python slice [:stop] on an axis of
    length [len]: a negative [stop] counts from the end, and both ends are
    clipped to the axis. *)
Definition slice_stop (stop : Z) (len : nat) : nat :=
  if stop <? 0
  then Z.to_nat (Z.max 0 (Z.of_nat len + stop))
  else Z.to_nat (Z.min stop (Z.of_nat len)).

(** [a[:, :, :stop]] *)
Definition slice_last_axis (a : ndarray) (stop : Z) : ndarray :=
  {| shape0 := shape0 a; shape1 := shape1 a;
     shape2 := slice_stop stop (shape2 a); item := item a |}.

(** [a[i, j, :]] *)
Definition row_of (a : ndarray) (i j : nat) : list float :=
  map (item a i j) (seq 0 (shape2 a)).

(** A pandas data frame: its rows and its column labels. *)
Record DataFrame : Type := mk_DataFrame {
  df_data : list (list float);
  df_columns : list string
}.

(** [pd.DataFrame(data=rows, columns=columns)] for a list of one-dimensional
    arrays: pandas raises [ValueError] when a row does not have one entry
    per column label; an empty list of rows gives an empty frame. *)
Definition pd_DataFrame (data : list (list float)) (columns : list string)
  : outcome DataFrame :=
  if forallb (fun r => Nat.eqb (length r) (length columns)) data
  then Return {| df_data := data; df_columns := columns |}
  else Raised ValueError.

(** ** [postprocess_data] *)

(** The two nested [for] loops appending [generated_data[i,j,:]]. *)
Definition conditioned_rows (generated_data : ndarray) : list (list float) :=
  fold_left
    (fun conditioned_dataset i =>
       fold_left
         (fun conditioned_dataset j =>
            conditioned_dataset ++ [row_of generated_data i j])
         (seq 0 (shape1 generated_data)) conditioned_dataset)
    (seq 0 (shape0 generated_data)) [].

(** [shift_numbers] is the tuple of the variadic arguments. *)
Definition delete_shifted (generated_data : ndarray) (shift_numbers : list Z)
  : ndarray :=
  if bool_decide (shift_numbers <> [0])
  then slice_last_axis generated_data (Z.of_nat (length shift_numbers) * -1)
  else generated_data.

Definition postprocess_data (eval_or_opt : string) (generated_data : ndarray)
    (columns : list string) (seq_len : pyval) (shift_numbers : list Z)
  : outcome DataFrame :=
  let generated_data := delete_shifted generated_data shift_numbers in
  let conditioned_dataset := conditioned_rows generated_data in
  let generated_data_df := pd_DataFrame conditioned_dataset columns in
  let fake_data := generated_data_df in
  fake_data.

(** Number of feature columns a call with [shift_numbers] keeps of an
    array with [c] of them: all for [(0,)], none for the empty tuple (the
    slice [:0]), and otherwise all but the last [len(shift_numbers)]. *)
Definition columns_kept (c : nat) (shift_numbers : list Z) : nat :=
  if bool_decide (shift_numbers = [0])
  then c
  else match shift_numbers with
       | [] => 0%nat
       | _ => (c - length shift_numbers)%nat
       end.

(** ** Trials and studies *)

Inductive TrialState : Type := RUNNING | COMPLETE | FAIL.

(** What the study records about a trial; the trial's number is its
    position in [study_trials]. *)
Record FrozenTrial : Type := mk_FrozenTrial {
  ft_state : TrialState;
  ft_value : option float;
  ft_params : gmap string pyval
}.

Record Study : Type := mk_Study {
  study_trials : list FrozenTrial;
  stop_flag : bool
}.

(** ** External collaborators *)

(** The routines the scripts import and call. The data utilities
    ([real_data_loading], [preprocess_data], [cut_data]), the GAN routine
    [timegan] and the similarity scorer [evaluate] are taken as parameters.
    Training is randomized, so [timegan] also receives the number of calls
    made before; [sampler] is the raw choice the optimization driver makes
    for a parameter name in the trial of a given number; [plot_study] is
    what the six plotting calls of the driver and [plt.show()] do with the
    trials of the study: they return or one of them raises. *)
Record World : Type := mk_World {
  real_data_loading : DataFrame;
  preprocess_data :
    DataFrame -> string -> list Z ->
    DataFrame * list string * DataFrame * DataFrame * list Z;
  cut_data : DataFrame -> pyval -> ndarray;
  timegan : nat -> ndarray -> gmap string pyval -> ndarray;
  evaluate : DataFrame -> DataFrame -> float;
  sampler : nat -> string -> nat;
  plot_study : list FrozenTrial -> outcome unit
}.

(** ** Program state *)

(** Chunks written to the performance file, and printed values. *)
Inductive chunk : Type :=
| best_params_str (p : gmap string pyval)
| best_value_str (v : float)
| best_trial_str (number : nat) (t : FrozenTrial)
| minutes_str.

Inductive printed : Type :=
| shape_of (n s c : nat)
| value_of (v : pyval).

(** The files of the working directory. The sqlite database of the study is
    one of them; what it holds is the study, which the state keeps in
    [study]. *)
Inductive file : Type :=
| pickle_of_timegan
| text_file (chunks : list chunk)
| csv_file (frame : DataFrame)
| sqlite_database.

Inductive event : Type :=
| EvCreateStudy (storage study_name direction : string) (load_if_exists : bool)
| EvAsk (number : nat)
| EvStop (number : nat)
| EvSuggest (number : nat) (name : string) (value : pyval)
| EvCutData (data : DataFrame) (seq_len : pyval)
| EvPrint (p : printed)
| EvTimegan (data : ndarray) (parameters : gmap string pyval)
| EvEvaluate (synthetic real : DataFrame)
| EvDump (filename : string)
| EvTell (number : nat) (value : float)
| EvFail (number : nat) (e : exn)
| EvOpen (filename : string)
| EvWrite (filename : string) (c : chunk)
| EvClose (filename : string)
| EvPlots
| EvLoad (filename : string)
| EvToCsv (filename : string) (frame : DataFrame).

Record PyState : Type := mk_PyState {
  best_scores : float;
  objective_seq_len : option pyval;
  objective_parameters : option (gmap string pyval);
  files : gmap string file;
  study : Study;
  timegan_calls : nat;
  trace : list event
}.

(** State of a fresh process: the module body has run ([best_scores = 0],
    no attribute set on [objective]); [fs] are the files of the working
    directory and [stored] the trials already in the study's database. *)
Definition initial_state (fs : gmap string file) (stored : list FrozenTrial)
  : PyState :=
  {| best_scores := 0%float;
     objective_seq_len := None;
     objective_parameters := None;
     files := fs;
     study := {| study_trials := stored; stop_flag := false |};
     timegan_calls := 0;
     trace := [] |}.

Definition set_best_scores (v : float) (st : PyState) : PyState :=
  {| best_scores := v;
     objective_seq_len := objective_seq_len st;
     objective_parameters := objective_parameters st;
     files := files st; study := study st;
     timegan_calls := timegan_calls st; trace := trace st |}.

Definition set_objective_seq_len (v : pyval) (st : PyState) : PyState :=
  {| best_scores := best_scores st;
     objective_seq_len := Some v;
     objective_parameters := objective_parameters st;
     files := files st; study := study st;
     timegan_calls := timegan_calls st; trace := trace st |}.

Definition set_objective_parameters (p : gmap string pyval) (st : PyState)
  : PyState :=
  {| best_scores := best_scores st;
     objective_seq_len := objective_seq_len st;
     objective_parameters := Some p;
     files := files st; study := study st;
     timegan_calls := timegan_calls st; trace := trace st |}.

Definition set_files (fs : gmap string file) (st : PyState) : PyState :=
  {| best_scores := best_scores st;
     objective_seq_len := objective_seq_len st;
     objective_parameters := objective_parameters st;
     files := fs; study := study st;
     timegan_calls := timegan_calls st; trace := trace st |}.

Definition set_study (s : Study) (st : PyState) : PyState :=
  {| best_scores := best_scores st;
     objective_seq_len := objective_seq_len st;
     objective_parameters := objective_parameters st;
     files := files st; study := s;
     timegan_calls := timegan_calls st; trace := trace st |}.

Definition set_timegan_calls (n : nat) (st : PyState) : PyState :=
  {| best_scores := best_scores st;
     objective_seq_len := objective_seq_len st;
     objective_parameters := objective_parameters st;
     files := files st; study := study st;
     timegan_calls := n; trace := trace st |}.

Definition emit (e : event) (st : PyState) : PyState :=
  {| best_scores := best_scores st;
     objective_seq_len := objective_seq_len st;
     objective_parameters := objective_parameters st;
     files := files st; study := study st;
     timegan_calls := timegan_calls st; trace := trace st ++ [e] |}.

(** ** The state-and-exception monad *)

Definition M (A : Type) : Type := PyState -> PyState * outcome A.

Definition ret {A : Type} (a : A) : M A := fun st => (st, Return a).

Definition raise {A : Type} (e : exn) : M A := fun st => (st, Raised e).

Definition bind {A B : Type} (m : M A) (k : A -> M B) : M B :=
  fun st =>
    match m st with
    | (st', Return a) => k a st'
    | (st', Raised e) => (st', Raised e)
    end.

Notation "x <- m ;; k" := (bind m (fun x => k))
  (at level 100, m at next level, right associativity).

Definition modify (f : PyState -> PyState) : M unit := fun st => (f st, Return tt).

Definition gets {A : Type} (f : PyState -> A) : M A := fun st => (st, Return (f st)).

Definition lift {A : Type} (o : outcome A) : M A := fun st => (st, o).

Definition when (b : bool) (m : M unit) : M unit := if b then m else ret tt.

Section Scripts.

Context (w : World).

(** ** The optimization driver *)

(** Modelled from the spec: the optimization driver is an external
    collaborator (the optuna library, not under src/) that "proposes
    candidate parameter sets from fixed categorical/integer domains, records
    trial outcomes, supports persistence and early stopping". The study keeps
    one record per trial, persisted across processes; a new trial gets the
    next free number. *)
Definition new_trial : FrozenTrial :=
  {| ft_state := RUNNING; ft_value := None; ft_params := ∅ |}.

Definition ask : M nat :=
  number <- gets (fun st => length (study_trials (study st))) ;;
  _ <- modify (fun st =>
         emit (EvAsk number)
           (set_study {| study_trials := study_trials (study st) ++ [new_trial];
                         stop_flag := stop_flag (study st) |} st)) ;;
  ret number.

Definition set_trial_param (number : nat) (name : string) (v : pyval)
    (s : Study) : Study :=
  {| study_trials :=
       alter (fun t => {| ft_state := ft_state t; ft_value := ft_value t;
                          ft_params := <[name := v]> (ft_params t) |})
             number (study_trials s);
     stop_flag := stop_flag s |}.

Definition record_suggestion (number : nat) (name : string) (v : pyval)
  : M pyval :=
  _ <- modify (fun st =>
         emit (EvSuggest number name v)
           (set_study (set_trial_param number name v (study st)) st)) ;;
  ret v.

(** Modelled from the spec: [trial.suggest_categorical(name, choices)]
    proposes one of [choices]. *)
Definition suggest_categorical (number : nat) (name : string)
    (choices : list pyval) : M pyval :=
  match choices with
  | [] => raise ValueError
  | c :: _ =>
      record_suggestion number name
        (nth (sampler w number name mod length choices)%nat choices c)
  end.

(** Modelled from the spec: [trial.suggest_int(name, low, high, step)]
    proposes one of [low], [low + step], ... not above [high]. *)
Definition suggest_int (number : nat) (name : string) (low high step : Z)
  : M pyval :=
  if (high <? low) || (step <=? 0) then raise ValueError
  else
    let count := (high - low) / step + 1 in
    record_suggestion number name
      (VInt (low + step * (Z.of_nat (sampler w number name) mod count))).

(** Modelled from the spec: [study.stop()] asks the optimization loop to
    end once the running trial has finished. *)
Definition study_stop (number : nat) : M unit :=
  modify (fun st =>
    emit (EvStop number)
      (set_study {| study_trials := study_trials (study st);
                    stop_flag := true |} st)).

Definition finish_trial (number : nat) (state : TrialState)
    (value : option float) (s : Study) : Study :=
  {| study_trials :=
       alter (fun t => {| ft_state := state; ft_value := value;
                          ft_params := ft_params t |})
             number (study_trials s);
     stop_flag := stop_flag s |}.

(** Modelled from the spec: the driver records the outcome of a trial. A NaN
    objective value is recorded as a failed trial. *)
Definition tell (number : nat) (value : float) : M unit :=
  modify (fun st =>
    emit (EvTell number value)
      (set_study
         (if PrimFloat.is_nan value
          then finish_trial number FAIL None (study st)
          else finish_trial number COMPLETE (Some value) (study st)) st)).

(** Modelled from the spec: one trial of the loop. An exception of the
    objective marks the trial failed and propagates. *)
Definition run_trial (func : nat -> M float) : M unit :=
  number <- ask ;;
  fun st =>
    match func number st with
    | (st', Return value) => tell number value st'
    | (st', Raised e) =>
        (emit (EvFail number e)
           (set_study (finish_trial number FAIL None (study st')) st'),
         Raised e)
    end.

(** Modelled from the spec: the sequential loop of
    [study.optimize(func, n_trials)]: at most [n_trials] trials, ended early
    once a stop was requested. *)
Fixpoint optimize_loop (func : nat -> M float) (remaining : nat) : M unit :=
  match remaining with
  | O => ret tt
  | S remaining' =>
      stop <- gets (fun st => stop_flag (study st)) ;;
      if stop then ret tt
      else (_ <- run_trial func ;; optimize_loop func remaining')
  end.

Definition study_optimize (func : nat -> M float) (n_trials : Z) : M unit :=
  _ <- modify (fun st =>
         set_study {| study_trials := study_trials (study st);
                      stop_flag := false |} st) ;;
  optimize_loop func (Z.to_nat n_trials).

(** Modelled from the spec: the best trial of a study that maximizes is the
    first completed trial with the largest value; there is none in a study
    without completed trials. *)
Fixpoint best_from (number : nat) (ts : list FrozenTrial)
    (best : option (nat * FrozenTrial * float))
  : option (nat * FrozenTrial * float) :=
  match ts with
  | [] => best
  | t :: ts' =>
      best_from (S number) ts'
        match ft_state t, ft_value t, best with
        | COMPLETE, Some v, Some (_, _, bv) =>
            if float_gt v bv then Some (number, t, v) else best
        | COMPLETE, Some v, None => Some (number, t, v)
        | _, _, _ => best
        end
  end.

Definition study_best_trial : M (nat * FrozenTrial * float) :=
  s <- gets study ;;
  match best_from 0 (study_trials s) None with
  | Some b => ret b
  | None => raise ValueError
  end.

(** [optuna.storages.RDBStorage(url)] with a URL [sqlite:///<path>] keeps
    the study in the file [<path>] of the working directory. *)
Fixpoint string_drop (n : nat) (s : string) : string :=
  match n, s with
  | S n', String _ s' => string_drop n' s'
  | _, _ => s
  end.

Definition sqlite_path (url : string) : string :=
  string_drop (String.length "sqlite:///") url.

(** Modelled from the spec: [optuna.create_study] on an [RDBStorage] with
    [load_if_exists=True] creates the database of the study unless it is
    there already; the trials it holds are those of [study]. *)
Definition create_study (storage study_name direction : string)
    (load_if_exists : bool) : M unit :=
  modify (fun st =>
    emit (EvCreateStudy storage study_name direction load_if_exists)
      (set_files (<[sqlite_path storage := sqlite_database]> (files st)) st)).

(** ** Calls into the other collaborators *)

Definition call_cut_data (data : DataFrame) (seq_len : pyval) : M ndarray :=
  _ <- modify (emit (EvCutData data seq_len)) ;;
  ret (cut_data w data seq_len).

Definition call_timegan (data : ndarray) (parameters : gmap string pyval)
  : M ndarray :=
  n <- gets timegan_calls ;;
  _ <- modify (fun st => emit (EvTimegan data parameters)
                           (set_timegan_calls (S n) st)) ;;
  ret (timegan w n data parameters).

Definition call_evaluate (synthetic real : DataFrame) : M float :=
  _ <- modify (emit (EvEvaluate synthetic real)) ;;
  ret (evaluate w synthetic real).

Definition print (p : printed) : M unit := modify (emit (EvPrint p)).

(** [joblib.dump(timegan, filename)]: the pickled object is the imported
    function [timegan]. *)
Definition joblib_dump_timegan (filename : string) : M unit :=
  modify (fun st =>
    emit (EvDump filename)
      (set_files (<[filename := pickle_of_timegan]> (files st)) st)).

(** What [joblib.load] gives back: the only object this program pickles. *)
Inductive callable : Type := timegan_function.

Definition joblib_load (filename : string) : M callable :=
  _ <- modify (emit (EvLoad filename)) ;;
  fs <- gets files ;;
  match fs !! filename with
  | Some pickle_of_timegan => ret timegan_function
  | Some _ => raise ValueError
  | None => raise FileNotFoundError
  end.

Definition call (f : callable) (data : ndarray)
    (parameters : gmap string pyval) : M ndarray :=
  match f with
  | timegan_function => call_timegan data parameters
  end.

Definition open_w (filename : string) : M unit :=
  modify (fun st =>
    emit (EvOpen filename) (set_files (<[filename := text_file []]> (files st)) st)).

Definition write (filename : string) (c : chunk) : M unit :=
  modify (fun st =>
    emit (EvWrite filename c)
      (set_files
         (alter (fun f => match f with
                          | text_file cs => text_file (cs ++ [c])
                          | other => other
                          end) filename (files st)) st)).

Definition close (filename : string) : M unit :=
  modify (emit (EvClose filename)).

Definition to_csv (frame : DataFrame) (filename : string) : M unit :=
  modify (fun st =>
    emit (EvToCsv filename frame)
      (set_files (<[filename := csv_file frame]> (files st)) st)).

(** The six [plot_*] calls on the study and [plt.show()]. *)
Definition plots : M unit :=
  s <- gets study ;;
  _ <- modify (emit EvPlots) ;;
  lift (plot_study w (study_trials s)).

(** Reading an attribute of the function object [objective]. *)
Definition getattr {A : Type} (field : PyState -> option A) : M A :=
  v <- gets field ;;
  match v with
  | Some a => ret a
  | None => raise AttributeError
  end.

(** ** [objective] *)

Definition objective (trial : nat) (dataset_train dataset_val : DataFrame)
    (num_samples : Z) (columns : list string) (database_name : string)
    (shift_numbers : list Z) : M float :=
  _ <- when (Nat.eqb trial 60) (study_stop trial) ;;
  (* hyperparameters *)
  module <- suggest_categorical trial "module"
              [VStr "gru"; VStr "lstm"; VStr "lstmLN"] ;;
  hidden_dim <- suggest_categorical trial "hidden_dim"
                  [VInt 6; VInt 12; VInt 24; VInt 48] ;;
  batch_size <- suggest_categorical trial "batch_size"
                  [VInt 2; VInt 4; VInt 8] ;;
  num_layer <- suggest_int trial "num_layer" 3 6 1 ;;
  iterations <- suggest_categorical trial "iterations"
                  [VInt 100; VInt 1000; VInt 10000] ;;
  seq_len <- suggest_categorical trial "seq_len" [VInt 1; VInt 5; VInt 10] ;;
  data <- call_cut_data dataset_train seq_len ;;
  (* set timeGAN parameters *)
  let parameters : gmap string pyval := ∅ in
  let parameters := <["module" := module]> parameters in
  let parameters := <["hidden_dim" := hidden_dim]> parameters in
  let parameters := <["num_layer" := num_layer]> parameters in
  let parameters := <["iterations" := iterations]> parameters in
  let parameters := <["batch_size" := batch_size]> parameters in
  let parameters := <["seq_len" := seq_len]> parameters in
  (* generate data *)
  _ <- print (shape_of (shape0 data) (shape1 data) (shape2 data)) ;;
  _ <- print (value_of seq_len) ;;
  _ <- print (value_of batch_size) ;;
  generated_data <- call_timegan data parameters ;;
  (* postprocessing *)
  fake_data <- lift (postprocess_data "opt" generated_data columns seq_len
                       shift_numbers) ;;
  (* calculate score *)
  scores <- call_evaluate fake_data dataset_val ;;
  (* save best model *)
  best <- gets best_scores ;;
  _ <- when (float_gt scores best)
         (_ <- joblib_dump_timegan (database_name +:+ ".gz") ;;
          _ <- modify (set_objective_seq_len seq_len) ;;
          _ <- modify (set_objective_parameters parameters) ;;
          modify (set_best_scores scores)) ;;
  ret scores.

(** ** [run_TimeGAN] *)

Definition run_TimeGAN (num_samples n_trials : Z) (database_name : string)
    (shift_numbers : list Z) : M unit :=
  (* load data *)
  let dataset := real_data_loading w in
  (* preprocess data *)
  let '(dataset_train, columns, dataset_val, dataset, shift_numbers) :=
    preprocess_data w dataset database_name shift_numbers in
  (* optimize hyperparameters *)
  _ <- create_study ("sqlite:///" +:+ database_name +:+ ".db")
         (database_name +:+ "_study") "maximize" true ;;
  _ <- study_optimize
         (fun trial => objective trial dataset_train dataset_val num_samples
                         columns database_name shift_numbers) n_trials ;;
  (* save performance parameters *)
  let performance := "performance_" +:+ database_name +:+ ".txt" in
  _ <- open_w performance ;;
  best <- study_best_trial ;;
  _ <- write performance (best_params_str (ft_params (best.1.2))) ;;
  best <- study_best_trial ;;
  _ <- write performance (best_value_str (best.2)) ;;
  best <- study_best_trial ;;
  _ <- write performance (best_trial_str (best.1.1) (best.1.2)) ;;
  (* plots of optuna optimization *)
  _ <- plots ;;
  (* generate data and stop time *)
  timegan <- joblib_load (database_name +:+ ".gz") ;;
  seq_len <- getattr objective_seq_len ;;
  data <- call_cut_data dataset seq_len ;;
  parameters <- getattr objective_parameters ;;
  generated_data <- call timegan data parameters ;;
  _ <- write performance minutes_str ;;
  _ <- close performance ;;
  (* postprocessing *)
  seq_len <- getattr objective_seq_len ;;
  fake_data <- lift (postprocess_data "eval" generated_data columns seq_len
                       shift_numbers) ;;
  to_csv fake_data ("fake_data_" +:+ database_name +:+ ".csv").

End Scripts.

(** ** Reading a trace *)

(** The numbers of the trials started, the values reported back to the
    study, and the trial during which the last checkpoint was written. *)
Definition asked (tr : list event) : list nat :=
  omap (fun e => match e with EvAsk n => Some n | _ => None end) tr.

Definition told (tr : list event) : list (nat * float) :=
  omap (fun e => match e with EvTell n v => Some (n, v) | _ => None end) tr.

Definition dumps (tr : list event) : list string :=
  omap (fun e => match e with EvDump f => Some f | _ => None end) tr.

Definition csv_written (tr : list event) : list (string * DataFrame) :=
  omap (fun e => match e with EvToCsv f d => Some (f, d) | _ => None end) tr.

Definition suggestions_of (tr : list event) : list (string * pyval) :=
  omap (fun e => match e with EvSuggest _ n v => Some (n, v) | _ => None end) tr.

Definition cut_data_calls (tr : list event) : list (DataFrame * pyval) :=
  omap (fun e => match e with EvCutData d s => Some (d, s) | _ => None end) tr.

Definition timegan_calls_of (tr : list event)
  : list (ndarray * gmap string pyval) :=
  omap (fun e => match e with EvTimegan d p => Some (d, p) | _ => None end) tr.

Definition evaluate_calls (tr : list event) : list (DataFrame * DataFrame) :=
  omap (fun e => match e with EvEvaluate f r => Some (f, r) | _ => None end) tr.

Definition loads (tr : list event) : list string :=
  omap (fun e => match e with EvLoad f => Some f | _ => None end) tr.

(** The parameter sets written to a file as the best of the study. *)
Definition best_params_written (tr : list event)
  : list (gmap string pyval) :=
  omap (fun e => match e with
                 | EvWrite _ (best_params_str p) => Some p
                 | _ => None
                 end) tr.

(** The trials that requested the stop of the study, the trials whose
    objective raised, and the files opened, written to and closed. *)
Definition stops (tr : list event) : list nat :=
  omap (fun e => match e with EvStop n => Some n | _ => None end) tr.

Definition failures (tr : list event) : list (nat * exn) :=
  omap (fun e => match e with EvFail n x => Some (n, x) | _ => None end) tr.

Definition opens (tr : list event) : list string :=
  omap (fun e => match e with EvOpen f => Some f | _ => None end) tr.

Definition written (tr : list event) : list (string * chunk) :=
  omap (fun e => match e with EvWrite f c => Some (f, c) | _ => None end) tr.

Definition closes (tr : list event) : list string :=
  omap (fun e => match e with EvClose f => Some f | _ => None end) tr.

Definition checkpoint_step (acc : option nat * option nat) (e : event)
  : option nat * option nat :=
  match e with
  | EvAsk n => (Some n, acc.2)
  | EvDump _ => (acc.1, acc.1)
  | _ => acc
  end.

Definition checkpoint_trial (tr : list event) : option nat :=
  (fold_left checkpoint_step tr (None, None)).2.

(** The steps of a trial named by the specification. *)
Inductive step : Type :=
| Suggestion | Reshaping | Training | Scoring | Checkpointing.

Definition step_of (e : event) : option step :=
  match e with
  | EvSuggest _ _ _ => Some Suggestion
  | EvCutData _ _ => Some Reshaping
  | EvTimegan _ _ => Some Training
  | EvEvaluate _ _ => Some Scoring
  | EvDump _ => Some Checkpointing
  | _ => None
  end.

Definition step_rank (s : step) : nat :=
  match s with
  | Suggestion => 0
  | Reshaping => 1
  | Training => 2
  | Scoring => 3
  | Checkpointing => 4
  end%nat.

Definition steps (tr : list event) : list step := omap step_of tr.

(** The events a computation adds to the trace of [st]. *)
Definition new_events (st st' : PyState) : list event :=
  drop (length (trace st)) (trace st').

(** Number of trials of a loop of at most [remaining] trials on a study
    that already holds [start] trials: the trial numbered 60 requests the
    stop. A run asks for [n_trials] of them. *)
Definition trials_of_loop (start remaining : nat) : nat :=
  if (start <=? 60)%nat
  then Nat.min remaining (61 - start)
  else remaining.

Definition trials_of_run (start : nat) (n_trials : Z) : nat :=
  trials_of_loop start (Z.to_nat n_trials).

(** ** [test_samples] (evaluate_schachtschneider.py) *)

Module Evaluate.

(** [load_data] of table_evaluator reads the two CSV files; [evaluate] of
    sdv with [aggregate=False] gives a table of per-metric scores. *)
Record World : Type := mk_World {
  load_data : string -> string -> DataFrame * DataFrame;
  evaluate : DataFrame -> DataFrame -> bool -> list (string * float)
}.

Record TableEvaluator : Type := mk_TableEvaluator {
  te_real : DataFrame;
  te_fake : DataFrame;
  te_cat_cols : list string
}.

Inductive event : Type :=
| EvLoadData (path_real path_fake : string)
| EvPrintFrame (frame : DataFrame)
| EvTableEvaluator (real fake : DataFrame) (cat_cols : list string)
| EvVisualEvaluation (self : TableEvaluator)
| EvEvaluate (self : TableEvaluator) (target_col target_type : string)
| EvSdvEvaluate (synthetic real : DataFrame) (aggregate : bool)
| EvPrintScores (scores : list (string * float)).

(** A computation returns its value and the events it performed. *)
Definition Log (A : Type) : Type := list event * A.

Definition log_ret {A : Type} (a : A) : Log A := ([], a).

Definition log_bind {A B : Type} (m : Log A) (k : A -> Log B) : Log B :=
  let '(tr, b) := k m.2 in (m.1 ++ tr, b).

Definition perform (e : event) : Log unit := ([e], tt).

Notation "x <~ m ;; k" := (log_bind m (fun x => k))
  (at level 100, m at next level, right associativity).

Section Script.

Context (w : World).

Definition call_load_data (path_real path_fake : string)
  : Log (DataFrame * DataFrame) :=
  _ <~ perform (EvLoadData path_real path_fake) ;;
  log_ret (load_data w path_real path_fake).

Definition new_TableEvaluator (real fake : DataFrame) (cat_cols : list string)
  : Log TableEvaluator :=
  _ <~ perform (EvTableEvaluator real fake cat_cols) ;;
  log_ret {| te_real := real; te_fake := fake; te_cat_cols := cat_cols |}.

Definition call_evaluate (synthetic real : DataFrame) (aggregate : bool)
  : Log (list (string * float)) :=
  _ <~ perform (EvSdvEvaluate synthetic real aggregate) ;;
  log_ret (evaluate w synthetic real aggregate).

Definition test_samples (database_name : string) (print_data : bool)
  : Log unit :=
  tf <~ call_load_data "test_data_schachtschneider.csv"
          ("fake_data_" +:+ database_name +:+ ".csv") ;;
  let test := tf.1 in
  let fake := tf.2 in
  _ <~ (if print_data then perform (EvPrintFrame fake) else log_ret tt) ;;
  _ <~ (if print_data then perform (EvPrintFrame test) else log_ret tt) ;;
  let cat_cols := ["public_holiday"; "weekday"] in
  table_evaluator <~ new_TableEvaluator test fake cat_cols ;;
  _ <~ perform (EvVisualEvaluation table_evaluator) ;;
  _ <~ perform (EvEvaluate table_evaluator "Lavandula" "regr") ;;
  scores <~ call_evaluate fake test false ;;
  perform (EvPrintScores scores).

End Script.

(** The evaluations of a run and what they are given: everything but the
    printing of the two loaded frames. *)
Definition is_frame_print (e : event) : bool :=
  match e with EvPrintFrame _ => true | _ => false end.

Definition evaluations (tr : list event) : list event :=
  filter (fun e => is_frame_print e = false) tr.

Definition frame_prints (tr : list event) : list DataFrame :=
  omap (fun e => match e with EvPrintFrame d => Some d | _ => None end) tr.

End Evaluate.

(** ** Concrete collaborators for the examples *)

(** A stand-in GAN routine whose [n]-th call yields a 1 x 1 x 2 array filled
    with the [n]-th entry of [values], and a scorer that reads the first
    entry of the synthetic frame. *)
Definition sample_frame : DataFrame :=
  {| df_data := [[1%float; 2%float]; [3%float; 4%float]];
     df_columns := ["a"; "b"] |}.

Definition sample_array (v : float) : ndarray :=
  {| shape0 := 1; shape1 := 1; shape2 := 2; item := fun _ _ _ => v |}.

Definition first_entry (d : DataFrame) : float :=
  match df_data d with
  | (v :: _) :: _ => v
  | _ => 0%float
  end.

(** A stand-in for the plotting calls which, like the parameter-importance
    plot of the driver, raises [ValueError] for a study with fewer than two
    completed trials and [RuntimeError] when all completed trials have the
    same value. *)
Definition completed_values (ts : list FrozenTrial) : list float :=
  omap (fun t => match ft_state t with
                 | COMPLETE => ft_value t
                 | _ => None
                 end) ts.

Definition sample_plot_study (ts : list FrozenTrial) : outcome unit :=
  match completed_values ts with
  | [] | [_] => Raised ValueError
  | v :: vs =>
      if forallb (fun u => PrimFloat.eqb u v) vs
      then Raised RuntimeError
      else Return tt
  end.

Definition sample_world (values : list float) : World :=
  {| real_data_loading := sample_frame;
     preprocess_data := fun d _ shift_numbers =>
       (d, df_columns d, d, d, shift_numbers);
     cut_data := fun _ _ => sample_array 0%float;
     timegan := fun n _ _ => sample_array (nth n values 0%float);
     evaluate := fun synthetic _ => first_entry synthetic;
     sampler := fun number _ => number;
     plot_study := sample_plot_study |}.

(** A completed trial of an earlier process, as the database of the study
    keeps it. *)
Definition earlier_trial (value : float) (params : gmap string pyval)
  : FrozenTrial :=
  {| ft_state := COMPLETE; ft_value := Some value; ft_params := params |}.

Definition sample_eval_world : Evaluate.World :=
  {| Evaluate.load_data := fun _ _ => (sample_frame, sample_frame);
     Evaluate.evaluate := fun _ _ _ => [("KSTest", 1%float)] |}.

(** ** What a trial suggests *)

(** The values the driver proposes in the trial numbered [t], and the
    dictionary [objective] builds from them. *)
Section Suggested.

Context (w : World).

Definition suggested_module (t : nat) : pyval :=
  nth (sampler w t "module" mod length [VStr "gru"; VStr "lstm"; VStr "lstmLN"])%nat
      [VStr "gru"; VStr "lstm"; VStr "lstmLN"] (VStr "gru").

Definition suggested_hidden_dim (t : nat) : pyval :=
  nth (sampler w t "hidden_dim" mod length [VInt 6; VInt 12; VInt 24; VInt 48])%nat
      [VInt 6; VInt 12; VInt 24; VInt 48] (VInt 6).

Definition suggested_batch_size (t : nat) : pyval :=
  nth (sampler w t "batch_size" mod length [VInt 2; VInt 4; VInt 8])%nat
      [VInt 2; VInt 4; VInt 8] (VInt 2).

Definition suggested_num_layer (t : nat) : pyval :=
  VInt (3 + 1 * (Z.of_nat (sampler w t "num_layer") mod ((6 - 3) / 1 + 1))).

Definition suggested_iterations (t : nat) : pyval :=
  nth (sampler w t "iterations" mod length [VInt 100; VInt 1000; VInt 10000])%nat
      [VInt 100; VInt 1000; VInt 10000] (VInt 100).

Definition suggested_seq_len (t : nat) : pyval :=
  nth (sampler w t "seq_len" mod length [VInt 1; VInt 5; VInt 10])%nat
      [VInt 1; VInt 5; VInt 10] (VInt 1).

Definition suggested (t : nat) : list (string * pyval) :=
  [("module", suggested_module t);
   ("hidden_dim", suggested_hidden_dim t);
   ("batch_size", suggested_batch_size t);
   ("num_layer", suggested_num_layer t);
   ("iterations", suggested_iterations t);
   ("seq_len", suggested_seq_len t)].

Definition built_parameters (t : nat) : gmap string pyval :=
  <["seq_len" := suggested_seq_len t]>
    (<["batch_size" := suggested_batch_size t]>
       (<["iterations" := suggested_iterations t]>
          (<["num_layer" := suggested_num_layer t]>
             (<["hidden_dim" := suggested_hidden_dim t]>
                (<["module" := suggested_module t]> ∅))))).

(** The study after the six suggestions of trial [t]. *)
Definition study_after_suggestions (t : nat) (s : Study) : Study :=
  set_trial_param t "seq_len" (suggested_seq_len t)
    (set_trial_param t "iterations" (suggested_iterations t)
       (set_trial_param t "num_layer" (suggested_num_layer t)
          (set_trial_param t "batch_size" (suggested_batch_size t)
             (set_trial_param t "hidden_dim" (suggested_hidden_dim t)
                (set_trial_param t "module" (suggested_module t) s))))).

Definition stop_requested (t : nat) (s : Study) : Study :=
  if Nat.eqb t 60
  then {| study_trials := study_trials s; stop_flag := true |}
  else s.

(** The events of a trial up to and including the call of the GAN routine. *)
Definition events_until_training (t : nat) (dataset_train : DataFrame)
  : list event :=
  (if Nat.eqb t 60 then [EvStop t] else []) ++
  map (fun nv => EvSuggest t nv.1 nv.2) (suggested t) ++
  [EvCutData dataset_train (suggested_seq_len t);
   EvPrint (shape_of (shape0 (cut_data w dataset_train (suggested_seq_len t)))
                     (shape1 (cut_data w dataset_train (suggested_seq_len t)))
                     (shape2 (cut_data w dataset_train (suggested_seq_len t))));
   EvPrint (value_of (suggested_seq_len t));
   EvPrint (value_of (suggested_batch_size t));
   EvTimegan (cut_data w dataset_train (suggested_seq_len t))
             (built_parameters t)].

(** The array generated in trial [t] when [n] calls of the GAN routine
    came before. *)
Definition generated_in_trial (t n : nat) (dataset_train : DataFrame)
  : ndarray :=
  timegan w n (cut_data w dataset_train (suggested_seq_len t))
          (built_parameters t).

End Suggested.

(** The state once the GAN routine has returned in trial [t], and the state
    when the trial is over with the synthetic frame [fake_data] scored. *)
Definition state_after_training (w : World) (t : nat)
    (dataset_train : DataFrame) (st : PyState) : PyState :=
  {| best_scores := best_scores st;
     objective_seq_len := objective_seq_len st;
     objective_parameters := objective_parameters st;
     files := files st;
     study := study_after_suggestions w t (stop_requested t (study st));
     timegan_calls := S (timegan_calls st);
     trace := trace st ++ events_until_training w t dataset_train |}.

Definition state_after_trial (w : World) (t : nat)
    (dataset_train dataset_val : DataFrame) (database_name : string)
    (fake_data : DataFrame) (st : PyState) : PyState :=
  let scores := evaluate w fake_data dataset_val in
  let st1 := state_after_training w t dataset_train st in
  if float_gt scores (best_scores st)
  then {| best_scores := scores;
          objective_seq_len := Some (suggested_seq_len w t);
          objective_parameters := Some (built_parameters w t);
          files := <[database_name +:+ ".gz" := pickle_of_timegan]> (files st);
          study := study st1;
          timegan_calls := timegan_calls st1;
          trace := trace st1 ++ [EvEvaluate fake_data dataset_val;
                                 EvDump (database_name +:+ ".gz")] |}
  else {| best_scores := best_scores st;
          objective_seq_len := objective_seq_len st;
          objective_parameters := objective_parameters st;
          files := files st;
          study := study st1;
          timegan_calls := timegan_calls st1;
          trace := trace st1 ++ [EvEvaluate fake_data dataset_val] |}.

(** The events of a trial after the GAN routine returned, [o] being the
    outcome of the postprocessing and [best] the global before the call. *)
Definition objective_tail (w : World) (dataset_val : DataFrame) (database_name : string)
    (best : float) (o : outcome DataFrame) : list event :=
  match o with
  | Return fake_data =>
      EvEvaluate fake_data dataset_val ::
      (if float_gt (evaluate w fake_data dataset_val) best
       then [EvDump (database_name +:+ ".gz")] else [])
  | Raised _ => []
  end.

(** The state in which the objective of a new trial starts, and what the
    study holds about the trial numbered [t] once it is over with outcome
    [o] of the objective. *)
Definition state_after_ask (st : PyState) : PyState :=
  emit (EvAsk (length (study_trials (study st))))
    (set_study {| study_trials := study_trials (study st) ++ [new_trial];
                  stop_flag := stop_flag (study st) |} st).

Definition trial_record (w : World) (t : nat) (o : outcome float)
  : FrozenTrial :=
  match o with
  | Return value =>
      if PrimFloat.is_nan value
      then {| ft_state := FAIL; ft_value := None;
              ft_params := built_parameters w t |}
      else {| ft_state := COMPLETE; ft_value := Some value;
              ft_params := built_parameters w t |}
  | Raised _ =>
      {| ft_state := FAIL; ft_value := None;
         ft_params := built_parameters w t |}
  end.

Definition trial_end_event (t : nat) (o : outcome float) : event :=
  match o with
  | Return value => EvTell t value
  | Raised e => EvFail t e
  end.

(** The part of the state that only [objective] assigns. *)
Inductive process_state (w : World) : PyState -> Prop :=
| process_start fs stored : process_state w (initial_state fs stored)
| process_objective st trial dataset_train dataset_val num_samples columns
    database_name shift_numbers :
    process_state w st ->
    process_state w
      (objective w trial dataset_train dataset_val num_samples columns
         database_name shift_numbers st).1
| process_other st st' :
    process_state w st ->
    best_scores st' = best_scores st ->
    process_state w st'.

(** ** Invariants of the optimization loop *)

(** What holds between two trials of a run that started in a fresh process
    with the files [fs0]: the global is an upper bound of the values told so
    far; without a checkpoint it is still 0 and nothing was assigned or
    written; with a checkpoint written in trial [k], the global is the value
    of that trial, no earlier trial reached it, and attributes, file and
    study record are those of trial [k]. *)
Definition run_invariant (w : World) (database_name : string)
    (fs0 : gmap string file) (st : PyState) : Prop :=
  let tr := trace st in
  let b := best_scores st in
  float_le 0 b = true /\
  (forall p n u, told tr !! p = Some (n, u) -> float_gt u b = false) /\
  Forall (fun f => f = database_name +:+ ".gz") (dumps tr) /\
  match checkpoint_trial tr with
  | None =>
      b = 0%float /\ dumps tr = [] /\
      objective_seq_len st = None /\ objective_parameters st = None /\
      files st = fs0
  | Some k =>
      (exists p, told tr !! p = Some (k, b) /\
         forall q n u, (q < p)%nat -> told tr !! q = Some (n, u) ->
                       float_le b u = false) /\
      float_gt b 0 = true /\
      objective_seq_len st = Some (suggested_seq_len w k) /\
      objective_parameters st = Some (built_parameters w k) /\
      files st = <[database_name +:+ ".gz" := pickle_of_timegan]> fs0 /\
      exists ft, study_trials (study st) !! k = Some ft /\
                 ft_state ft = COMPLETE /\ ft_value ft = Some b /\
                 ft_params ft = built_parameters w k
  end.

(** In a study without earlier trials, the best trial of the study is the
    checkpointed one, when there is a checkpoint. *)
Definition fresh_invariant (st : PyState) : Prop :=
  (forall j ft v, best_from 0 (study_trials (study st)) None = Some (j, ft, v) ->
                  float_le v (best_scores st) = true) /\
  (forall k, checkpoint_trial (trace st) = Some k ->
             exists ft, best_from 0 (study_trials (study st)) None =
                          Some (k, ft, best_scores st) /\
                        study_trials (study st) !! k = Some ft).

(** One step of [best_from]. *)
Definition best_step (number : nat) (t : FrozenTrial)
    (best : option (nat * FrozenTrial * float))
  : option (nat * FrozenTrial * float) :=
  match ft_state t, ft_value t, best with
  | COMPLETE, Some v, Some (_, _, bv) =>
      if float_gt v bv then Some (number, t, v) else best
  | COMPLETE, Some v, None => Some (number, t, v)
  | _, _, _ => best
  end.

(** * Facts *)

(** ** Order facts on Python floats *)

Ltac sf_order :=
  unfold SFltb, SFleb, SFcompare;
  repeat match goal with
         | x : spec_float |- _ => destruct x as [[]|[]| |[] ? ?]
         end;
  simpl; try discriminate; try reflexivity;
  change PosDef.Pos.compare_cont with Pos.compare_cont;
  change (Pos.compare_cont Eq) with Pos.compare;
  repeat match goal with
         | |- context [Z.compare ?a ?b] =>
             destruct (Z.compare_spec a b); subst; simpl;
             try discriminate; try reflexivity; try lia
         end;
  repeat match goal with
         | |- context [Pos.compare ?a ?b] =>
             destruct (Pos.compare_spec a b); subst; simpl;
             try discriminate; try reflexivity; try lia
         end.

Lemma SFltb_irrefl x : SFltb x x = false.
Proof.
  unfold SFltb, SFcompare. destruct x as [[]|[]| |[] m e]; simpl; try reflexivity;
    rewrite Z.compare_refl;
    change (PosDef.Pos.compare_cont Eq m m) with (Pos.compare m m);
    rewrite Pos.compare_refl; reflexivity.
Qed.

Lemma SFltb_trans x y z : SFltb x y = true -> SFltb y z = true -> SFltb x z = true.
Proof. sf_order. Qed.

Lemma SFltb_leb_trans x y z : SFltb x y = true -> SFleb y z = true -> SFltb x z = true.
Proof. sf_order. Qed.

Lemma SFleb_ltb_trans x y z : SFleb x y = true -> SFltb y z = true -> SFltb x z = true.
Proof. sf_order. Qed.

Lemma SFltb_leb x y : SFltb x y = true -> SFleb x y = true.
Proof. sf_order. Qed.

Lemma float_gt_irrefl x : float_gt x x = false.
Proof. unfold float_gt. rewrite FloatAxioms.ltb_spec. apply SFltb_irrefl. Qed.

Lemma float_gt_trans x y z : float_gt x y = true -> float_gt y z = true -> float_gt x z = true.
Proof. unfold float_gt. rewrite !FloatAxioms.ltb_spec. intros H1 H2. exact (SFltb_trans _ _ _ H2 H1). Qed.

Lemma float_gt_le_trans x y z : float_gt x y = true -> float_le z y = true -> float_gt x z = true.
Proof.
  unfold float_gt, float_le. rewrite !FloatAxioms.ltb_spec, FloatAxioms.leb_spec. intros H1 H2.
  exact (SFleb_ltb_trans _ _ _ H2 H1).
Qed.

Lemma float_le_gt_trans x y z : float_le y x = true -> float_gt y z = true -> float_gt x z = true.
Proof.
  unfold float_gt, float_le. rewrite !FloatAxioms.ltb_spec, FloatAxioms.leb_spec. intros H1 H2.
  exact (SFltb_leb_trans _ _ _ H2 H1).
Qed.

Lemma float_gt_le x y : float_gt x y = true -> float_le y x = true.
Proof. unfold float_gt, float_le. rewrite FloatAxioms.ltb_spec, FloatAxioms.leb_spec. apply SFltb_leb. Qed.


Lemma float_gt_not_nan x y :
  float_gt x y = true -> PrimFloat.is_nan x = false /\ PrimFloat.is_nan y = false.
Proof.
  unfold float_gt, PrimFloat.is_nan. rewrite FloatAxioms.ltb_spec, !FloatAxioms.eqb_spec.
  generalize (Prim2SF x) (Prim2SF y). intros a b.
  unfold SFeqb. intros H. split.
  - revert H. sf_order.
  - revert H. sf_order.
Qed.

Lemma float_le_not_nan x y :
  float_le x y = true -> PrimFloat.is_nan x = false /\ PrimFloat.is_nan y = false.
Proof.
  unfold float_le, PrimFloat.is_nan. rewrite leb_spec, !FloatAxioms.eqb_spec.
  generalize (Prim2SF x) (Prim2SF y). intros a b.
  unfold SFeqb. intros H. split.
  - revert H. sf_order.
  - revert H. sf_order.
Qed.

Lemma float_total x y :
  PrimFloat.is_nan x = false -> PrimFloat.is_nan y = false ->
  float_gt x y = false -> float_le x y = true.
Proof.
  unfold float_gt, float_le, PrimFloat.is_nan. rewrite FloatAxioms.ltb_spec, FloatAxioms.leb_spec, !FloatAxioms.eqb_spec.
  generalize (Prim2SF x) (Prim2SF y). intros a b.
  unfold SFeqb. sf_order.
Qed.

Lemma float_le_not_gt x y : float_le x y = true -> float_gt x y = false.
Proof.
  unfold float_gt, float_le. rewrite FloatAxioms.ltb_spec, FloatAxioms.leb_spec.
  generalize (Prim2SF x) (Prim2SF y). intros a b. sf_order.
Qed.

Lemma float_le_refl x : PrimFloat.is_nan x = false -> float_le x x = true.
Proof.
  intros H. apply float_total; auto. apply float_gt_irrefl.
Qed.

(** ** Running [objective] *)

Ltac run_m :=
  cbv beta iota zeta delta
      [bind ret raise modify gets lift when suggest_categorical suggest_int
       record_suggestion study_stop call_cut_data call_timegan call_evaluate
       print joblib_dump_timegan orb Z.ltb Z.leb Z.compare Pos.compare
       Pos.compare_cont].

Ltac run_st :=
  cbn [emit set_best_scores set_objective_seq_len set_objective_parameters
       set_files set_study set_timegan_calls best_scores objective_seq_len
       objective_parameters files study timegan_calls trace fst snd].

Lemma PyState_ext (st1 st2 : PyState) :
  best_scores st1 = best_scores st2 ->
  objective_seq_len st1 = objective_seq_len st2 ->
  objective_parameters st1 = objective_parameters st2 ->
  files st1 = files st2 ->
  study st1 = study st2 ->
  timegan_calls st1 = timegan_calls st2 ->
  trace st1 = trace st2 ->
  st1 = st2.
Proof. destruct st1, st2; cbn; intros; subst; reflexivity. Qed.

Ltac state_eq :=
  apply PyState_ext; run_st;
  cbn [app map suggested fst snd]; repeat rewrite <- app_assoc; cbn [app];
  try reflexivity.

Section ObjectiveFacts.

Context (w : World).

(** One call of [objective], as a function of the state it starts in. *)
Lemma objective_unfold t dataset_train dataset_val num_samples columns
    database_name shift_numbers st :
  objective w t dataset_train dataset_val num_samples columns database_name
    shift_numbers st =
  match postprocess_data "opt"
          (generated_in_trial w t (timegan_calls st) dataset_train)
          columns (suggested_seq_len w t) shift_numbers with
  | Return fake_data =>
      (state_after_trial w t dataset_train dataset_val database_name
         fake_data st,
       Return (evaluate w fake_data dataset_val))
  | Raised e => (state_after_training w t dataset_train st, Raised e)
  end.
Proof.
  unfold objective, state_after_trial, state_after_training,
    generated_in_trial, events_until_training, stop_requested.
  run_m.
  destruct (Nat.eqb t 60); run_m; run_st;
    (destruct (postprocess_data _ _ _ _ _) as [fake|e]; run_m; run_st;
     [destruct (float_gt _ _); run_m; run_st|];
     (f_equal; state_eq)).
Qed.

Lemma new_events_app st st' evs :
  trace st' = trace st ++ evs -> new_events st st' = evs.
Proof. intros H. unfold new_events. rewrite H. apply drop_app_length. Qed.

Lemma objective_trace t dataset_train dataset_val num_samples columns
    database_name shift_numbers st :
  trace (objective w t dataset_train dataset_val num_samples columns
           database_name shift_numbers st).1 =
  trace st ++
  (events_until_training w t dataset_train ++
   objective_tail w dataset_val database_name (best_scores st)
     (postprocess_data "opt"
        (generated_in_trial w t (timegan_calls st) dataset_train)
        columns (suggested_seq_len w t) shift_numbers)).
Proof.
  rewrite objective_unfold.
  destruct (postprocess_data _ _ _ _ _) as [fake|e]; cbn [fst objective_tail].
  - unfold state_after_trial. destruct (float_gt _ _); cbn [trace];
      unfold state_after_training; cbn [trace];
      rewrite <- app_assoc; reflexivity.
  - unfold state_after_training; cbn [trace]. rewrite app_nil_r. reflexivity.
Qed.

Lemma objective_new_events t dataset_train dataset_val num_samples columns
    database_name shift_numbers st :
  new_events st
    (objective w t dataset_train dataset_val num_samples columns
       database_name shift_numbers st).1 =
  events_until_training w t dataset_train ++
  objective_tail w dataset_val database_name (best_scores st)
    (postprocess_data "opt"
       (generated_in_trial w t (timegan_calls st) dataset_train)
       columns (suggested_seq_len w t) shift_numbers).
Proof. apply new_events_app, objective_trace. Qed.

Lemma objective_result t dataset_train dataset_val num_samples columns
    database_name shift_numbers st :
  (objective w t dataset_train dataset_val num_samples columns
     database_name shift_numbers st).2 =
  match postprocess_data "opt"
          (generated_in_trial w t (timegan_calls st) dataset_train)
          columns (suggested_seq_len w t) shift_numbers with
  | Return fake_data => Return (evaluate w fake_data dataset_val)
  | Raised e => Raised e
  end.
Proof.
  rewrite objective_unfold. destruct (postprocess_data _ _ _ _ _); reflexivity.
Qed.

(** What a call of [objective] does to the global and to the attributes: it
    saves and assigns them together when the score exceeds the global, and
    leaves all of them alone otherwise. *)
Lemma objective_checkpoint t dataset_train dataset_val num_samples columns
    database_name shift_numbers st :
  let r := objective w t dataset_train dataset_val num_samples columns
             database_name shift_numbers st in
  (exists s, r.2 = Return s /\ float_gt s (best_scores st) = true /\
     best_scores r.1 = s /\
     objective_seq_len r.1 = Some (suggested_seq_len w t) /\
     objective_parameters r.1 = Some (built_parameters w t) /\
     files r.1 = <[database_name +:+ ".gz" := pickle_of_timegan]> (files st) /\
     dumps (new_events st r.1) = [database_name +:+ ".gz"]) \/
  ((forall s, r.2 = Return s -> float_gt s (best_scores st) = false) /\
     best_scores r.1 = best_scores st /\
     objective_seq_len r.1 = objective_seq_len st /\
     objective_parameters r.1 = objective_parameters st /\
     files r.1 = files st /\
     dumps (new_events st r.1) = []).
Proof.
  intros r. subst r. rewrite objective_new_events. rewrite objective_unfold.
  assert (Hd : dumps (events_until_training w t dataset_train) = []).
  { unfold events_until_training. destruct (Nat.eqb t 60); reflexivity. }
  unfold dumps in *. rewrite omap_app, Hd. cbn [app].
  destruct (postprocess_data _ _ _ _ _) as [fake|e]; cbn [fst snd objective_tail].
  - unfold state_after_trial.
    destruct (float_gt (evaluate w fake dataset_val) (best_scores st)) eqn:Hgt;
      cbn [best_scores objective_seq_len objective_parameters files omap].
    + left. exists (evaluate w fake dataset_val). repeat split; auto.
    + right. repeat split; auto. intros s Hs. inversion Hs; subst. exact Hgt.
  - right. repeat split; auto. intros s Hs. discriminate Hs.
Qed.

(** *** Suggested values *)

Lemma nth_mod_elem_of (l : list pyval) (k : nat) (d : pyval) :
  l <> [] -> nth (k mod length l)%nat l d ∈ l.
Proof.
  intros Hl. apply list_elem_of_In, nth_In, Nat.mod_upper_bound.
  destruct l; [congruence | discriminate].
Qed.

Lemma suggested_num_layer_domain t :
  suggested_num_layer w t ∈ [VInt 3; VInt 4; VInt 5; VInt 6].
Proof.
  unfold suggested_num_layer.
  change ((6 - 3) `div` 1 + 1) with 4.
  pose proof (Z.mod_pos_bound (Z.of_nat (sampler w t "num_layer")) 4 eq_refl) as Hb.
  set (m := Z.of_nat (sampler w t "num_layer") `mod` 4) in *.
  assert (Hm : m = 0 \/ m = 1 \/ m = 2 \/ m = 3) by lia.
  clearbody m. clear Hb.
  destruct Hm as [Hm | [Hm | [Hm | Hm]]]; rewrite Hm; cbn; set_solver.
Qed.

Lemma suggestions_of_objective t dataset_train dataset_val num_samples columns
    database_name shift_numbers st :
  suggestions_of
    (new_events st
       (objective w t dataset_train dataset_val num_samples columns
          database_name shift_numbers st).1) = suggested w t.
Proof.
  rewrite objective_new_events. unfold suggestions_of, events_until_training.
  rewrite !omap_app.
  replace (omap _ (objective_tail _ _ _ _ _)) with (@nil (string * pyval)).
  - destruct (Nat.eqb t 60); reflexivity.
  - unfold objective_tail. destruct (postprocess_data _ _ _ _ _); [|reflexivity].
    destruct (float_gt _ _); reflexivity.
Qed.

Lemma timegan_calls_of_objective t dataset_train dataset_val num_samples
    columns database_name shift_numbers st :
  timegan_calls_of
    (new_events st
       (objective w t dataset_train dataset_val num_samples columns
          database_name shift_numbers st).1) =
  [(cut_data w dataset_train (suggested_seq_len w t), built_parameters w t)].
Proof.
  rewrite objective_new_events. unfold timegan_calls_of, events_until_training.
  rewrite !omap_app.
  replace (omap _ (objective_tail _ _ _ _ _))
    with (@nil (ndarray * gmap string pyval)).
  - destruct (Nat.eqb t 60); reflexivity.
  - unfold objective_tail. destruct (postprocess_data _ _ _ _ _); [|reflexivity].
    destruct (float_gt _ _); reflexivity.
Qed.

(** C4. In every trial the six suggested values lie in their fixed finite
    domains, and the dictionary handed to the GAN routine holds exactly these
    six values under their names. *)
Theorem suggested_values_in_domains t dataset_train dataset_val num_samples
    columns database_name shift_numbers st :
  let evs :=
    new_events st
      (objective w t dataset_train dataset_val num_samples columns
         database_name shift_numbers st).1 in
  exists module hidden_dim batch_size num_layer iterations seq_len,
    suggestions_of evs =
      [("module", module); ("hidden_dim", hidden_dim);
       ("batch_size", batch_size); ("num_layer", num_layer);
       ("iterations", iterations); ("seq_len", seq_len)] /\
    module ∈ [VStr "gru"; VStr "lstm"; VStr "lstmLN"] /\
    hidden_dim ∈ [VInt 6; VInt 12; VInt 24; VInt 48] /\
    batch_size ∈ [VInt 2; VInt 4; VInt 8] /\
    num_layer ∈ [VInt 3; VInt 4; VInt 5; VInt 6] /\
    iterations ∈ [VInt 100; VInt 1000; VInt 10000] /\
    seq_len ∈ [VInt 1; VInt 5; VInt 10] /\
    exists parameters : gmap string pyval,
      map snd (timegan_calls_of evs) = [parameters] /\
      dom parameters =
        ({["module"; "hidden_dim"; "num_layer"; "iterations"; "batch_size";
           "seq_len"]} : gset string) /\
      parameters !! "module" = Some module /\
      parameters !! "hidden_dim" = Some hidden_dim /\
      parameters !! "num_layer" = Some num_layer /\
      parameters !! "iterations" = Some iterations /\
      parameters !! "batch_size" = Some batch_size /\
      parameters !! "seq_len" = Some seq_len.
Proof.
  intros evs. subst evs.
  rewrite suggestions_of_objective, timegan_calls_of_objective.
  exists (suggested_module w t), (suggested_hidden_dim w t),
    (suggested_batch_size w t), (suggested_num_layer w t),
    (suggested_iterations w t), (suggested_seq_len w t).
  split; [reflexivity|].
  repeat (split; [first [apply nth_mod_elem_of; discriminate
                        | apply suggested_num_layer_domain]|]).
  exists (built_parameters w t). split; [reflexivity|].
  unfold built_parameters. split.
  - rewrite !dom_insert_L, dom_empty_L. set_solver.
  - repeat split; simplify_map_eq; reflexivity.
Qed.

(** *** Order of the steps, returned score *)

Lemma steps_until_training t dataset_train :
  steps (events_until_training w t dataset_train) =
  replicate 6 Suggestion ++ [Reshaping; Training].
Proof.
  unfold steps, events_until_training. destruct (Nat.eqb t 60); reflexivity.
Qed.

Lemma cut_data_calls_objective t dataset_train dataset_val num_samples columns
    database_name shift_numbers st :
  cut_data_calls
    (new_events st
       (objective w t dataset_train dataset_val num_samples columns
          database_name shift_numbers st).1) =
  [(dataset_train, suggested_seq_len w t)].
Proof.
  rewrite objective_new_events. unfold cut_data_calls, events_until_training.
  rewrite !omap_app.
  replace (omap _ (objective_tail _ _ _ _ _)) with (@nil (DataFrame * pyval)).
  - destruct (Nat.eqb t 60); reflexivity.
  - unfold objective_tail. destruct (postprocess_data _ _ _ _ _); [|reflexivity].
    destruct (float_gt _ _); reflexivity.
Qed.

Lemma evaluate_calls_objective t dataset_train dataset_val num_samples columns
    database_name shift_numbers st :
  evaluate_calls
    (new_events st
       (objective w t dataset_train dataset_val num_samples columns
          database_name shift_numbers st).1) =
  match postprocess_data "opt"
          (generated_in_trial w t (timegan_calls st) dataset_train)
          columns (suggested_seq_len w t) shift_numbers with
  | Return fake_data => [(fake_data, dataset_val)]
  | Raised _ => []
  end.
Proof.
  rewrite objective_new_events. unfold evaluate_calls.
  rewrite omap_app.
  match goal with
  | |- omap ?f ?l ++ _ = _ =>
      replace (omap f l) with (@nil (DataFrame * DataFrame))
        by (unfold events_until_training; destruct (Nat.eqb t 60); reflexivity)
  end.
  cbn [app]. unfold objective_tail. destruct (postprocess_data _ _ _ _ _); [|reflexivity].
  destruct (float_gt _ _); reflexivity.
Qed.

(** C5. The steps of a trial come in the order suggestion, reshaping of the
    training set with the suggested sequence length, training/generation,
    scoring of the postprocessed data against the validation set,
    checkpointing (performed when the score beats the best so far); no
    step precedes one listed before it. *)
Theorem trial_steps_in_order t dataset_train dataset_val num_samples columns
    database_name shift_numbers st :
  let r := objective w t dataset_train dataset_val num_samples columns
             database_name shift_numbers st in
  let evs := new_events st r.1 in
  steps evs =
    replicate 6 Suggestion ++ [Reshaping; Training] ++
    match r.2 with
    | Return scores =>
        Scoring :: (if float_gt scores (best_scores st)
                    then [Checkpointing] else [])
    | Raised _ => []
    end /\
  StronglySorted (fun a b => (step_rank a <= step_rank b)%nat) (steps evs) /\
  exists seq_len parameters,
    last (suggestions_of evs) = Some ("seq_len", seq_len) /\
    cut_data_calls evs = [(dataset_train, seq_len)] /\
    timegan_calls_of evs = [(cut_data w dataset_train seq_len, parameters)] /\
    forall fake_data real,
      (fake_data, real) ∈ evaluate_calls evs ->
      real = dataset_val /\
      postprocess_data "opt"
        (timegan w (timegan_calls st) (cut_data w dataset_train seq_len)
           parameters)
        columns seq_len shift_numbers = Return fake_data.
Proof.
  intros r evs.
  assert (Hsteps : steps evs =
    replicate 6 Suggestion ++ [Reshaping; Training] ++
    match r.2 with
    | Return scores =>
        Scoring :: (if float_gt scores (best_scores st)
                    then [Checkpointing] else [])
    | Raised _ => []
    end).
  { subst evs r. rewrite objective_new_events, objective_result.
    unfold steps. rewrite omap_app. fold (steps (events_until_training w t dataset_train)).
    rewrite steps_until_training, <- app_assoc. do 2 f_equal.
    unfold objective_tail. destruct (postprocess_data _ _ _ _ _); [|reflexivity].
    destruct (float_gt _ _); reflexivity. }
  split; [exact Hsteps|]. split.
  - rewrite Hsteps. destruct r.2 as [s|e]; [destruct (float_gt _ _)|];
      cbn; repeat constructor; cbn; lia.
  - exists (suggested_seq_len w t), (built_parameters w t). subst evs r.
    rewrite suggestions_of_objective, cut_data_calls_objective,
      timegan_calls_of_objective, evaluate_calls_objective.
    do 3 (split; [reflexivity|]).
    intros fake real Hin.
    fold (generated_in_trial w t (timegan_calls st) dataset_train).
    destruct (postprocess_data _ _ _ _ _) eqn:Hp.
    + apply list_elem_of_singleton in Hin. split; congruence.
    + apply elem_of_nil in Hin. contradiction.
Qed.

(** C6. The value [objective] returns is the score given by [evaluate] for
    the postprocessed generated data and the validation set, and it is this
    value that is compared with [best_scores] to decide on the checkpoint. *)
Theorem objective_returns_compared_score t dataset_train dataset_val
    num_samples columns database_name shift_numbers st :
  let r := objective w t dataset_train dataset_val num_samples columns
             database_name shift_numbers st in
  let evs := new_events st r.1 in
  exists data parameters,
    timegan_calls_of evs = [(data, parameters)] /\
    match postprocess_data "opt"
            (timegan w (timegan_calls st) data parameters)
            columns (suggested_seq_len w t) shift_numbers with
    | Return fake_data =>
        let scores := evaluate w fake_data dataset_val in
        r.2 = Return scores /\
        evaluate_calls evs = [(fake_data, dataset_val)] /\
        dumps evs = (if float_gt scores (best_scores st)
                     then [database_name +:+ ".gz"] else []) /\
        best_scores r.1 = (if float_gt scores (best_scores st)
                           then scores else best_scores st)
    | Raised e =>
        r.2 = Raised e /\ evaluate_calls evs = [] /\ dumps evs = [] /\
        best_scores r.1 = best_scores st
    end.
Proof.
  intros r evs.
  exists (cut_data w dataset_train (suggested_seq_len w t)), (built_parameters w t).
  subst evs. split; [apply timegan_calls_of_objective|].
  pose proof (objective_checkpoint t dataset_train dataset_val num_samples
                columns database_name shift_numbers st) as Hc.
  cbv zeta in Hc. fold r in Hc.
  pose proof (objective_result t dataset_train dataset_val num_samples
                columns database_name shift_numbers st) as Hr.
  fold r in Hr.
  pose proof (evaluate_calls_objective t dataset_train dataset_val num_samples
                columns database_name shift_numbers st) as He.
  fold r in He. unfold generated_in_trial in *.
  destruct (postprocess_data _ _ _ _ _) as [fake|e].
  - cbv zeta. split; [exact Hr|]. split; [exact He|].
    destruct Hc as [(s & Hs & Hgt & Hb & _ & _ & _ & Hd)
                   |(Hs & Hb & _ & _ & _ & Hd)].
    + assert (Es : evaluate w fake dataset_val = s) by congruence.
      rewrite Es, Hgt. auto.
    + rewrite (Hs _ Hr). auto.
  - split; [exact Hr|]. split; [exact He|].
    destruct Hc as [(s & Hs & _)|(Hs & Hb & _ & _ & _ & Hd)].
    + rewrite Hr in Hs. discriminate.
    + auto.
Qed.

End ObjectiveFacts.

(** ** One trial of the optimization loop *)

Lemma alter_app_last {A : Type} (f : A -> A) (l : list A) (x : A) :
  alter f (length l) (l ++ [x]) = l ++ [f x].
Proof.
  induction l as [|a l IH]; [reflexivity|].
  cbn [length app]. change (alter f (S (length l)) (a :: l ++ [x]))
    with (a :: alter f (length l) (l ++ [x])). rewrite IH. reflexivity.
Qed.

Lemma recorded_parameters w t :
  <["seq_len" := suggested_seq_len w t]>
    (<["iterations" := suggested_iterations w t]>
       (<["num_layer" := suggested_num_layer w t]>
          (<["batch_size" := suggested_batch_size w t]>
             (<["hidden_dim" := suggested_hidden_dim w t]>
                (<["module" := suggested_module w t]> (∅ : gmap string pyval))))))
  = built_parameters w t.
Proof.
  unfold built_parameters. apply map_eq. intros k.
  repeat (rewrite lookup_insert; case_decide; [reflexivity|]).
  symmetry.
  repeat (rewrite lookup_insert; case_decide; [congruence|]).
  reflexivity.
Qed.

Section TrialFacts.

Context (w : World).
Context (dataset_train dataset_val : DataFrame) (num_samples : Z).
Context (columns : list string) (database_name : string).
Context (shift_numbers : list Z).

Let func (trial : nat) : M float :=
  objective w trial dataset_train dataset_val num_samples columns
    database_name shift_numbers.

Lemma study_trials_after_objective t st :
  t = length (study_trials (study st)) ->
  study_trials (study (func t (state_after_ask st)).1) =
  study_trials (study st) ++
    [{| ft_state := RUNNING; ft_value := None;
        ft_params := built_parameters w t |}].
Proof.
  intros Ht. unfold func. rewrite objective_unfold.
  assert (Hs : study_trials
            (study (state_after_training w t dataset_train (state_after_ask st))) =
          study_trials (study st) ++
            [{| ft_state := RUNNING; ft_value := None;
                ft_params := built_parameters w t |}]).
  { unfold state_after_training, state_after_ask. run_st.
    unfold study_after_suggestions, set_trial_param, stop_requested.
    destruct (Nat.eqb t 60); cbn [study_trials];
      rewrite Ht, !alter_app_last; unfold new_trial; cbn [ft_state ft_value ft_params];
      rewrite <- Ht, recorded_parameters; reflexivity. }
  destruct (postprocess_data _ _ _ _ _); cbn [fst]; [|exact Hs].
  unfold state_after_trial. destruct (float_gt _ _); cbn [study]; exact Hs.
Qed.

Lemma stop_flag_after_objective t st :
  stop_flag (study (func t (state_after_ask st)).1) =
  stop_flag (study st) || Nat.eqb t 60.
Proof.
  unfold func. rewrite objective_unfold.
  assert (Hs : stop_flag
            (study (state_after_training w t dataset_train (state_after_ask st))) =
          stop_flag (study st) || Nat.eqb t 60).
  { unfold state_after_training, state_after_ask. run_st.
    unfold study_after_suggestions, set_trial_param, stop_requested.
    destruct (Nat.eqb t 60); cbn [stop_flag];
      destruct (stop_flag (study st)); reflexivity. }
  destruct (postprocess_data _ _ _ _ _); cbn [fst]; [|exact Hs].
  unfold state_after_trial. destruct (float_gt _ _); cbn [study]; exact Hs.
Qed.

(** The state and result of one trial in terms of the objective's. *)
Lemma run_trial_unfold st :
  let t := length (study_trials (study st)) in
  let ro := func t (state_after_ask st) in
  run_trial func st =
  ({| best_scores := best_scores ro.1;
      objective_seq_len := objective_seq_len ro.1;
      objective_parameters := objective_parameters ro.1;
      files := files ro.1;
      study := {| study_trials :=
                    study_trials (study st) ++ [trial_record w t ro.2];
                  stop_flag := stop_flag (study st) || Nat.eqb t 60 |};
      timegan_calls := timegan_calls ro.1;
      trace := trace ro.1 ++ [trial_end_event t ro.2] |},
   match ro.2 with
   | Return _ => Return tt
   | Raised e => Raised e
   end).
Proof.
  intros t ro.
  pose proof (study_trials_after_objective t st eq_refl) as Htr.
  pose proof (stop_flag_after_objective t st) as Hfl.
  fold ro in Htr, Hfl.
  unfold run_trial, tell, ask, bind, gets, modify, ret.
  fold t. change (emit (EvAsk t) _) with (state_after_ask st). fold ro.
  destruct ro as [st' [v|e]]; cbn [fst snd] in *; subst t.
  - f_equal. unfold trial_record, trial_end_event.
    apply PyState_ext; run_st; try reflexivity.
    destruct (PrimFloat.is_nan v); unfold finish_trial; rewrite Htr, Hfl;
      rewrite alter_app_last; reflexivity.
  - f_equal. unfold trial_record, trial_end_event.
    apply PyState_ext; run_st; try reflexivity.
    unfold finish_trial; rewrite Htr, Hfl; rewrite alter_app_last; reflexivity.
Qed.

End TrialFacts.

(** ** [postprocess_data] *)

Section PostprocessFacts.

Local Open Scope nat_scope.

Lemma fold_left_append {A B : Type} (h : B -> A) (l : list B) (acc : list A) :
  fold_left (fun acc j => acc ++ [h j]) l acc = acc ++ map h l.
Proof.
  revert acc. induction l as [|b l IH]; intros acc; cbn.
  - symmetry. apply app_nil_r.
  - rewrite IH, <- app_assoc. reflexivity.
Qed.

Lemma fold_left_append_rows {A : Type} (r : nat -> nat -> A) (s : nat)
    (l : list nat) (acc : list A) :
  fold_left (fun acc i => fold_left (fun acc j => acc ++ [r i j]) (seq 0 s) acc)
    l acc =
  acc ++ flat_map (fun i => map (r i) (seq 0 s)) l.
Proof.
  revert acc. induction l as [|i l IH]; intros acc; cbn.
  - symmetry. apply app_nil_r.
  - rewrite IH, fold_left_append, <- app_assoc. reflexivity.
Qed.

Lemma conditioned_rows_flat_map g :
  conditioned_rows g =
  flat_map (fun i => map (row_of g i) (seq 0 (shape1 g))) (seq 0 (shape0 g)).
Proof.
  unfold conditioned_rows.
  exact (fold_left_append_rows (row_of g) (shape1 g) (seq 0 (shape0 g)) []).
Qed.

Lemma length_flat_map_seq {A : Type} (r : nat -> nat -> A) (s a n : nat) :
  length (flat_map (fun i => map (r i) (seq 0 s)) (seq a n)) = n * s.
Proof.
  revert a. induction n as [|n IH]; intros a; cbn; [reflexivity|].
  rewrite length_app, length_map, length_seq, IH. reflexivity.
Qed.

Lemma lookup_flat_map_seq {A : Type} (r : nat -> nat -> A) (s a n i j : nat) :
  i < n -> j < s ->
  flat_map (fun i => map (r i) (seq 0 s)) (seq a n) !! (i * s + j) =
  Some (r (a + i) j).
Proof.
  revert a i. induction n as [|n IH]; intros a i Hi Hj; [lia|].
  cbn [seq flat_map]. destruct i as [|i].
  - rewrite lookup_app_l by (rewrite length_map, length_seq; lia).
    cbn [Nat.mul Nat.add]. rewrite list_lookup_fmap, lookup_seq_lt by lia.
    cbn. rewrite Nat.add_0_r. reflexivity.
  - rewrite lookup_app_r by (rewrite length_map, length_seq; lia).
    rewrite length_map, length_seq.
    replace (S i * s + j - s) with (i * s + j) by lia.
    rewrite IH by lia. f_equal. f_equal. lia.
Qed.

(** The rows come out in lexicographic order of [(i, j)]. *)
Lemma conditioned_rows_length g :
  length (conditioned_rows g) = shape0 g * shape1 g.
Proof. rewrite conditioned_rows_flat_map. apply length_flat_map_seq. Qed.

Lemma conditioned_rows_lookup g i j :
  i < shape0 g -> j < shape1 g ->
  conditioned_rows g !! (i * shape1 g + j) = Some (row_of g i j).
Proof.
  intros Hi Hj. rewrite conditioned_rows_flat_map.
  rewrite lookup_flat_map_seq by assumption. reflexivity.
Qed.

Lemma conditioned_rows_width g :
  Forall (fun r => length r = shape2 g) (conditioned_rows g).
Proof.
  rewrite conditioned_rows_flat_map. apply Forall_flat_map, Forall_forall.
  intros i _. apply Forall_map, Forall_forall. intros j _.
  unfold row_of. rewrite length_map, length_seq. reflexivity.
Qed.

Lemma row_of_slice g stop i j :
  row_of (slice_last_axis g stop) i j =
  take (slice_stop stop (shape2 g)) (row_of g i j).
Proof.
  unfold row_of, slice_last_axis. cbn [shape2 item].
  assert (Hle : slice_stop stop (shape2 g) <= shape2 g).
  { unfold slice_stop. destruct (stop <? 0)%Z eqn:E;
      [apply Z.ltb_lt in E|apply Z.ltb_ge in E]; lia. }
  rewrite <- fmap_take. f_equal. rewrite take_seq. f_equal. lia.
Qed.

(** With at least one shift number the slice drops that many trailing
    columns (all of them when there are not more). *)
Lemma slice_stop_negative (k c : nat) :
  0 < k -> slice_stop (Z.of_nat k * -1) c = c - k.
Proof.
  intros Hk. unfold slice_stop.
  destruct (Z.of_nat k * -1 <? 0)%Z eqn:E; [lia|].
  apply Z.ltb_ge in E. lia.
Qed.

(** Without any shift number the stop is [0] and the slice is empty. *)
Lemma slice_stop_zero (c : nat) : slice_stop (Z.of_nat 0 * -1) c = 0.
Proof.
  unfold slice_stop. change (Z.of_nat 0 * -1)%Z with 0%Z.
  change (0 <? 0)%Z with false. cbv iota. lia.
Qed.

(** What [postprocess_data] returns when it returns: the labels given, and
    the rows of the array in lexicographic order, each cut to the columns
    kept. For [shift_numbers = (0,)] all columns are kept, for a tuple of
    [k >= 1] other shift numbers the last [k] are dropped. *)
Lemma postprocess_data_rows eval_or_opt g columns seq_len shift_numbers df :
  shift_numbers <> [] ->
  postprocess_data eval_or_opt g columns seq_len shift_numbers = Return df ->
  let kept := if bool_decide (shift_numbers = [0%Z]) then shape2 g
              else shape2 g - length shift_numbers in
  df_columns df = columns /\
  length (df_data df) = shape0 g * shape1 g /\
  forall i j, i < shape0 g -> j < shape1 g ->
    df_data df !! (i * shape1 g + j) = Some (take kept (row_of g i j)).
Proof.
  intros Hne. unfold postprocess_data, pd_DataFrame.
  destruct (forallb _ _); [|discriminate]. intros E. injection E as <-.
  cbn [df_columns df_data]. split; [reflexivity|].
  unfold delete_shifted.
  destruct (decide (shift_numbers = [0%Z])) as [->|Hs].
  - rewrite bool_decide_eq_false_2 by (intros H; apply H; reflexivity).
    rewrite bool_decide_eq_true_2 by reflexivity.
    split; [apply conditioned_rows_length|]. intros i j Hi Hj.
    rewrite conditioned_rows_lookup by assumption. f_equal.
    symmetry. apply take_ge. unfold row_of. rewrite length_map, length_seq. lia.
  - rewrite bool_decide_eq_true_2 by assumption.
    rewrite (bool_decide_eq_false_2 _ Hs).
    split; [rewrite conditioned_rows_length; reflexivity|]. intros i j Hi Hj.
    change (shape1 g) with (shape1 (slice_last_axis g (Z.of_nat (length shift_numbers) * -1))).
    rewrite conditioned_rows_lookup by assumption.
    rewrite row_of_slice, slice_stop_negative; [reflexivity|].
    destruct shift_numbers; [congruence|cbn; lia].
Qed.

(** Called without shift numbers, every row [postprocess_data] collects is
    empty, whatever the array holds. *)
Lemma conditioned_rows_without_shifts g :
  Forall (fun r => r = []) (conditioned_rows (delete_shifted g [])).
Proof.
  eapply Forall_impl; [apply conditioned_rows_width|].
  intros r Hr. unfold delete_shifted in Hr.
  rewrite bool_decide_eq_true_2 in Hr by discriminate.
  cbn [shape2 slice_last_axis length] in Hr. rewrite slice_stop_zero in Hr.
  destruct r; [reflexivity|discriminate].
Qed.

(** C8. With the empty tuple of shift numbers, [postprocess_data] drops all
    feature columns instead of none: on a 1 x 1 x 2 array with two column
    labels it collects the single row [[]] and the frame construction
    raises, while the same call with [shift_numbers = (0,)] returns the row
    unchanged. *)
Theorem postprocess_data_no_shift_drops_all_columns :
  row_of (sample_array 1%float) 0 0 = [1%float; 1%float] /\
  conditioned_rows (delete_shifted (sample_array 1%float) []) = [[]] /\
  postprocess_data "opt" (sample_array 1%float) ["a"; "b"] (VInt 1) [] =
    Raised ValueError /\
  postprocess_data "opt" (sample_array 1%float) ["a"; "b"] (VInt 1) [0%Z] =
    Return {| df_data := [[1%float; 1%float]]; df_columns := ["a"; "b"] |}.
Proof. repeat split; vm_compute; reflexivity. Qed.

(** *** Domain and entries of the result *)

Lemma shape2_delete_shifted g shift_numbers :
  shape2 (delete_shifted g shift_numbers) =
  columns_kept (shape2 g) shift_numbers.
Proof.
  unfold delete_shifted, columns_kept.
  destruct (decide (shift_numbers = [0%Z])) as [->|Hs].
  - rewrite bool_decide_eq_false_2 by (intros H; apply H; reflexivity).
    rewrite bool_decide_eq_true_2 by reflexivity. reflexivity.
  - rewrite bool_decide_eq_true_2 by assumption.
    rewrite (bool_decide_eq_false_2 _ Hs). cbn [shape2 slice_last_axis].
    destruct shift_numbers as [|z l]; [apply slice_stop_zero|].
    apply slice_stop_negative. cbn. lia.
Qed.

Lemma columns_kept_le c shift_numbers : columns_kept c shift_numbers <= c.
Proof.
  unfold columns_kept. destruct (bool_decide _); [lia|].
  destruct shift_numbers; lia.
Qed.

Lemma forallb_width (rows : list (list float)) (c n : nat) :
  Forall (fun r => length r = c) rows ->
  forallb (fun r => Nat.eqb (length r) n) rows =
  bool_decide (rows = [] \/ c = n).
Proof.
  intros Hw. destruct rows as [|r rows].
  - symmetry. apply bool_decide_eq_true_2. left. reflexivity.
  - destruct (decide (c = n)) as [->|Hne].
    + transitivity true;
        [|symmetry; apply bool_decide_eq_true_2; right; reflexivity].
      apply forallb_forall. intros x Hx. apply Nat.eqb_eq.
      rewrite Forall_forall in Hw. apply Hw, list_elem_of_In, Hx.
    + transitivity false;
        [|symmetry; apply bool_decide_eq_false_2;
          intros [H|H]; [discriminate|auto]].
      cbn [forallb]. apply Forall_cons in Hw as [Hr _].
      rewrite Hr. apply Nat.eqb_neq in Hne. rewrite Hne. reflexivity.
Qed.

Lemma postprocess_data_unfold eval_or_opt g columns seq_len shift_numbers :
  postprocess_data eval_or_opt g columns seq_len shift_numbers =
  if bool_decide (conditioned_rows (delete_shifted g shift_numbers) = [] \/
                  columns_kept (shape2 g) shift_numbers = length columns)
  then Return {| df_data := conditioned_rows (delete_shifted g shift_numbers);
                 df_columns := columns |}
  else Raised ValueError.
Proof.
  unfold postprocess_data, pd_DataFrame.
  rewrite (forallb_width _ (columns_kept (shape2 g) shift_numbers)).
  - reflexivity.
  - rewrite <- shape2_delete_shifted. apply conditioned_rows_width.
Qed.

Lemma conditioned_rows_nil g shift_numbers :
  conditioned_rows (delete_shifted g shift_numbers) = [] <->
  shape0 g = 0 \/ shape1 g = 0.
Proof.
  rewrite <- length_zero_iff_nil, conditioned_rows_length.
  assert (E0 : shape0 (delete_shifted g shift_numbers) = shape0 g)
    by (unfold delete_shifted; destruct (bool_decide _); reflexivity).
  assert (E1 : shape1 (delete_shifted g shift_numbers) = shape1 g)
    by (unfold delete_shifted; destruct (bool_decide _); reflexivity).
  rewrite E0, E1. lia.
Qed.

(** X1. [postprocess_data] returns a frame exactly when the array has no
    row ([shape0 = 0] or [shape1 = 0]) or the number of column labels is the
    number of feature columns kept; in every other case it raises
    [ValueError], and it raises nothing else. *)
Theorem postprocess_data_returns_iff eval_or_opt g columns seq_len
    shift_numbers :
  let result :=
    postprocess_data eval_or_opt g columns seq_len shift_numbers in
  let kept := columns_kept (shape2 g) shift_numbers in
  ((exists df, result = Return df) <->
   shape0 g = 0 \/ shape1 g = 0 \/ length columns = kept) /\
  (result = Raised ValueError <->
   0 < shape0 g /\ 0 < shape1 g /\ length columns <> kept) /\
  (forall e, result = Raised e -> e = ValueError).
Proof.
  cbv zeta. rewrite postprocess_data_unfold.
  pose proof (conditioned_rows_nil g shift_numbers) as Hnil.
  destruct (bool_decide _) eqn:E.
  - apply bool_decide_eq_true_1 in E.
    assert (H : shape0 g = 0 \/ shape1 g = 0 \/
                length columns = columns_kept (shape2 g) shift_numbers).
    { destruct E as [E|E]; [apply Hnil in E; tauto|auto]. }
    split; [split; [intros _; exact H|intros _; eexists; reflexivity]|].
    split; [split; [discriminate|lia]|discriminate].
  - apply bool_decide_eq_false_1 in E.
    assert (H : 0 < shape0 g /\ 0 < shape1 g /\
                length columns <> columns_kept (shape2 g) shift_numbers).
    { rewrite Hnil in E. repeat split; lia. }
    split; [split; [intros [df Hdf]; discriminate|lia]|].
    split; [split; [intros _; exact H|reflexivity]|].
    intros e He. congruence.
Qed.

(** X2. The frame [postprocess_data] returns carries the labels given and
    one row per pair [(i, j)] in lexicographic order, and the row of
    [(i, j)] holds the first kept feature columns of [generated_data[i, j]],
    one per label. *)
Theorem postprocess_data_entries eval_or_opt g columns seq_len shift_numbers
    df :
  postprocess_data eval_or_opt g columns seq_len shift_numbers = Return df ->
  let kept := columns_kept (shape2 g) shift_numbers in
  df_columns df = columns /\
  length (df_data df) = shape0 g * shape1 g /\
  Forall (fun row => length row = length columns) (df_data df) /\
  forall i j, i < shape0 g -> j < shape1 g ->
    exists row,
      df_data df !! (i * shape1 g + j) = Some row /\
      length row = kept /\
      forall k, k < kept -> row !! k = Some (item g i j k).
Proof.
  rewrite postprocess_data_unfold.
  assert (E0 : shape0 (delete_shifted g shift_numbers) = shape0 g)
    by (unfold delete_shifted; destruct (bool_decide _); reflexivity).
  assert (E1 : shape1 (delete_shifted g shift_numbers) = shape1 g)
    by (unfold delete_shifted; destruct (bool_decide _); reflexivity).
  assert (Ei : item (delete_shifted g shift_numbers) = item g)
    by (unfold delete_shifted; destruct (bool_decide _); reflexivity).
  pose proof (shape2_delete_shifted g shift_numbers) as E2.
  pose proof (columns_kept_le (shape2 g) shift_numbers) as Hle.
  pose proof (conditioned_rows_width (delete_shifted g shift_numbers)) as Hw.
  destruct (bool_decide _) eqn:E; [|discriminate].
  apply bool_decide_eq_true_1 in E. intros Hdf. injection Hdf as <-.
  cbv zeta. cbn [df_columns df_data].
  split; [reflexivity|].
  split; [rewrite conditioned_rows_length, E0, E1; reflexivity|].
  split.
  - destruct E as [E|E]; [rewrite E; constructor|].
    rewrite <- E, <- E2. exact Hw.
  - intros i j Hi Hj.
    exists (row_of (delete_shifted g shift_numbers) i j).
    split; [rewrite <- E1; apply conditioned_rows_lookup; lia|].
    unfold row_of. rewrite length_map, length_seq, Ei, E2.
    split; [reflexivity|]. intros k Hk.
    rewrite list_lookup_fmap, lookup_seq_lt by lia. reflexivity.
Qed.

(** X3. The arguments [eval_or_opt] and [seq_len] have no effect on what
    [postprocess_data] returns or raises. *)
Theorem postprocess_data_ignores_mode_and_seq_len eval_or_opt eval_or_opt'
    seq_len seq_len' g columns shift_numbers :
  postprocess_data eval_or_opt g columns seq_len shift_numbers =
  postprocess_data eval_or_opt' g columns seq_len' shift_numbers.
Proof. reflexivity. Qed.

End PostprocessFacts.

(** ** [test_samples] *)

Section EvaluateFacts.

Context (w : Evaluate.World).

(** C7. [test_samples] loads the test data from
    'test_data_schachtschneider.csv' and the synthetic data from
    'fake_data_<database_name>.csv', runs the visual evaluation and the
    regression evaluation for target column 'Lavandula' on a table evaluator
    with the categorical columns "public_holiday" and "weekday", and prints
    the per-metric (not aggregated) scores of the fake against the test
    data. *)
Theorem test_samples_evaluations database_name print_data :
  let tr := (Evaluate.test_samples w database_name print_data).1 in
  let loaded :=
    Evaluate.load_data w "test_data_schachtschneider.csv"
      ("fake_data_" +:+ database_name +:+ ".csv") in
  let test := loaded.1 in
  let fake := loaded.2 in
  let table_evaluator :=
    {| Evaluate.te_real := test; Evaluate.te_fake := fake;
       Evaluate.te_cat_cols := ["public_holiday"; "weekday"] |} in
  Evaluate.evaluations tr =
    [Evaluate.EvLoadData "test_data_schachtschneider.csv"
       ("fake_data_" +:+ database_name +:+ ".csv");
     Evaluate.EvTableEvaluator test fake ["public_holiday"; "weekday"];
     Evaluate.EvVisualEvaluation table_evaluator;
     Evaluate.EvEvaluate table_evaluator "Lavandula" "regr";
     Evaluate.EvSdvEvaluate fake test false;
     Evaluate.EvPrintScores (Evaluate.evaluate w fake test false)] /\
  Evaluate.frame_prints tr = if print_data then [fake; test] else [].
Proof. destruct print_data; split; reflexivity. Qed.

(** C10. The flag [print_data] only decides whether the two loaded frames
    are printed: leaving the frame prints out, the run with the flag set
    performs the events of the run without it, with the same inputs and the
    same printed scores; the run without the flag prints no frame. *)
Theorem print_data_only_prints database_name :
  let tr_true := (Evaluate.test_samples w database_name true).1 in
  let tr_false := (Evaluate.test_samples w database_name false).1 in
  Evaluate.evaluations tr_true = tr_false /\
  Evaluate.evaluations tr_false = tr_false /\
  Evaluate.frame_prints tr_false = [] /\
  length (Evaluate.frame_prints tr_true) = 2%nat /\
  (Evaluate.test_samples w database_name true).2 =
  (Evaluate.test_samples w database_name false).2.
Proof. repeat split; reflexivity. Qed.

End EvaluateFacts.

(** ** The global [best_scores] *)

Section BestScoresFacts.

Context (w : World).

Lemma best_scores_after_objective t dataset_train dataset_val num_samples
    columns database_name shift_numbers st :
  let r := objective w t dataset_train dataset_val num_samples columns
             database_name shift_numbers st in
  best_scores r.1 = best_scores st \/
  float_gt (best_scores r.1) (best_scores st) = true.
Proof.
  intros r.
  destruct (objective_checkpoint w t dataset_train dataset_val num_samples
              columns database_name shift_numbers st)
    as [(s & _ & Hgt & Hb & _)|(_ & Hb & _)]; fold r in Hb.
  - right. rewrite Hb. exact Hgt.
  - left. exact Hb.
Qed.

(** In every state of a process the global is a number not below zero. *)
Lemma process_state_best_scores st :
  process_state w st -> float_le 0 (best_scores st) = true.
Proof.
  induction 1 as [fs stored|st t dtr dv ns cols db sh _ IH|st st' _ IH Hb].
  - reflexivity.
  - destruct (best_scores_after_objective t dtr dv ns cols db sh st) as [->|Hgt];
      [exact IH|].
    apply float_gt_le. eapply float_gt_le_trans; eassumption.
  - rewrite Hb. exact IH.
Qed.

(** C9. The global [best_scores] starts at 0 and a trial never lowers it; a
    trial writes the checkpoint and assigns [objective.seq_len] and
    [objective.parameters] exactly when its score exceeds the global
    (otherwise file, attributes and global stay as they are), so a trial
    whose score is at most 0 leaves no checkpoint. *)
Theorem best_scores_monotone_checkpoint_iff fs stored st t dataset_train
    dataset_val num_samples columns database_name shift_numbers :
  process_state w st ->
  let r := objective w t dataset_train dataset_val num_samples columns
             database_name shift_numbers st in
  let exceeds :=
    exists s, r.2 = Return s /\ float_gt s (best_scores st) = true in
  best_scores (initial_state fs stored) = 0%float /\
  (best_scores r.1 = best_scores st \/
   float_gt (best_scores r.1) (best_scores st) = true) /\
  (exceeds <-> dumps (new_events st r.1) = [database_name +:+ ".gz"]) /\
  (~ exceeds <-> dumps (new_events st r.1) = []) /\
  (exceeds ->
   r.2 = Return (best_scores r.1) /\
   objective_seq_len r.1 = last (suggestions_of (new_events st r.1)).*2 /\
   objective_parameters r.1 = last (timegan_calls_of (new_events st r.1)).*2 /\
   files r.1 = <[database_name +:+ ".gz" := pickle_of_timegan]> (files st)) /\
  (~ exceeds ->
   best_scores r.1 = best_scores st /\
   objective_seq_len r.1 = objective_seq_len st /\
   objective_parameters r.1 = objective_parameters st /\
   files r.1 = files st) /\
  (forall s, r.2 = Return s -> float_le s 0 = true -> ~ exceeds).
Proof.
  intros Hst r exceeds.
  pose proof (process_state_best_scores st Hst) as Hnn.
  pose proof (objective_checkpoint w t dataset_train dataset_val num_samples
                columns database_name shift_numbers st) as Hc.
  cbv zeta in Hc. fold r in Hc.
  assert (Hcases :
    (exceeds /\ dumps (new_events st r.1) = [database_name +:+ ".gz"] /\
     r.2 = Return (best_scores r.1) /\
     objective_seq_len r.1 = Some (suggested_seq_len w t) /\
     objective_parameters r.1 = Some (built_parameters w t) /\
     files r.1 = <[database_name +:+ ".gz" := pickle_of_timegan]> (files st)) \/
    (~ exceeds /\ dumps (new_events st r.1) = [] /\
     best_scores r.1 = best_scores st /\
     objective_seq_len r.1 = objective_seq_len st /\
     objective_parameters r.1 = objective_parameters st /\
     files r.1 = files st)).
  { destruct Hc as [(s & Hs & Hgt & Hb & Hl & Hp & Hf & Hd)
                   |(Hs & Hb & Hl & Hp & Hf & Hd)].
    - left. split; [exists s; auto|]. rewrite Hb. auto.
    - right. split; [|auto]. intros (s & Hr & Hgt).
      rewrite (Hs s Hr) in Hgt. discriminate. }
  assert (Hsug : last (suggestions_of (new_events st r.1)).*2 =
                 Some (suggested_seq_len w t)).
  { subst r. rewrite suggestions_of_objective. reflexivity. }
  assert (Htg : last (timegan_calls_of (new_events st r.1)).*2 =
                Some (built_parameters w t)).
  { subst r. rewrite timegan_calls_of_objective. reflexivity. }
  split; [reflexivity|]. split; [apply best_scores_after_objective|].
  split; [|split; [|split; [|split]]].
  - destruct Hcases as [(He & Hd & _)|(He & Hd & _)]; split; intros H; auto.
    + contradiction.
    + rewrite Hd in H. discriminate.
  - destruct Hcases as [(He & Hd & _)|(He & Hd & _)]; split; intros H; auto.
    + contradiction.
    + rewrite Hd in H. discriminate.
  - intros He. destruct Hcases as [(_ & _ & Hr & Hl & Hp & Hf)|(Hn & _)];
      [|contradiction].
    rewrite Hsug, Htg. auto.
  - intros Hn. destruct Hcases as [(He & _)|(_ & _ & H)]; [contradiction|auto].
  - intros s Hr Hle (s' & Hr' & Hgt).
    assert (s' = s) by congruence. subst s'.
    pose proof (float_gt_le_trans _ _ _ Hgt Hnn) as H0.
    rewrite (float_le_not_gt _ _ Hle) in H0. discriminate.
Qed.

End BestScoresFacts.

(** A trial scoring exactly 0 in a fresh process: no checkpoint. *)
Lemma best_scores_monotone_checkpoint_iff_witness :
  process_state (sample_world [0%float]) (initial_state ∅ []) /\
  dumps (new_events (initial_state ∅ [])
           (objective (sample_world [0%float]) 0 sample_frame sample_frame 500
              ["a"; "b"] "db" [0] (initial_state ∅ [])).1) = [].
Proof.
  split; [apply process_start|].
  apply (best_scores_monotone_checkpoint_iff (sample_world [0%float]) ∅ []
           (initial_state ∅ []) 0%nat sample_frame sample_frame 500
           ["a"; "b"] "db" [0] (process_start _ ∅ [])).
  intros (s & Hr & Hgt). vm_compute in Hr. injection Hr as <-.
  vm_compute in Hgt. discriminate.
Defined.

(** ** Reading traces *)

Lemma asked_app tr1 tr2 : asked (tr1 ++ tr2) = asked tr1 ++ asked tr2.
Proof. apply omap_app. Qed.

Lemma told_app tr1 tr2 : told (tr1 ++ tr2) = told tr1 ++ told tr2.
Proof. apply omap_app. Qed.

Lemma dumps_app tr1 tr2 : dumps (tr1 ++ tr2) = dumps tr1 ++ dumps tr2.
Proof. apply omap_app. Qed.

Lemma checkpoint_fold_no_ask evs c l :
  asked evs = [] ->
  fold_left checkpoint_step evs (c, l) =
  (c, match dumps evs with [] => l | _ => c end).
Proof.
  revert l. induction evs as [|e evs IH]; intros l Ha; [reflexivity|].
  destruct e; try discriminate Ha; cbn [fold_left checkpoint_step fst snd];
    try (rewrite IH by exact Ha; reflexivity).
  rewrite IH by exact Ha. cbn. destruct (dumps evs); reflexivity.
Qed.

Lemma checkpoint_trial_app_no_ask tr evs :
  asked evs = [] -> dumps evs = [] ->
  checkpoint_trial (tr ++ evs) = checkpoint_trial tr.
Proof.
  intros Ha Hd. unfold checkpoint_trial. rewrite fold_left_app.
  destruct (fold_left checkpoint_step tr (None, None)) as [c l].
  rewrite checkpoint_fold_no_ask, Hd by exact Ha. reflexivity.
Qed.

Lemma checkpoint_trial_app_trial tr t evs :
  asked evs = [] ->
  checkpoint_trial (tr ++ EvAsk t :: evs) =
  match dumps evs with [] => checkpoint_trial tr | _ => Some t end.
Proof.
  intros Ha. unfold checkpoint_trial. rewrite fold_left_app.
  destruct (fold_left checkpoint_step tr (None, None)) as [c l].
  cbn [fold_left checkpoint_step fst snd].
  rewrite checkpoint_fold_no_ask by exact Ha. reflexivity.
Qed.

Lemma best_from_step number t ts best :
  best_from number (t :: ts) best =
  best_from (S number) ts (best_step number t best).
Proof. reflexivity. Qed.

Lemma best_from_app number ts t best :
  best_from number (ts ++ [t]) best =
  best_step (number + length ts) t (best_from number ts best).
Proof.
  revert number best. induction ts as [|a ts IH]; intros number best.
  - cbn [app length]. rewrite Nat.add_0_r. reflexivity.
  - cbn [app length]. rewrite !best_from_step, IH. f_equal. lia.
Qed.

Lemma best_from_Some_acc number ts x :
  is_Some (best_from number ts (Some x)).
Proof.
  revert number x. induction ts as [|t ts IH]; intros number x;
    cbn [best_from]; [eexists; reflexivity|].
  destruct x as [[j ft] bv].
  destruct (ft_state t), (ft_value t); try apply IH.
  destruct (float_gt _ _); apply IH.
Qed.

(** A study with a completed trial has a best trial. *)
Lemma best_from_completed number ts best k ft v :
  ts !! k = Some ft -> ft_state ft = COMPLETE -> ft_value ft = Some v ->
  is_Some (best_from number ts best).
Proof.
  revert number best k.
  induction ts as [|t ts IH]; intros number best k Hk Hs Hv;
    [rewrite lookup_nil in Hk; discriminate|].
  cbn [best_from]. destruct k as [|k].
  - injection Hk as ->. rewrite Hs, Hv.
    destruct best as [[[j f] bv]|]; [destruct (float_gt _ _)|];
      apply best_from_Some_acc.
  - exact (IH _ _ k Hk Hs Hv).
Qed.

(** ** The optimization loop *)

Section LoopFacts.

Context (w : World).
Context (dataset_train dataset_val : DataFrame) (num_samples : Z).
Context (columns : list string) (database_name : string).
Context (shift_numbers : list Z).

Let func (trial : nat) : M float :=
  objective w trial dataset_train dataset_val num_samples columns
    database_name shift_numbers.

Lemma objective_events_no_ask t best o :
  asked (events_until_training w t dataset_train ++
         objective_tail w dataset_val database_name best o) = [] /\
  told (events_until_training w t dataset_train ++
        objective_tail w dataset_val database_name best o) = [].
Proof.
  unfold events_until_training, objective_tail.
  destruct (Nat.eqb t 60), o as [fake|e];
    try destruct (float_gt _ _); split; reflexivity.
Qed.

(** What one trial of the loop does. *)
Lemma trial_summary st :
  let t := length (study_trials (study st)) in
  let r := run_trial func st in
  exists evs o,
    trace r.1 = trace st ++ EvAsk t :: evs ++ [trial_end_event t o] /\
    asked evs = [] /\ told evs = [] /\
    study r.1 =
      {| study_trials := study_trials (study st) ++ [trial_record w t o];
         stop_flag := stop_flag (study st) || Nat.eqb t 60 |} /\
    r.2 = match o with Return _ => Return tt | Raised e => Raised e end /\
    ((exists s, o = Return s /\ float_gt s (best_scores st) = true /\
        best_scores r.1 = s /\
        objective_seq_len r.1 = Some (suggested_seq_len w t) /\
        objective_parameters r.1 = Some (built_parameters w t) /\
        files r.1 =
          <[database_name +:+ ".gz" := pickle_of_timegan]> (files st) /\
        dumps evs = [database_name +:+ ".gz"]) \/
     ((forall s, o = Return s -> float_gt s (best_scores st) = false) /\
        best_scores r.1 = best_scores st /\
        objective_seq_len r.1 = objective_seq_len st /\
        objective_parameters r.1 = objective_parameters st /\
        files r.1 = files st /\
        dumps evs = [])).
Proof.
  intros t r. subst r. unfold func.
  rewrite (run_trial_unfold w dataset_train dataset_val num_samples columns
             database_name shift_numbers st).
  cbv zeta. fold t.
  set (ro := objective w t dataset_train dataset_val num_samples columns
               database_name shift_numbers (state_after_ask st)).
  pose proof (objective_trace w t dataset_train dataset_val num_samples columns
                database_name shift_numbers (state_after_ask st)) as Htr.
  pose proof (objective_checkpoint w t dataset_train dataset_val num_samples
                columns database_name shift_numbers (state_after_ask st)) as Hc.
  cbv zeta in Hc. rewrite objective_new_events in Hc.
  fold ro in Htr, Hc.
  set (evs := events_until_training w t dataset_train ++
              objective_tail w dataset_val database_name
                (best_scores (state_after_ask st))
                (postprocess_data "opt"
                   (generated_in_trial w t (timegan_calls (state_after_ask st))
                      dataset_train)
                   columns (suggested_seq_len w t) shift_numbers)) in *.
  exists evs, ro.2. cbn [fst snd trace study best_scores objective_seq_len
                          objective_parameters files].
  split.
  { rewrite Htr. unfold state_after_ask. run_st. fold t.
    rewrite <- !app_assoc. reflexivity. }
  split; [apply objective_events_no_ask|].
  split; [apply objective_events_no_ask|].
  split; [reflexivity|]. split; [reflexivity|].
  exact Hc.
Qed.

Lemma trial_trace_readings tr t evs o :
  asked evs = [] -> told evs = [] ->
  let tr' := tr ++ EvAsk t :: evs ++ [trial_end_event t o] in
  asked tr' = asked tr ++ [t] /\
  told tr' = told tr ++ match o with
                        | Return s => [(t, s)]
                        | Raised _ => []
                        end /\
  dumps tr' = dumps tr ++ dumps evs /\
  checkpoint_trial tr' =
    match dumps evs with [] => checkpoint_trial tr | _ => Some t end.
Proof.
  intros Ha Ht tr'. subst tr'.
  assert (Ha' : asked (evs ++ [trial_end_event t o]) = []).
  { rewrite asked_app, Ha. destruct o; reflexivity. }
  assert (Hd' : dumps (evs ++ [trial_end_event t o]) = dumps evs).
  { rewrite dumps_app. destruct o; cbn; apply app_nil_r. }
  repeat split.
  - rewrite asked_app. change (asked (EvAsk t :: ?l)) with (t :: asked l).
    rewrite Ha'. reflexivity.
  - rewrite told_app. change (told (EvAsk t :: ?l)) with (told l).
    rewrite told_app, Ht. destruct o; reflexivity.
  - rewrite dumps_app. change (dumps (EvAsk t :: ?l)) with (dumps l).
    rewrite Hd'. reflexivity.
  - rewrite checkpoint_trial_app_trial by exact Ha'. rewrite Hd'. reflexivity.
Qed.

(** A trial of the loop keeps the invariant of the run. *)
Lemma run_trial_invariant fs0 st :
  run_invariant w database_name fs0 st ->
  run_invariant w database_name fs0 (run_trial func st).1.
Proof.
  intros (Hnn & Hub & Hdumps & Hcp).
  destruct (trial_summary st) as (evs & o & Htr & Ha & Ht & Hstudy & _ & Hc).
  cbv zeta in Htr, Hstudy, Hc.
  set (t := length (study_trials (study st))) in *.
  set (st' := (run_trial func st).1) in *.
  destruct (trial_trace_readings (trace st) t evs o Ha Ht)
    as (_ & Htold & Hd & Hck).
  cbv zeta in Htold, Hd, Hck. rewrite <- Htr in Htold, Hd, Hck.
  unfold run_invariant. cbv zeta. rewrite Htold, Hd, Hck.
  destruct Hc as [(s & -> & Hgt & Hb & Hl & Hp & Hf & Hde)
                 |(Hs & Hb & Hl & Hp & Hf & Hde)]; rewrite Hde, Hb.
  - (* the score exceeds the global: trial [t] is the checkpoint *)
    assert (Hs0 : float_gt s 0 = true)
      by (eapply float_gt_le_trans; eassumption).
    split; [apply float_gt_le; exact Hs0|].
    split.
    { intros p n u Hlk. apply lookup_app_Some in Hlk as [Hlk|[_ Hlk]].
      - destruct (float_gt u s) eqn:E; [|reflexivity].
        pose proof (Hub p n u Hlk) as Hu.
        rewrite (float_gt_trans _ _ _ E Hgt) in Hu. discriminate.
      - destruct (p - length (told (trace st)))%nat; [|discriminate Hlk].
        injection Hlk as <- <-. apply float_gt_irrefl. }
    split.
    { apply Forall_app. split; [exact Hdumps|]. repeat constructor. }
    split.
    { exists (length (told (trace st))). split.
      - apply list_lookup_middle. reflexivity.
      - intros q n u Hq Hlk. rewrite lookup_app_l in Hlk by exact Hq.
        destruct (float_le s u) eqn:E; [|reflexivity].
        pose proof (Hub q n u Hlk) as Hu.
        rewrite (float_le_gt_trans _ _ _ E Hgt) in Hu. discriminate. }
    split; [exact Hs0|]. split; [exact Hl|]. split; [exact Hp|].
    split.
    { rewrite Hf. destruct (checkpoint_trial (trace st)).
      - destruct Hcp as (_ & _ & _ & _ & -> & _). apply insert_insert_eq.
      - destruct Hcp as (_ & _ & _ & _ & ->). reflexivity. }
    exists (trial_record w t (Return s)). rewrite Hstudy. cbn [study_trials].
    split; [apply list_lookup_middle; reflexivity|].
    unfold trial_record.
    destruct (float_gt_not_nan _ _ Hgt) as [-> _]. repeat split.
  - (* no checkpoint in this trial *)
    split; [exact Hnn|].
    split.
    { intros p n u Hlk. apply lookup_app_Some in Hlk as [Hlk|[_ Hlk]].
      - exact (Hub p n u Hlk).
      - destruct o as [s|e]; [|destruct (p - _)%nat; discriminate Hlk].
        destruct (p - length (told (trace st)))%nat; [|discriminate Hlk].
        injection Hlk as <- <-. apply Hs. reflexivity. }
    rewrite app_nil_r. split; [exact Hdumps|].
    destruct (checkpoint_trial (trace st)) as [k|].
    + destruct Hcp as ((p & Hpk & Hearlier) & H0 & Hsl & Hpa & Hfs
                       & ft & Hft & Hfst & Hfv & Hfp).
      split.
      { exists p. split; [apply lookup_app_l_Some; exact Hpk|].
        intros q n u Hq Hlk.
        rewrite lookup_app_l in Hlk
          by (apply lookup_lt_Some in Hpk; lia).
        exact (Hearlier q n u Hq Hlk). }
      split; [exact H0|]. split; [congruence|]. split; [congruence|].
      split; [congruence|].
      exists ft. rewrite Hstudy. cbn [study_trials].
      split; [apply lookup_app_l_Some; exact Hft|]. auto.
    + destruct Hcp as (H0 & Hd0 & Hsl & Hpa & Hfs).
      repeat split; congruence.
Qed.

(** In a study that held no trial before the run, a trial of the loop keeps
    the best trial of the study and the checkpointed trial the same. *)
Lemma run_trial_fresh_invariant fs0 st :
  run_invariant w database_name fs0 st ->
  fresh_invariant st ->
  fresh_invariant (run_trial func st).1.
Proof.
  intros (Hnn & Hub & Hdumps & Hcp) (J1 & J2).
  destruct (trial_summary st) as (evs & o & Htr & Ha & Ht & Hstudy & _ & Hc).
  cbv zeta in Htr, Hstudy, Hc.
  set (t := length (study_trials (study st))) in *.
  set (st' := (run_trial func st).1) in *.
  destruct (trial_trace_readings (trace st) t evs o Ha Ht)
    as (_ & _ & _ & Hck).
  cbv zeta in Hck. rewrite <- Htr in Hck.
  destruct (float_le_not_nan _ _ Hnn) as [_ Hbn].
  unfold fresh_invariant. rewrite Hstudy, Hck. cbn [study_trials].
  rewrite best_from_app. cbn [Nat.add]. fold t.
  set (B := best_from 0 (study_trials (study st)) None) in *.
  destruct Hc as [(s & -> & Hgt & Hb & _ & _ & _ & Hde)
                 |(Hs & Hb & _ & _ & _ & Hde)]; rewrite Hde, Hb.
  - destruct (float_gt_not_nan _ _ Hgt) as [Hsn _].
    assert (HB : best_step t (trial_record w t (Return s)) B =
                 Some (t, trial_record w t (Return s), s)).
    { unfold trial_record. rewrite Hsn. unfold best_step. cbn [ft_state ft_value].
      destruct B as [[[j ft] bv]|]; [|reflexivity].
      rewrite (float_gt_le_trans _ _ _ Hgt (J1 j ft bv eq_refl)). reflexivity. }
    rewrite HB. split.
    + intros j ft v E. injection E as <- <- <-. apply float_le_refl, Hsn.
    + intros k E. injection E as <-. eexists. split; [reflexivity|].
      apply list_lookup_middle. reflexivity.
  - assert (Hkeep : forall B', B' = B ->
              (forall j ft v, B' = Some (j, ft, v) ->
                 float_le v (best_scores st) = true) /\
              (forall k, checkpoint_trial (trace st) = Some k ->
                 exists ft, B' = Some (k, ft, best_scores st) /\
                   (study_trials (study st) ++ [trial_record w t o]) !! k =
                   Some ft)).
    { intros B' ->. split; [exact J1|]. intros k Hk.
      destruct (J2 k Hk) as (ft & HBk & Hft). exists ft.
      split; [exact HBk|]. apply lookup_app_l_Some. exact Hft. }
    destruct o as [s|e]; [|apply Hkeep; reflexivity].
    set (rec := trial_record w t (Return s)) in *.
    assert (Hrec :
      best_step t rec B = B \/
      (PrimFloat.is_nan s = false /\
       best_step t rec B =
         match B with
         | Some (_, _, bv) => if float_gt s bv then Some (t, rec, s) else B
         | None => Some (t, rec, s)
         end)).
    { subst rec. unfold trial_record.
      destruct (PrimFloat.is_nan s); [left; reflexivity|right].
      split; [reflexivity|]. unfold best_step. cbn [ft_state ft_value].
      destruct B as [[[j ft] bv]|]; reflexivity. }
    destruct Hrec as [->|[Hsn ->]]; [apply Hkeep; reflexivity|].
    pose proof (float_total s (best_scores st) Hsn Hbn (Hs s eq_refl)) as Hle.
    destruct B as [[[j ft] bv]|] eqn:EB.
    + destruct (float_gt s bv) eqn:Egt.
      * split.
        { intros j' ft' v E. injection E as <- <- <-. exact Hle. }
        { intros k Hk. destruct (J2 k Hk) as (ft' & HBk & _).
          injection HBk as _ _ Hbv. rewrite Hbv in Egt.
          rewrite (Hs s eq_refl) in Egt. discriminate. }
      * apply Hkeep. reflexivity.
    + split.
      * intros j' ft' v E. injection E as <- <- <-. exact Hle.
      * intros k Hk. destruct (J2 k Hk) as (ft' & HBk & _). discriminate.
Qed.

Lemma optimize_loop_unfold remaining st :
  optimize_loop func (S remaining) st =
  if stop_flag (study st) then (st, Return tt)
  else match run_trial func st with
       | (st', Return _) => optimize_loop func remaining st'
       | (st', Raised e) => (st', Raised e)
       end.
Proof.
  cbn [optimize_loop]. unfold bind, gets, ret.
  destruct (stop_flag (study st)); reflexivity.
Qed.

(** Whatever every trial keeps, the loop keeps. *)
Lemma optimize_loop_preserves (P : PyState -> Prop) :
  (forall st, P st -> P (run_trial func st).1) ->
  forall remaining st, P st -> P (optimize_loop func remaining st).1.
Proof.
  intros Hstep. induction remaining as [|remaining IH]; intros st HP.
  - exact HP.
  - rewrite optimize_loop_unfold.
    destruct (stop_flag (study st)); [exact HP|].
    specialize (Hstep st HP).
    destruct (run_trial func st) as [st' [[]|e]]; cbn [fst] in *.
    + apply IH. exact Hstep.
    + exact Hstep.
Qed.

Lemma trials_of_loop_step start remaining :
  trials_of_loop start (S remaining) =
  S (if Nat.eqb start 60 then 0 else trials_of_loop (start + 1) remaining).
Proof.
  unfold trials_of_loop.
  destruct (Nat.eqb_spec start 60) as [->|Hne]; [cbn; lia|].
  destruct (Nat.leb_spec start 60), (Nat.leb_spec (start + 1) 60); lia.
Qed.

(** The trials of the loop are numbered consecutively from the size of the
    study; the loop runs [trials_of_loop] of them unless the objective
    raises, which ends it in the trial that raised. *)
Lemma optimize_loop_count remaining st :
  let r := optimize_loop func remaining st in
  let start := length (study_trials (study st)) in
  let expected :=
    if stop_flag (study st) then 0%nat else trials_of_loop start remaining in
  exists evs N,
    trace r.1 = trace st ++ evs /\
    asked evs = seq start N /\
    (N <= expected)%nat /\
    match r.2 with
    | Return _ => N = expected /\ length (told evs) = N
    | Raised _ => (length (told evs) < N)%nat
    end.
Proof.
  revert st. induction remaining as [|remaining IH]; intros st; cbv zeta.
  - assert (E0 : (if stop_flag (study st) then 0%nat
                  else trials_of_loop (length (study_trials (study st))) 0)
                 = 0%nat).
    { destruct (stop_flag (study st)); [reflexivity|].
      unfold trials_of_loop. destruct (_ <=? _)%nat; lia. }
    rewrite E0. exists [], 0%nat. cbn [optimize_loop ret fst snd].
    rewrite app_nil_r. repeat split; try reflexivity; lia.
  - rewrite optimize_loop_unfold.
    destruct (stop_flag (study st)) eqn:Hflag.
    { exists [], 0%nat. cbn [fst snd]. rewrite app_nil_r.
      repeat split; reflexivity. }
    destruct (trial_summary st) as (evs1 & o & Htr & Ha & Ht & Hstudy & Hr & _).
    cbv zeta in Htr, Hstudy, Hr.
    set (start := length (study_trials (study st))) in *.
    destruct (trial_trace_readings (trace st) start evs1 o Ha Ht)
      as (Hasked & Htold & _).
    cbv zeta in Hasked, Htold.
    rewrite trials_of_loop_step.
    destruct (run_trial func st) as [st1 r1]. cbn [fst snd] in *.
    destruct o as [s|e]; subst r1.
    + specialize (IH st1). cbv zeta in IH.
      rewrite Hstudy in IH. cbn [study_trials stop_flag] in IH.
      rewrite Hflag, length_app in IH. cbn [length orb] in IH.
      fold start in IH.
      destruct IH as (evs2 & N2 & Htr2 & Ha2 & Hle2 & Hres).
      exists (EvAsk start :: evs1 ++ [trial_end_event start (Return s)] ++ evs2),
        (S N2).
      split.
      { rewrite Htr2, Htr. rewrite <- app_assoc. cbn [app].
        rewrite <- !app_assoc. reflexivity. }
      assert (Hasked' :
        asked (EvAsk start :: evs1 ++
                 [trial_end_event start (Return s)] ++ evs2) =
        start :: asked evs2).
      { change (asked (EvAsk start :: ?l)) with (start :: asked l).
        rewrite !asked_app, Ha. reflexivity. }
      assert (Htold' :
        told (EvAsk start :: evs1 ++
                [trial_end_event start (Return s)] ++ evs2) =
        (start, s) :: told evs2).
      { change (told (EvAsk start :: ?l)) with (told l).
        rewrite !told_app, Ht. reflexivity. }
      rewrite Hasked', Htold', Ha2.
      split; [cbn [seq]; rewrite Nat.add_1_r; reflexivity|].
      split; [lia|].
      destruct (optimize_loop func remaining st1).2; cbn [length]; lia.
    + exists (EvAsk start :: evs1 ++ [trial_end_event start (Raised e)]), 1%nat.
      split; [exact Htr|].
      split.
      { change (asked (EvAsk start :: ?l)) with (start :: asked l).
        rewrite asked_app, Ha. reflexivity. }
      split; [lia|].
      change (told (EvAsk start :: ?l)) with (told l).
      rewrite told_app, Ht. cbn. lia.
Qed.

(** A trial neither loads the checkpoint nor writes the CSV file or the
    performance file. *)
Lemma run_trial_quiet st :
  loads (trace (run_trial func st).1) = loads (trace st) /\
  csv_written (trace (run_trial func st).1) = csv_written (trace st) /\
  best_params_written (trace (run_trial func st).1) =
    best_params_written (trace st).
Proof.
  unfold func.
  rewrite (run_trial_unfold w dataset_train dataset_val num_samples columns
             database_name shift_numbers st).
  cbv zeta. cbn [fst trace]. rewrite objective_trace.
  unfold state_after_ask. run_st.
  unfold loads, csv_written, best_params_written. rewrite !omap_app.
  set (o := postprocess_data _ _ _ _ _).
  set (t := length (study_trials (study st))).
  assert (Hq : forall A (f : event -> option A),
            (forall n, f (EvAsk n) = None) ->
            (forall n, f (EvStop n) = None) ->
            (forall n k v, f (EvSuggest n k v) = None) ->
            (forall d s, f (EvCutData d s) = None) ->
            (forall p, f (EvPrint p) = None) ->
            (forall d p, f (EvTimegan d p) = None) ->
            (forall a b, f (EvEvaluate a b) = None) ->
            (forall a, f (EvDump a) = None) ->
            (forall n v, f (EvTell n v) = None) ->
            (forall n e, f (EvFail n e) = None) ->
            omap f (trace st) ++ omap f [EvAsk t] ++
              omap f (events_until_training w t dataset_train) ++
              omap f (objective_tail w dataset_val database_name
                        (best_scores st) o) ++
              omap f [trial_end_event t
                        (objective w t dataset_train dataset_val num_samples
                           columns database_name shift_numbers
                           (emit (EvAsk t)
                              (set_study
                                 {| study_trials :=
                                      study_trials (study st) ++ [new_trial];
                                    stop_flag := stop_flag (study st) |}
                                 st))).2] = omap f (trace st)).
  { intros A f H1 H2 H3 H4 H5 H6 H7 H8 H9 H10.
    unfold events_until_training, objective_tail, suggested, trial_end_event.
    destruct (Nat.eqb t 60), o as [fake|e];
      try destruct (float_gt _ _);
      match goal with
      | |- context [trial_end_event _ ?r] => destruct r
      | |- context [match ?r with Return _ => _ | Raised _ => _ end] =>
          destruct r
      end;
      cbn [omap list_omap map app fst snd];
      rewrite ?H1, ?H2, ?H3, ?H4, ?H5, ?H6, ?H7, ?H8, ?H9, ?H10;
      cbn [app]; rewrite ?app_nil_r; reflexivity. }
  rewrite <- !app_assoc.
  repeat split; apply Hq; reflexivity.
Qed.

(** *** The events of a trial, and what the loop adds to a trace *)

Lemma run_trial_trace st :
  let t := length (study_trials (study st)) in
  let o := postprocess_data "opt"
             (generated_in_trial w t (timegan_calls st) dataset_train)
             columns (suggested_seq_len w t) shift_numbers in
  let result := match o with
                | Return fake_data =>
                    Return (evaluate w fake_data dataset_val)
                | Raised e => Raised e
                end in
  trace (run_trial func st).1 =
    trace st ++ [EvAsk t] ++ events_until_training w t dataset_train ++
    objective_tail w dataset_val database_name (best_scores st) o ++
    [trial_end_event t result] /\
  (run_trial func st).2 =
    match o with Return _ => Return tt | Raised e => Raised e end.
Proof.
  cbv zeta. unfold func.
  rewrite (run_trial_unfold w dataset_train dataset_val num_samples columns
             database_name shift_numbers st).
  cbv zeta. cbn [fst snd trace].
  rewrite objective_trace, objective_result.
  unfold state_after_ask. run_st.
  set (o := postprocess_data _ _ _ _ _).
  split; [rewrite <- !app_assoc; reflexivity|].
  destruct o; reflexivity.
Qed.

Lemma run_trial_readings st :
  let t := length (study_trials (study st)) in
  let r := run_trial func st in
  asked (trace r.1) = asked (trace st) ++ [t] /\
  stops (trace r.1) =
    stops (trace st) ++ (if Nat.eqb t 60 then [t] else []) /\
  timegan_calls_of (trace r.1) =
    timegan_calls_of (trace st) ++
    [(cut_data w dataset_train (suggested_seq_len w t),
      built_parameters w t)] /\
  cut_data_calls (trace r.1) =
    cut_data_calls (trace st) ++ [(dataset_train, suggested_seq_len w t)] /\
  opens (trace r.1) = opens (trace st) /\
  written (trace r.1) = written (trace st) /\
  closes (trace r.1) = closes (trace st) /\
  failures (trace r.1) =
    failures (trace st) ++
    match r.2 with Return _ => [] | Raised e => [(t, e)] end /\
  (forall e, r.2 = Raised e ->
     e = ValueError /\
     exists pre, trace r.1 = pre ++ [EvFail t e] /\
                 failures pre = failures (trace st) /\
                 asked pre = asked (trace st) ++ [t]).
Proof.
  cbv zeta. destruct (run_trial_trace st) as [Htr Hres]. cbv zeta in Htr, Hres.
  rewrite Htr, Hres.
  set (t := length (study_trials (study st))).
  set (o := postprocess_data _ _ _ _ _) in *.
  assert (Ho : forall e, o = Raised e -> e = ValueError).
  { intros e He. subst o. rewrite postprocess_data_unfold in He.
    destruct (bool_decide _); congruence. }
  assert (Hquiet :
            asked (events_until_training w t dataset_train) = [] /\
            failures (events_until_training w t dataset_train) = []).
  { unfold events_until_training. destruct (Nat.eqb t 60); split; reflexivity. }
  destruct Hquiet as [Hqa Hqf].
  do 8 try split.
  9:{ intros e He. destruct o as [fake|e0]; [discriminate|].
      injection He as <-. rewrite (Ho e0 eq_refl). split; [reflexivity|].
      exists ((trace st ++ [EvAsk t]) ++
              events_until_training w t dataset_train).
      cbn [objective_tail trial_end_event]. split; [|split].
      - rewrite <- !app_assoc. reflexivity.
      - unfold failures in *. rewrite !omap_app, Hqf, !app_nil_r.
        reflexivity.
      - unfold asked in *. rewrite !omap_app, Hqa, app_nil_r. reflexivity. }
  all: unfold asked, stops, timegan_calls_of, cut_data_calls, opens, written,
         closes, failures;
       rewrite !omap_app;
       unfold events_until_training, objective_tail, trial_end_event,
         suggested;
       destruct o as [fake|e]; [destruct (float_gt _ _)|];
       destruct (Nat.eqb t 60);
       cbn [omap list_omap map app fst snd]; rewrite ?app_nil_r;
       reflexivity.
Qed.

(** What every trial keeps of a trace, the loop keeps. *)
Lemma optimize_loop_readings remaining st :
  let r := optimize_loop func remaining st in
  stops (trace st) = filter (fun n => n = 60%nat) (asked (trace st)) ->
  length (timegan_calls_of (trace st)) = length (asked (trace st)) ->
  map fst (cut_data_calls (trace st)) =
    replicate (length (asked (trace st))) dataset_train ->
  stops (trace r.1) = filter (fun n => n = 60%nat) (asked (trace r.1)) /\
  length (timegan_calls_of (trace r.1)) = length (asked (trace r.1)) /\
  map fst (cut_data_calls (trace r.1)) =
    replicate (length (asked (trace r.1))) dataset_train /\
  opens (trace r.1) = opens (trace st) /\
  written (trace r.1) = written (trace st) /\
  closes (trace r.1) = closes (trace st).
Proof.
  cbv zeta. intros H1 H2 H3.
  apply (optimize_loop_preserves
           (fun st' =>
              stops (trace st') =
                filter (fun n => n = 60%nat) (asked (trace st')) /\
              length (timegan_calls_of (trace st')) =
                length (asked (trace st')) /\
              map fst (cut_data_calls (trace st')) =
                replicate (length (asked (trace st'))) dataset_train /\
              opens (trace st') = opens (trace st) /\
              written (trace st') = written (trace st) /\
              closes (trace st') = closes (trace st))).
  - intros st' (I1 & I2 & I3 & I4 & I5 & I6).
    destruct (run_trial_readings st')
      as (Ra & Rs & Rt & Rc & Ro & Rw & Rcl & _).
    cbv zeta in *. rewrite Ra, Rs, Rt, Rc, Ro, Rw, Rcl.
    rewrite filter_app, !length_app, map_app, I1, I2, I3.
    cbn [length map fst]. rewrite Nat.add_1_r, replicate_S_end.
    repeat split; try assumption. f_equal.
    destruct (Nat.eqb_spec (length (study_trials (study st'))) 60) as [E|E].
    + rewrite E. reflexivity.
    + rewrite filter_cons_False by exact E. reflexivity.
  - repeat split; assumption.
Qed.


End LoopFacts.

(** ** [run_TimeGAN] *)

Lemma string_length_append (a b : string) :
  String.length (a +:+ b) = (String.length a + String.length b)%nat.
Proof.
  induction a as [|c a IH]; [reflexivity|].
  change (String c a +:+ b) with (String c (a +:+ b)).
  cbn [String.length]. rewrite IH. reflexivity.
Qed.

Lemma performance_file_not_checkpoint (db : string) :
  "performance_" +:+ db +:+ ".txt" <> db +:+ ".gz".
Proof.
  intros H. apply (f_equal String.length) in H.
  rewrite !string_length_append in H. cbn in H. lia.
Qed.

Lemma csv_file_not_checkpoint (db : string) :
  "fake_data_" +:+ db +:+ ".csv" <> db +:+ ".gz".
Proof.
  intros H. apply (f_equal String.length) in H.
  rewrite !string_length_append in H. cbn in H. lia.
Qed.

Lemma database_not_checkpoint (db : string) :
  db +:+ ".db" <> db +:+ ".gz".
Proof.
  induction db as [|c db IH]; [discriminate|].
  change (String c db +:+ ".db") with (String c (db +:+ ".db")).
  change (String c db +:+ ".gz") with (String c (db +:+ ".gz")).
  intros H. injection H as H. exact (IH H).
Qed.


Lemma database_not_csv (db : string) :
  db +:+ ".db" <> "fake_data_" +:+ db +:+ ".csv".
Proof.
  intros H. apply (f_equal String.length) in H.
  rewrite !string_length_append in H. cbn in H. lia.
Qed.

Lemma performance_file_not_csv (db : string) :
  "performance_" +:+ db +:+ ".txt" <> "fake_data_" +:+ db +:+ ".csv".
Proof.
  intros H. apply (f_equal String.length) in H.
  rewrite !string_length_append in H. cbn in H. lia.
Qed.

Lemma filter_eq_seq (k a n : nat) :
  filter (fun m => m = k) (seq a n) =
  if bool_decide (a <= k < a + n)%nat then [k] else [].
Proof.
  induction n as [|n IH].
  - cbn. case_bool_decide; [lia|reflexivity].
  - rewrite seq_S, filter_app, IH, filter_cons, filter_nil.
    repeat case_bool_decide; case_decide; subst; try lia; reflexivity.
Qed.

Section RunFacts.

Context (w : World).
Context (num_samples n_trials : Z) (database_name : string).
Context (shift_numbers : list Z).

(** What [preprocess_data] hands back, the objective of the run and the
    state in which the optimization loop starts from [st0]. *)
Let pre := preprocess_data w (real_data_loading w) database_name shift_numbers.
Let dataset_train := pre.1.1.1.1.
Let columns := pre.1.1.1.2.
Let dataset_val := pre.1.1.2.
Let dataset := pre.1.2.
Let shifts := pre.2.
Let func (trial : nat) : M float :=
  objective w trial dataset_train dataset_val num_samples columns
    database_name shifts.
Let performance := "performance_" +:+ database_name +:+ ".txt".
Let checkpoint := database_name +:+ ".gz".
Let csv := "fake_data_" +:+ database_name +:+ ".csv".
Let database := database_name +:+ ".db".

Let loop_start (st0 : PyState) : PyState :=
  set_study
    {| study_trials := study_trials (study st0); stop_flag := false |}
    (emit (EvCreateStudy ("sqlite:///" +:+ database_name +:+ ".db")
             (database_name +:+ "_study") "maximize" true)
       (set_files (<[database := sqlite_database]> (files st0)) st0)).

Let write_chunk (c : chunk) (st : PyState) : PyState :=
  emit (EvWrite performance c)
    (set_files
       (alter (fun f => match f with
                        | text_file cs => text_file (cs ++ [c])
                        | other => other
                        end) performance (files st)) st).

(** The whole run as a function of the state after the loop. *)
Lemma run_TimeGAN_unfold st0 :
  let lo := optimize_loop func (Z.to_nat n_trials) (loop_start st0) in
  let st2 := lo.1 in
  run_TimeGAN w num_samples n_trials database_name shift_numbers st0 =
  match lo.2 with
  | Raised e => (st2, Raised e)
  | Return _ =>
    let st3 :=
      emit (EvOpen performance)
        (set_files (<[performance := text_file []]> (files st2)) st2) in
    match best_from 0 (study_trials (study st2)) None with
    | None => (st3, Raised ValueError)
    | Some best =>
      let st_plots :=
        emit EvPlots
          (write_chunk (best_trial_str best.1.1 best.1.2)
             (write_chunk (best_value_str best.2)
                (write_chunk (best_params_str (ft_params best.1.2)) st3))) in
      match plot_study w (study_trials (study st2)) with
      | Raised e => (st_plots, Raised e)
      | Return _ =>
      let st4 := emit (EvLoad checkpoint) st_plots in
      match files st2 !! checkpoint with
      | None => (st4, Raised FileNotFoundError)
      | Some (text_file _) => (st4, Raised ValueError)
      | Some (csv_file _) => (st4, Raised ValueError)
      | Some sqlite_database => (st4, Raised ValueError)
      | Some pickle_of_timegan =>
        match objective_seq_len st2 with
        | None => (st4, Raised AttributeError)
        | Some seq_len =>
          let st5 := emit (EvCutData dataset seq_len) st4 in
          match objective_parameters st2 with
          | None => (st5, Raised AttributeError)
          | Some parameters =>
            let data := cut_data w dataset seq_len in
            let st6 :=
              emit (EvClose performance)
                (write_chunk minutes_str
                   (emit (EvTimegan data parameters)
                      (set_timegan_calls (S (timegan_calls st2)) st5))) in
            match postprocess_data "eval"
                    (timegan w (timegan_calls st2) data parameters)
                    columns seq_len shifts with
            | Raised e => (st6, Raised e)
            | Return fake_data =>
                (emit (EvToCsv csv fake_data)
                   (set_files (<[csv := csv_file fake_data]> (files st6)) st6),
                 Return tt)
            end
          end
        end
      end
      end
    end
  end.
Proof.
  cbv zeta. unfold run_TimeGAN.
  subst func loop_start dataset_train columns dataset_val dataset shifts pre.
  subst write_chunk performance checkpoint csv database.
  destruct (preprocess_data w (real_data_loading w) database_name
              shift_numbers) as [[[[dtr cols] dv] ds] sh'].
  cbn [fst snd].
  unfold study_optimize, create_study.
  change (sqlite_path ("sqlite:///" +:+ database_name +:+ ".db"))
    with (database_name +:+ ".db").
  unfold bind at 1. unfold modify at 1. unfold bind at 1. unfold bind at 1.
  unfold modify at 1.
  destruct (optimize_loop _ (Z.to_nat n_trials) _) as [st2 [[]|e]];
    cbn [fst snd]; [|reflexivity].
  cbv beta iota zeta delta
      [bind ret raise modify gets lift open_w write close to_csv plots
       joblib_load getattr call call_timegan call_cut_data study_best_trial].
  run_st.
  destruct (best_from 0 (study_trials (study st2)) None) as [best|] eqn:Hbest;
    [|reflexivity].
  cbv beta iota zeta. run_st. rewrite Hbest.
  cbv beta iota zeta. run_st. rewrite Hbest.
  cbv beta iota zeta. run_st.
  destruct (plot_study w (study_trials (study st2))) as [[]|e];
    cbv beta iota zeta; run_st; [|reflexivity].
  rewrite !lookup_alter_ne, lookup_insert_ne
    by apply performance_file_not_checkpoint.
  destruct (files st2 !! (database_name +:+ ".gz")) as [[| | |]|];
    cbv beta iota zeta; run_st; try reflexivity.
  destruct (objective_seq_len st2) as [seq_len|] eqn:Hsl;
    cbv beta iota zeta; run_st; [|reflexivity].
  destruct (objective_parameters st2) as [parameters|];
    cbv beta iota zeta; run_st; [|reflexivity].
  rewrite Hsl. cbv beta iota zeta. run_st.
  destruct (postprocess_data _ _ _ _ _) as [fake|e];
    cbv beta iota zeta; run_st;
    (f_equal; apply PyState_ext; run_st; reflexivity).
Qed.

(** ** A run in a new process

    The loop starts with [best_scores = 0], no checkpoint written by this
    process, the database of the study created and the trials [stored] in
    it. *)

Lemma loop_start_run_invariant fs stored :
  run_invariant w database_name (<[database := sqlite_database]> fs)
    (loop_start (initial_state fs stored)).
Proof.
  subst loop_start. unfold run_invariant, initial_state. cbv zeta. run_st.
  cbn [app told dumps omap list_omap checkpoint_trial fold_left
       checkpoint_step snd].
  split; [reflexivity|].
  split; [intros p n u H; rewrite lookup_nil in H; discriminate|].
  split; [constructor|]. repeat split; reflexivity.
Qed.

Lemma loop_start_fresh_invariant fs :
  fresh_invariant (loop_start (initial_state fs [])).
Proof.
  subst loop_start. unfold fresh_invariant, initial_state. run_st.
  cbn [study_trials best_from app checkpoint_trial fold_left checkpoint_step
       snd].
  split; [intros j ft v H; discriminate H | intros k H; discriminate H].
Qed.

Lemma loop_run_invariant fs stored :
  run_invariant w database_name (<[database := sqlite_database]> fs)
    (optimize_loop func (Z.to_nat n_trials)
       (loop_start (initial_state fs stored))).1.
Proof.
  apply (optimize_loop_preserves w dataset_train dataset_val num_samples
           columns database_name shifts
           (run_invariant w database_name
              (<[database := sqlite_database]> fs))).
  - intros st. apply run_trial_invariant.
  - apply loop_start_run_invariant.
Qed.

Lemma loop_fresh_invariant fs :
  fresh_invariant
    (optimize_loop func (Z.to_nat n_trials)
       (loop_start (initial_state fs []))).1.
Proof.
  refine (proj2 (optimize_loop_preserves w dataset_train dataset_val
                   num_samples columns database_name shifts
                   (fun st =>
                      run_invariant w database_name
                        (<[database := sqlite_database]> fs) st /\
                      fresh_invariant st) _ _ _ _)).
  - intros st [H1 H2]. split.
    + apply run_trial_invariant. exact H1.
    + apply (run_trial_fresh_invariant w dataset_train dataset_val
               num_samples columns database_name shifts
               (<[database := sqlite_database]> fs)); assumption.
  - split; [apply loop_start_run_invariant|apply loop_start_fresh_invariant].
Qed.

Lemma loop_quiet n st :
  loads (trace (optimize_loop func n st).1) = loads (trace st) /\
  csv_written (trace (optimize_loop func n st).1) = csv_written (trace st) /\
  best_params_written (trace (optimize_loop func n st).1) =
    best_params_written (trace st).
Proof.
  apply (optimize_loop_preserves w dataset_train dataset_val num_samples
           columns database_name shifts
           (fun st' =>
              loads (trace st') = loads (trace st) /\
              csv_written (trace st') = csv_written (trace st) /\
              best_params_written (trace st') =
                best_params_written (trace st))).
  - intros st' (H1 & H2 & H3).
    destruct (run_trial_quiet w dataset_train dataset_val num_samples columns
                database_name shifts st') as (Q1 & Q2 & Q3).
    split; [rewrite Q1|split; [rewrite Q2|rewrite Q3]]; assumption.
  - repeat split; reflexivity.
Qed.

Lemma loop_asked fs stored :
  let lo := optimize_loop func (Z.to_nat n_trials)
              (loop_start (initial_state fs stored)) in
  exists N,
    asked (trace lo.1) = seq (length stored) N /\
    (N <= trials_of_loop (length stored) (Z.to_nat n_trials))%nat /\
    match lo.2 with
    | Return _ => length (told (trace lo.1)) = N
    | Raised _ => (length (told (trace lo.1)) < N)%nat
    end.
Proof.
  cbv zeta.
  destruct (optimize_loop_count w dataset_train dataset_val num_samples
              columns database_name shifts (Z.to_nat n_trials)
              (loop_start (initial_state fs stored)))
    as (evs & N & Hev & Hasked & Hle & Hres).
  cbv zeta in Hev, Hle, Hres. fold func in Hev, Hres.
  exists N. rewrite Hev, asked_app, told_app.
  subst loop_start. cbn in Hasked, Hle, Hres |- *.
  split; [exact Hasked|]. split; [exact Hle|].
  destruct (optimize_loop func _ _).2; [apply Hres|exact Hres].
Qed.

(** What the part of the run after the loop leaves untouched. *)
Lemma run_TimeGAN_tail st0 :
  let lo := optimize_loop func (Z.to_nat n_trials) (loop_start st0) in
  let r := run_TimeGAN w num_samples n_trials database_name shift_numbers st0 in
  exists tail,
    trace r.1 = trace lo.1 ++ tail /\
    asked tail = [] /\ told tail = [] /\ dumps tail = [] /\
    files r.1 !! checkpoint = files lo.1 !! checkpoint /\
    study r.1 = study lo.1 /\
    best_scores r.1 = best_scores lo.1 /\
    (forall e, lo.2 = Raised e -> r.2 = Raised e).
Proof.
  cbv zeta. rewrite run_TimeGAN_unfold. cbv zeta.
  subst write_chunk performance checkpoint csv.
  set (lo := optimize_loop func (Z.to_nat n_trials) (loop_start st0)).
  assert (Hne1 := performance_file_not_checkpoint database_name).
  assert (Hne2 := csv_file_not_checkpoint database_name).
  destruct (lo.2) as [[]|e].
  2:{ exists []. rewrite app_nil_r. cbn [fst snd].
      repeat split; try reflexivity. intros e0 H. exact H. }
  destruct (best_from 0 (study_trials (study lo.1)) None) as [best|].
  2:{ eexists. split; [run_st; reflexivity|]. cbn [fst snd]. run_st.
      rewrite ?lookup_insert_ne by assumption.
      repeat split; first [reflexivity | intros; discriminate]. }
  destruct (plot_study w (study_trials (study lo.1))) as [[]|ep];
    [destruct (files lo.1 !! (database_name +:+ ".gz")) as [[| | |]|] eqn:Hf;
     [destruct (objective_seq_len lo.1) as [seq_len|];
      [destruct (objective_parameters lo.1) as [parameters|];
       [destruct (postprocess_data _ _ _ _ _) as [fake|e]|]|]|..]|];
    (eexists; split;
     [cbn [fst snd]; run_st; rewrite <- ?app_assoc; cbn [app]; reflexivity|];
     cbn [fst snd]; run_st;
     repeat first [rewrite lookup_insert_ne by assumption
                  |rewrite lookup_alter_ne by assumption];
     repeat split; first [reflexivity | assumption | intros; discriminate]).
Qed.

(** What a run that returns has done after the loop. *)
Lemma run_TimeGAN_success st0 :
  let lo := optimize_loop func (Z.to_nat n_trials) (loop_start st0) in
  let r := run_TimeGAN w num_samples n_trials database_name shift_numbers st0 in
  r.2 = Return tt ->
  exists best seq_len parameters fake_data,
    lo.2 = Return tt /\
    best_from 0 (study_trials (study lo.1)) None = Some best /\
    files lo.1 !! checkpoint = Some pickle_of_timegan /\
    objective_seq_len lo.1 = Some seq_len /\
    objective_parameters lo.1 = Some parameters /\
    postprocess_data "eval"
      (timegan w (timegan_calls lo.1) (cut_data w dataset seq_len) parameters)
      columns seq_len shifts = Return fake_data /\
    trace r.1 =
      trace lo.1 ++
      [EvOpen performance;
       EvWrite performance (best_params_str (ft_params best.1.2));
       EvWrite performance (best_value_str best.2);
       EvWrite performance (best_trial_str best.1.1 best.1.2);
       EvPlots; EvLoad checkpoint; EvCutData dataset seq_len;
       EvTimegan (cut_data w dataset seq_len) parameters;
       EvWrite performance minutes_str; EvClose performance;
       EvToCsv csv fake_data] /\
    files r.1 !! csv = Some (csv_file fake_data).
Proof.
  cbv zeta. rewrite run_TimeGAN_unfold. cbv zeta.
  subst write_chunk performance checkpoint csv.
  set (lo := optimize_loop func (Z.to_nat n_trials) (loop_start st0)).
  destruct (lo.2) as [[]|e]; [|discriminate].
  destruct (best_from 0 (study_trials (study lo.1)) None) as [best|];
    [|discriminate].
  destruct (plot_study w (study_trials (study lo.1))) as [[]|ep];
    [|discriminate].
  destruct (files lo.1 !! (database_name +:+ ".gz")) as [[| | |]|];
    try discriminate.
  destruct (objective_seq_len lo.1) as [seq_len|]; [|discriminate].
  destruct (objective_parameters lo.1) as [parameters|]; [|discriminate].
  destruct (postprocess_data _ _ _ _ _) as [fake|e] eqn:Hpost; [|discriminate].
  intros _. exists best, seq_len, parameters, fake.
  repeat (split; [reflexivity|]). split; [exact Hpost|].
  cbn [fst snd]. run_st. split.
  - rewrite <- !app_assoc. reflexivity.
  - apply lookup_insert_eq.
Qed.

(** C1. The checkpoint of a run. Every checkpoint write of the run goes to
    [<database_name>.gz]. If a checkpoint was written, the last one was
    written during the first trial whose score is the largest of the run, and
    that score exceeds 0, the value [best_scores] has when the process
    starts; the file is then the checkpoint. If none was written, no trial
    scored above 0 and the file is what it was before the run. A trial
    writes the checkpoint exactly when its score strictly exceeds
    [best_scores]. *)
Theorem checkpoint_is_first_best_trial_above_zero fs stored :
  let r := run_TimeGAN w num_samples n_trials database_name shift_numbers
             (initial_state fs stored) in
  let tr := trace r.1 in
  Forall (fun f => f = checkpoint) (dumps tr) /\
  (forall t st,
     dumps (new_events st (func t st).1) <> [] <->
     exists s, (func t st).2 = Return s /\
               float_gt s (best_scores st) = true) /\
  match checkpoint_trial tr with
  | Some k =>
      exists p s,
        told tr !! p = Some (k, s) /\
        float_gt s 0 = true /\
        best_scores r.1 = s /\
        (forall q n u, told tr !! q = Some (n, u) -> float_gt u s = false) /\
        (forall q n u, (q < p)%nat -> told tr !! q = Some (n, u) ->
                       float_le s u = false) /\
        files r.1 !! checkpoint = Some pickle_of_timegan
  | None =>
      dumps tr = [] /\
      best_scores r.1 = 0%float /\
      (forall q n u, told tr !! q = Some (n, u) -> float_gt u 0 = false) /\
      files r.1 !! checkpoint = fs !! checkpoint
  end.
Proof.
  cbv zeta.
  destruct (run_TimeGAN_tail (initial_state fs stored))
    as (tail & Htr & Ha & Ht & Hd & Hf & _ & Hb & _).
  cbv zeta in Htr, Hf, Hb.
  destruct (loop_run_invariant fs stored) as (Hnn & Hub & Hdumps & Hcp).
  cbv zeta in Hnn, Hub, Hdumps, Hcp.
  set (lo := optimize_loop func (Z.to_nat n_trials)
               (loop_start (initial_state fs stored))) in *.
  subst checkpoint.
  rewrite Htr, told_app, Ht, dumps_app, Hd, !app_nil_r,
    (checkpoint_trial_app_no_ask _ _ Ha Hd), Hf, Hb.
  split; [exact Hdumps|]. split.
  - intros t st. unfold func.
    destruct (objective_checkpoint w t dataset_train dataset_val num_samples
                columns database_name shifts st)
      as [(s & Hr & Hgt & _ & _ & _ & _ & Hdump)
         |(Hle & _ & _ & _ & _ & Hdump)];
      cbv zeta in *; rewrite Hdump.
    + split; [intros _; exists s; split; assumption|discriminate].
    + split; [intros H; contradiction H; reflexivity|].
      intros (s & Hr & Hgt). rewrite (Hle s Hr) in Hgt. discriminate.
  - destruct (checkpoint_trial (trace lo.1)) as [k|].
    + destruct Hcp as ((p & Hp & Hfirst) & Hgt & _ & _ & Hfiles & _).
      exists p, (best_scores lo.1).
      split; [exact Hp|]. split; [exact Hgt|]. split; [reflexivity|].
      split; [exact Hub|]. split; [exact Hfirst|].
      rewrite Hfiles. apply lookup_insert_eq.
    + destruct Hcp as (Hb0 & Hd0 & _ & _ & Hfiles).
      split; [exact Hd0|]. split; [exact Hb0|].
      split; [rewrite <- Hb0; exact Hub|].
      rewrite Hfiles. apply lookup_insert_ne, database_not_checkpoint.
Qed.

(** A run returns only if the plotting did. *)
Lemma run_TimeGAN_success_plots st0 :
  let lo := optimize_loop func (Z.to_nat n_trials) (loop_start st0) in
  let r := run_TimeGAN w num_samples n_trials database_name shift_numbers st0 in
  r.2 = Return tt ->
  plot_study w (study_trials (study lo.1)) = Return tt.
Proof.
  cbv zeta. rewrite run_TimeGAN_unfold. cbv zeta.
  set (lo := optimize_loop func (Z.to_nat n_trials) (loop_start st0)).
  destruct (lo.2) as [[]|e]; [|discriminate].
  destruct (best_from 0 (study_trials (study lo.1)) None) as [best|];
    [|discriminate].
  destruct (plot_study w (study_trials (study lo.1))) as [[]|ep];
    [reflexivity|discriminate].
Qed.

(** The run from the load of the checkpoint on. *)
Lemma run_TimeGAN_generation st0 best seq_len parameters :
  let lo := optimize_loop func (Z.to_nat n_trials) (loop_start st0) in
  let r := run_TimeGAN w num_samples n_trials database_name shift_numbers st0 in
  let data := cut_data w dataset seq_len in
  let before_csv :=
    [EvOpen performance;
     EvWrite performance (best_params_str (ft_params best.1.2));
     EvWrite performance (best_value_str best.2);
     EvWrite performance (best_trial_str best.1.1 best.1.2);
     EvPlots; EvLoad checkpoint; EvCutData dataset seq_len;
     EvTimegan data parameters;
     EvWrite performance minutes_str; EvClose performance] in
  lo.2 = Return tt ->
  best_from 0 (study_trials (study lo.1)) None = Some best ->
  plot_study w (study_trials (study lo.1)) = Return tt ->
  files lo.1 !! checkpoint = Some pickle_of_timegan ->
  objective_seq_len lo.1 = Some seq_len ->
  objective_parameters lo.1 = Some parameters ->
  match postprocess_data "eval"
          (timegan w (timegan_calls lo.1) data parameters)
          columns seq_len shifts with
  | Return fake_data =>
      r.2 = Return tt /\
      trace r.1 = trace lo.1 ++ before_csv ++ [EvToCsv csv fake_data] /\
      files r.1 !! csv = Some (csv_file fake_data)
  | Raised e =>
      r.2 = Raised e /\ trace r.1 = trace lo.1 ++ before_csv
  end.
Proof.
  cbv zeta. intros Hlo Hbest Hplot Hfile Hsl Hpar.
  rewrite run_TimeGAN_unfold. cbv zeta.
  rewrite Hlo, Hbest, Hplot, Hfile, Hsl, Hpar.
  subst write_chunk.
  destruct (postprocess_data _ _ _ _ _) as [fake|e]; cbn [fst snd]; run_st.
  - split; [reflexivity|]. split; [|apply lookup_insert_eq].
    rewrite <- !app_assoc. reflexivity.
  - split; [reflexivity|]. rewrite <- !app_assoc. reflexivity.
Qed.

(** C2. When every trial of the run has reported its score, one of the
    scores is above 0 and the plotting of the study succeeds, the run loads
    [<database_name>.gz] once, cuts the full dataset with the sequence length
    suggested in the checkpointed trial [k] (the first trial of the run with
    the largest score), and calls the GAN routine on the cut data with the
    dictionary of that trial, which is the one recorded for trial [k] in
    the study. If the postprocessing of the generated array returns, the
    run returns having written the frame to [fake_data_<database_name>.csv];
    if it raises, so does the run, and no CSV file is written. When the
    study held no earlier trials, the parameters written to the performance
    file as the best of the study are the same dictionary. *)
Theorem run_TimeGAN_generates_from_checkpointed_trial fs stored :
  let r := run_TimeGAN w num_samples n_trials database_name shift_numbers
             (initial_state fs stored) in
  let tr := trace r.1 in
  length (told tr) = length (asked tr) ->
  (exists q n u, told tr !! q = Some (n, u) /\ float_gt u 0 = true) ->
  plot_study w (study_trials (study r.1)) = Return tt ->
  exists k ft seq_len parameters n,
    checkpoint_trial tr = Some k /\
    (exists p s,
       told tr !! p = Some (k, s) /\ float_gt s 0 = true /\
       (forall q m u, told tr !! q = Some (m, u) -> float_gt u s = false) /\
       (forall q m u, (q < p)%nat -> told tr !! q = Some (m, u) ->
                      float_le s u = false)) /\
    seq_len = suggested_seq_len w k /\
    parameters = built_parameters w k /\
    parameters !! "seq_len" = Some seq_len /\
    study_trials (study r.1) !! k = Some ft /\
    ft_params ft = parameters /\
    loads tr = [checkpoint] /\
    last (cut_data_calls tr) = Some (dataset, seq_len) /\
    last (timegan_calls_of tr) =
      Some (cut_data w dataset seq_len, parameters) /\
    match postprocess_data "eval"
            (timegan w n (cut_data w dataset seq_len) parameters)
            columns seq_len shifts with
    | Return fake_data =>
        r.2 = Return tt /\
        csv_written tr = [(csv, fake_data)] /\
        files r.1 !! csv = Some (csv_file fake_data)
    | Raised e =>
        r.2 = Raised e /\ csv_written tr = []
    end /\
    (stored = [] -> best_params_written tr = [parameters]).
Proof.
  cbv zeta.
  destruct (run_TimeGAN_tail (initial_state fs stored))
    as (tail & Htr0 & Ha & Ht & Hd & _ & Hstudy & _ & _).
  destruct (loop_asked fs stored) as (N & Hasked & _ & Hres).
  destruct (loop_run_invariant fs stored) as (Hnn & Hub & Hdumps & Hcp).
  pose proof (loop_quiet (Z.to_nat n_trials)
                (loop_start (initial_state fs stored)))
    as (Hloads & Hcsvs & Hw).
  assert (Hfresh : stored = [] ->
                   fresh_invariant
                     (optimize_loop func (Z.to_nat n_trials)
                        (loop_start (initial_state fs stored))).1)
    by (intros ->; apply loop_fresh_invariant).
  pose proof (run_TimeGAN_generation (initial_state fs stored)) as Hgen.
  cbv zeta in Htr0, Hstudy, Hasked, Hres, Hnn, Hub, Hdumps, Hcp, Hgen.
  set (lo := optimize_loop func (Z.to_nat n_trials)
               (loop_start (initial_state fs stored))) in *.
  rewrite Hstudy.
  assert (Etold : told
            (trace (run_TimeGAN w num_samples n_trials database_name
                      shift_numbers (initial_state fs stored)).1) =
          told (trace lo.1))
    by (rewrite Htr0, told_app, Ht, app_nil_r; reflexivity).
  assert (Easked : asked
            (trace (run_TimeGAN w num_samples n_trials database_name
                      shift_numbers (initial_state fs stored)).1) =
          asked (trace lo.1))
    by (rewrite Htr0, asked_app, Ha, app_nil_r; reflexivity).
  rewrite Etold, Easked. intros Hall (q0 & n0 & u0 & Hq0 & Hu0) Hplot.
  assert (Hlo : lo.2 = Return tt).
  { destruct (lo.2) as [[]|e]; [reflexivity|].
    rewrite Hasked, length_seq in Hall. lia. }
  destruct (checkpoint_trial (trace lo.1)) as [k|] eqn:Hck.
  2:{ destruct Hcp as (Hb0 & _). rewrite Hb0 in Hub.
      rewrite (Hub _ _ _ Hq0) in Hu0. discriminate. }
  destruct Hcp as ((p & Hp & Hfirst) & Hgt & Hsl & Hpar & Hfiles & ft & Hft
                   & Hstate & Hvalue & Hparams).
  destruct (best_from_completed 0 (study_trials (study lo.1)) None k ft _
              Hft Hstate Hvalue) as [best Hbest].
  assert (Hfile : files lo.1 !! checkpoint = Some pickle_of_timegan)
    by (rewrite Hfiles; apply lookup_insert_eq).
  specialize (Hgen best (suggested_seq_len w k) (built_parameters w k)
                Hlo Hbest Hplot Hfile Hsl Hpar).
  set (before_csv := [EvOpen performance; _; _; _; _; _; _; _; _; _]) in Hgen.
  assert (Hta : asked before_csv = []) by reflexivity.
  assert (Htd : dumps before_csv = []) by reflexivity.
  exists k, ft, (suggested_seq_len w k), (built_parameters w k),
    (timegan_calls lo.1).
  assert (Htrace : exists rest,
            trace (run_TimeGAN w num_samples n_trials database_name
                     shift_numbers (initial_state fs stored)).1 =
            trace lo.1 ++ before_csv ++ rest /\
            asked rest = [] /\ dumps rest = [] /\ loads rest = [] /\
            cut_data_calls rest = [] /\ timegan_calls_of rest = [] /\
            best_params_written rest = []).
  { destruct (postprocess_data _ _ _ _ _) as [fake|e].
    - destruct Hgen as (_ & Hg & _). eexists. split; [exact Hg|].
      repeat split; reflexivity.
    - destruct Hgen as (_ & Hg). exists []. rewrite app_nil_r.
      split; [exact Hg|]. repeat split; reflexivity. }
  destruct Htrace as (rest & Htr & Hra & Hrd & Hrl & Hrc & Hrt & Hrw).
  split.
  { rewrite Htr, app_assoc.
    rewrite (checkpoint_trial_app_no_ask _ _ Hra Hrd).
    rewrite (checkpoint_trial_app_no_ask _ _ Hta Htd). exact Hck. }
  split; [exists p, (best_scores lo.1); auto|].
  split; [reflexivity|]. split; [reflexivity|].
  split; [unfold built_parameters; apply lookup_insert_eq|].
  split; [exact Hft|]. split; [exact Hparams|].
  split.
  { rewrite Htr. unfold loads in *. rewrite !omap_app, Hloads, Hrl.
    reflexivity. }
  split.
  { rewrite Htr. unfold cut_data_calls in *. rewrite !omap_app, Hrc.
    subst before_csv. cbn [omap list_omap app]. rewrite ?app_nil_r.
    apply last_snoc. }
  split.
  { rewrite Htr. unfold timegan_calls_of in *. rewrite !omap_app, Hrt.
    subst before_csv. cbn [omap list_omap app]. rewrite ?app_nil_r.
    apply last_snoc. }
  split.
  { destruct (postprocess_data _ _ _ _ _) as [fake|e].
    - destruct Hgen as (Hr & Hg & Hfcsv). split; [exact Hr|].
      split; [|exact Hfcsv].
      rewrite Hg. unfold csv_written in *. rewrite !omap_app, Hcsvs.
      reflexivity.
    - destruct Hgen as (Hr & Hg). split; [exact Hr|].
      rewrite Hg. unfold csv_written in *. rewrite !omap_app, Hcsvs.
      reflexivity. }
  intros E. destruct (Hfresh E) as (_ & J2).
  destruct (J2 k Hck) as (ft' & Hbest' & Hft').
  assert (Eb : best = (k, ft', best_scores lo.1)) by congruence.
  assert (Eft : ft' = ft) by congruence.
  rewrite Htr. unfold best_params_written in *.
  rewrite !omap_app, Hw, Hrw.
  subst before_csv. rewrite Eb, Eft. cbn [omap list_omap app fst snd].
  rewrite Hparams. reflexivity.
Qed.

(** C3. Modelled from the spec (the loop of [study.optimize]): the run
    starts the trials numbered [start], [start + 1], ... where [start] is
    the number of trials the study holds already. Since the trial numbered
    60 requests the stop of the study, it runs [min n_trials (61 - start)]
    trials when [start <= 60] and [n_trials] trials otherwise (none for a
    negative [n_trials]), all of them reporting a value; it runs fewer only
    when the objective of a trial raises, which ends the run. *)
Theorem run_TimeGAN_trial_count fs stored :
  let r := run_TimeGAN w num_samples n_trials database_name shift_numbers
             (initial_state fs stored) in
  let tr := trace r.1 in
  let start := length stored in
  exists N,
    asked tr = seq start N /\
    (N <= trials_of_run start n_trials)%nat /\
    ((N = trials_of_run start n_trials /\ length (told tr) = N) \/
     ((length (told tr) < N)%nat /\ exists e, r.2 = Raised e)).
Proof.
  cbv zeta.
  destruct (run_TimeGAN_tail (initial_state fs stored))
    as (tail & Htr & Ha & Ht & _ & _ & _ & _ & Hraised).
  cbv zeta in Htr, Hraised.
  destruct (optimize_loop_count w dataset_train dataset_val num_samples
              columns database_name shifts (Z.to_nat n_trials)
              (loop_start (initial_state fs stored)))
    as (evs & N & Hev & Hasked & Hle & Hres).
  cbv zeta in Hev, Hle, Hres.
  set (lo := optimize_loop func (Z.to_nat n_trials)
               (loop_start (initial_state fs stored))) in *.
  fold func in Hev, Hres. fold lo in Hev, Hres.
  exists N. rewrite Htr, Hev. rewrite !asked_app, !told_app, Ha, Ht, !app_nil_r.
  subst loop_start. cbn in Hasked, Hle, Hres |- *.
  split; [exact Hasked|]. split; [exact Hle|].
  destruct (lo.2) as [[]|e] eqn:Hlo.
  - left. exact Hres.
  - right. split; [exact Hres|]. exists e. apply Hraised. reflexivity.
Qed.

(** ** What a run does besides *)

Lemma loop_readings fs stored :
  let lo := optimize_loop func (Z.to_nat n_trials)
              (loop_start (initial_state fs stored)) in
  stops (trace lo.1) = filter (fun n => n = 60%nat) (asked (trace lo.1)) /\
  length (timegan_calls_of (trace lo.1)) = length (asked (trace lo.1)) /\
  map fst (cut_data_calls (trace lo.1)) =
    replicate (length (asked (trace lo.1))) dataset_train /\
  opens (trace lo.1) = [] /\
  written (trace lo.1) = [] /\
  closes (trace lo.1) = [].
Proof.
  exact (optimize_loop_readings w dataset_train dataset_val num_samples
           columns database_name shifts (Z.to_nat n_trials)
           (loop_start (initial_state fs stored))
           eq_refl eq_refl eq_refl).
Qed.

(** The events after the loop request no stop and start, fail or report no
    trial; of the files they touch only the performance file and the CSV
    file; the CSV file they write only when the run returns. *)
Lemma run_TimeGAN_tail_quiet st0 :
  let lo := optimize_loop func (Z.to_nat n_trials) (loop_start st0) in
  let r := run_TimeGAN w num_samples n_trials database_name shift_numbers st0 in
  exists tail,
    trace r.1 = trace lo.1 ++ tail /\
    asked tail = [] /\ told tail = [] /\ stops tail = [] /\
    failures tail = [] /\
    (forall f, f <> performance -> f <> csv ->
               files r.1 !! f = files lo.1 !! f) /\
    (forall e, lo.2 = Raised e -> tail = [] /\ r.2 = Raised e) /\
    (r.2 = Return tt \/
     csv_written tail = [] /\ files r.1 !! csv = files lo.1 !! csv).
Proof.
  cbv zeta. rewrite run_TimeGAN_unfold. cbv zeta.
  subst write_chunk performance checkpoint csv.
  set (lo := optimize_loop func (Z.to_nat n_trials) (loop_start st0)).
  assert (Hne := performance_file_not_csv database_name).
  destruct (lo.2) as [[]|e].
  2:{ exists []. rewrite app_nil_r. cbn [fst snd].
      do 5 (split; [reflexivity|]).
      split; [intros; reflexivity|].
      split; [intros e0 H; split; [reflexivity|congruence]|].
      right. split; reflexivity. }
  destruct (best_from 0 (study_trials (study lo.1)) None) as [best|];
    [destruct (plot_study w (study_trials (study lo.1))) as [[]|ep];
     [destruct (files lo.1 !! (database_name +:+ ".gz")) as [[| | |]|];
      [destruct (objective_seq_len lo.1) as [seq_len|];
       [destruct (objective_parameters lo.1) as [parameters|];
        [destruct (postprocess_data _ _ _ _ _) as [fake|e]|]|]|..]|]|];
    (eexists; split;
     [cbn [fst snd]; run_st; rewrite <- ?app_assoc; cbn [app]; reflexivity|];
     cbn [fst snd]; run_st;
     do 4 (split; [reflexivity|]);
     split;
     [intros f Hf1 Hf2;
      repeat first [rewrite lookup_insert_ne by congruence
                   |rewrite lookup_alter_ne by congruence];
      reflexivity|];
     split; [intros e' He'; discriminate|];
     first [left; reflexivity
           |right; split; [reflexivity|];
            repeat first [rewrite lookup_insert_ne by congruence
                         |rewrite lookup_alter_ne by congruence];
            reflexivity]).
Qed.

Lemma loop_files fs stored f :
  f <> checkpoint -> f <> database ->
  files (optimize_loop func (Z.to_nat n_trials)
           (loop_start (initial_state fs stored))).1 !! f = fs !! f.
Proof.
  intros Hf Hd. destruct (loop_run_invariant fs stored) as (_ & _ & _ & Hcp).
  cbv zeta in Hcp.
  destruct (checkpoint_trial _) as [k|].
  - destruct Hcp as (_ & _ & _ & _ & Hfiles & _). rewrite Hfiles.
    rewrite !lookup_insert_ne by (subst checkpoint database; congruence).
    reflexivity.
  - destruct Hcp as (_ & _ & _ & _ & Hfiles). rewrite Hfiles.
    apply lookup_insert_ne. subst database. congruence.
Qed.


(** X8. A run requests the stop of the study only in the trial numbered
    60, hence at most once, and that trial is then the last trial of the
    run; a run on a study with [s] stored trials asked for at most [60 - s]
    trials requests no stop. *)
Theorem run_TimeGAN_requests_stop_in_trial_60 fs stored :
  let r := run_TimeGAN w num_samples n_trials database_name shift_numbers
             (initial_state fs stored) in
  let tr := trace r.1 in
  stops tr = (if bool_decide (60%nat ∈ asked tr) then [60%nat] else []) /\
  (60%nat ∈ asked tr -> last (asked tr) = Some 60%nat) /\
  ((length stored + Z.to_nat n_trials <= 60)%nat -> stops tr = []).
Proof.
  cbv zeta.
  destruct (run_TimeGAN_tail_quiet (initial_state fs stored))
    as (tail & Htr & Ha & _ & Hs & _).
  destruct (loop_readings fs stored) as (Hstops & _).
  destruct (loop_asked fs stored) as (N & Hasked & Hle & _).
  cbv zeta in Htr, Hstops, Hasked.
  set (lo := optimize_loop func (Z.to_nat n_trials)
               (loop_start (initial_state fs stored))) in *.
  assert (Hst : stops (trace lo.1 ++ tail) = stops (trace lo.1)).
  { unfold stops in *. rewrite omap_app, Hs, app_nil_r. reflexivity. }
  rewrite Htr, asked_app, Ha, app_nil_r, Hst, Hstops, Hasked, filter_eq_seq.
  unfold trials_of_loop in Hle.
  destruct (Nat.leb_spec (length stored) 60) as [Hs60|Hs60].
  - split; [|split].
    + repeat case_bool_decide; rewrite ?elem_of_seq in *; try lia;
        reflexivity.
    + rewrite elem_of_seq. intros H60.
      rewrite last_lookup, length_seq, lookup_seq_lt by lia. f_equal. lia.
    + intros Hn. case_bool_decide; [lia|reflexivity].
  - split; [|split].
    + repeat case_bool_decide; rewrite ?elem_of_seq in *; try lia;
        reflexivity.
    + rewrite elem_of_seq. lia.
    + intros Hn. case_bool_decide; [lia|reflexivity].
Qed.


(** X10. A run that returns leaves three files: the checkpoint, the CSV file
    with the generated frame, and the performance file, which holds exactly
    the best parameters, the best value and the best trial of the study and
    the duration line, whatever it held before; the performance file is
    opened once, written four times and closed once, and the write of the
    CSV file is the last thing the run does. *)
Theorem run_TimeGAN_output_files fs stored :
  let r := run_TimeGAN w num_samples n_trials database_name shift_numbers
             (initial_state fs stored) in
  let tr := trace r.1 in
  r.2 = Return tt ->
  exists best fake_data,
    best_from 0 (study_trials (study r.1)) None = Some best /\
    files r.1 !! checkpoint = Some pickle_of_timegan /\
    files r.1 !! csv = Some (csv_file fake_data) /\
    files r.1 !! performance =
      Some (text_file [best_params_str (ft_params best.1.2);
                       best_value_str best.2;
                       best_trial_str best.1.1 best.1.2;
                       minutes_str]) /\
    opens tr = [performance] /\
    written tr =
      [(performance, best_params_str (ft_params best.1.2));
       (performance, best_value_str best.2);
       (performance, best_trial_str best.1.1 best.1.2);
       (performance, minutes_str)] /\
    closes tr = [performance] /\
    last tr = Some (EvToCsv csv fake_data).
Proof.
  cbv zeta. intros Hret.
  destruct (run_TimeGAN_success (initial_state fs stored) Hret)
    as (best & seq_len & parameters & fake & Hlo & Hbest & Hfile & Hsl & Hpar
        & Hpost & Htr & Hcsv).
  destruct (run_TimeGAN_tail (initial_state fs stored))
    as (tail & _ & _ & _ & _ & Hf & Hstudy & _ & _).
  destruct (loop_readings fs stored) as (_ & _ & _ & Hopens & Hwritten & Hcloses).
  pose proof (run_TimeGAN_success_plots (initial_state fs stored) Hret)
    as Hplot.
  pose proof (run_TimeGAN_unfold (initial_state fs stored)) as Hu.
  cbv zeta in Hlo, Hbest, Hfile, Hsl, Hpar, Hpost, Htr, Hf, Hstudy, Hu,
    Hopens, Hwritten, Hcloses, Hplot.
  set (lo := optimize_loop func (Z.to_nat n_trials)
               (loop_start (initial_state fs stored))) in *.
  rewrite Hlo, Hbest, Hplot, Hfile, Hsl, Hpar, Hpost in Hu.
  exists best, fake.
  split; [rewrite Hstudy; exact Hbest|].
  split; [rewrite Hf; exact Hfile|].
  split; [exact Hcsv|].
  split.
  { rewrite Hu. cbn [fst]. subst write_chunk. run_st.
    rewrite lookup_insert_ne
      by (intros E; symmetry in E; revert E;
          apply performance_file_not_csv).
    rewrite !lookup_alter_eq, lookup_insert_eq. reflexivity. }
  rewrite Htr, last_app. unfold opens, written, closes in *.
  rewrite !omap_app, Hopens, Hwritten, Hcloses.
  repeat split; reflexivity.
Qed.

(** X11. The CSV file is written exactly by the runs that return; a run
    that raises leaves the file as it was. *)
Theorem run_TimeGAN_writes_csv_iff_it_returns fs stored :
  let r := run_TimeGAN w num_samples n_trials database_name shift_numbers
             (initial_state fs stored) in
  let tr := trace r.1 in
  (r.2 = Return tt <-> csv_written tr <> []) /\
  (r.2 <> Return tt ->
   csv_written tr = [] /\ files r.1 !! csv = fs !! csv).
Proof.
  cbv zeta.
  destruct (run_TimeGAN_tail_quiet (initial_state fs stored))
    as (tail & Htr & _ & _ & _ & _ & _ & _ & Hcases).
  destruct (loop_quiet (Z.to_nat n_trials)
              (loop_start (initial_state fs stored)))
    as (_ & Hcsvs & _).
  pose proof (run_TimeGAN_success (initial_state fs stored)) as Hsucc.
  pose proof (loop_files fs stored csv
                (csv_file_not_checkpoint database_name)
                (fun E => database_not_csv database_name (eq_sym E)))
    as Hlf.
  cbv zeta in Htr, Hcases, Hsucc.
  set (lo := optimize_loop func (Z.to_nat n_trials)
               (loop_start (initial_state fs stored))) in *.
  set (r := run_TimeGAN w num_samples n_trials database_name shift_numbers
              (initial_state fs stored)) in *.
  assert (Hyes : r.2 = Return tt -> csv_written (trace r.1) <> []).
  { intros Hret.
    destruct (Hsucc Hret) as (best & sl & ps & fake & _ & _ & _ & _ & _ & _
                              & Htr' & _).
    rewrite Htr'. unfold csv_written in *. rewrite omap_app, Hcsvs.
    discriminate. }
  assert (Hno : r.2 <> Return tt ->
                csv_written (trace r.1) = [] /\ files r.1 !! csv = fs !! csv).
  { intros Hnot. destruct Hcases as [Hret|[Hc Hfile]]; [contradiction|].
    split; [|rewrite Hfile; exact Hlf].
    rewrite Htr. unfold csv_written in *. rewrite omap_app, Hcsvs, Hc.
    reflexivity. }
  split; [|exact Hno]. split; [exact Hyes|].
  intros Hw. destruct (r.2) as [[]|e] eqn:Hr; [reflexivity|].
  exfalso. apply Hw. apply Hno. discriminate.
Qed.

(** X12. When every trial of the run reported a score and none is above 0,
    the run writes no checkpoint and no CSV file and raises, leaving the
    performance file open: [ValueError] before any write when the study has
    no completed trial; otherwise, after the three writes about the best
    trial, the exception of the plotting when that raises, and when it
    returns, after the attempt to load the checkpoint, [FileNotFoundError]
    when no checkpoint file existed before the run and [AttributeError] when
    one of an earlier process did. *)
Theorem run_TimeGAN_without_score_above_zero fs stored :
  let r := run_TimeGAN w num_samples n_trials database_name shift_numbers
             (initial_state fs stored) in
  let tr := trace r.1 in
  length (told tr) = length (asked tr) ->
  (forall q n u, told tr !! q = Some (n, u) -> float_gt u 0 = false) ->
  dumps tr = [] /\ csv_written tr = [] /\
  opens tr = [performance] /\ closes tr = [] /\
  match best_from 0 (study_trials (study r.1)) None with
  | None => r.2 = Raised ValueError /\ written tr = [] /\ loads tr = []
  | Some best =>
      written tr =
        [(performance, best_params_str (ft_params best.1.2));
         (performance, best_value_str best.2);
         (performance, best_trial_str best.1.1 best.1.2)] /\
      match plot_study w (study_trials (study r.1)) with
      | Raised e => r.2 = Raised e /\ loads tr = []
      | Return _ =>
          loads tr = [checkpoint] /\
          (fs !! checkpoint = None -> r.2 = Raised FileNotFoundError) /\
          (fs !! checkpoint = Some pickle_of_timegan ->
           r.2 = Raised AttributeError)
      end
  end.
Proof.
  cbv zeta.
  destruct (run_TimeGAN_tail (initial_state fs stored))
    as (tail & Htr & Ha & Ht & Hd & _ & Hstudy & _ & _).
  destruct (loop_asked fs stored) as (N & Hasked & _ & Hres).
  destruct (loop_run_invariant fs stored) as (_ & _ & _ & Hcp).
  destruct (loop_readings fs stored)
    as (_ & _ & _ & Hopens & Hwritten & Hcloses).
  destruct (loop_quiet (Z.to_nat n_trials)
              (loop_start (initial_state fs stored)))
    as (Hloads & Hcsvs & _).
  pose proof (run_TimeGAN_unfold (initial_state fs stored)) as Hu.
  cbv zeta in Htr, Hstudy, Hasked, Hres, Hcp, Hopens, Hwritten, Hcloses, Hu.
  set (lo := optimize_loop func (Z.to_nat n_trials)
               (loop_start (initial_state fs stored))) in *.
  rewrite Hstudy, Htr, told_app, Ht, asked_app, Ha, !app_nil_r.
  rewrite <- Htr. intros Hall Hle.
  assert (Hlo : lo.2 = Return tt).
  { destruct (lo.2) as [[]|e]; [reflexivity|].
    rewrite Hasked, length_seq in Hall. lia. }
  assert (Hnone : checkpoint_trial (trace lo.1) = None).
  { destruct (checkpoint_trial (trace lo.1)) as [k|]; [|reflexivity].
    destruct Hcp as ((p & Hp & _) & Hgt & _).
    rewrite (Hle _ _ _ Hp) in Hgt. discriminate. }
  rewrite Hnone in Hcp.
  destruct Hcp as (_ & Hdumps & Hsl & Hpar & Hfiles).
  rewrite Hlo in Hu.
  assert (Hdumps' : dumps
            (trace (run_TimeGAN w num_samples n_trials database_name
                      shift_numbers (initial_state fs stored)).1) = []).
  { rewrite Htr, dumps_app, Hdumps, Hd. reflexivity. }
  split; [exact Hdumps'|]. clear Hdumps'.
  assert (Hfile : files lo.1 !! checkpoint = fs !! checkpoint).
  { rewrite Hfiles. apply lookup_insert_ne, database_not_checkpoint. }
  subst write_chunk. unfold opens, written, closes, loads, csv_written in *.
  destruct (best_from 0 (study_trials (study lo.1)) None) as [best|].
  - rewrite Hfile in Hu.
    destruct (plot_study w (study_trials (study lo.1))) as [[]|ep].
    + destruct (fs !! checkpoint) as [[| | |]|]; rewrite ?Hsl in Hu;
        rewrite Hu; cbn [fst snd]; run_st;
        rewrite !omap_app, ?Hopens, ?Hwritten, ?Hcloses, ?Hloads, ?Hcsvs;
        cbn [omap list_omap app];
        repeat split; first [reflexivity | intros; discriminate].
    + rewrite Hu; cbn [fst snd]; run_st.
      rewrite !omap_app, ?Hopens, ?Hwritten, ?Hcloses, ?Hloads, ?Hcsvs.
      cbn [omap list_omap app]. repeat split; reflexivity.
  - rewrite Hu. cbn [fst snd]. run_st.
    rewrite !omap_app, ?Hopens, ?Hwritten, ?Hcloses, ?Hloads, ?Hcsvs.
    repeat split; reflexivity.
Qed.


(** X14. A run that returns has called the GAN routine once in every trial
    and once more after loading the checkpoint, and has cut the training
    data once in every trial and the full dataset once at the end. *)
Theorem run_TimeGAN_trains_once_per_trial_and_once_more fs stored :
  let r := run_TimeGAN w num_samples n_trials database_name shift_numbers
             (initial_state fs stored) in
  let tr := trace r.1 in
  r.2 = Return tt ->
  length (timegan_calls_of tr) = S (length (asked tr)) /\
  map fst (cut_data_calls tr) =
    replicate (length (asked tr)) dataset_train ++ [dataset].
Proof.
  cbv zeta. intros Hret.
  destruct (run_TimeGAN_success (initial_state fs stored) Hret)
    as (best & seq_len & parameters & fake & _ & _ & _ & _ & _ & _ & Htr & _).
  destruct (loop_readings fs stored) as (_ & Htg & Hcd & _).
  cbv zeta in Htr, Htg, Hcd.
  set (lo := optimize_loop func (Z.to_nat n_trials)
               (loop_start (initial_state fs stored))) in *.
  rewrite Htr, asked_app. unfold timegan_calls_of, cut_data_calls in *.
  rewrite !omap_app, length_app, map_app, Htg, Hcd.
  cbn [omap list_omap asked app length map fst]. rewrite app_nil_r.
  split; [lia|reflexivity].
Qed.

(** X15. For the same database name, [test_samples] loads as synthetic data
    the CSV file that a returning run has written. *)
Theorem test_samples_loads_the_csv_of_the_run fs stored
    (ew : Evaluate.World) (print_data : bool) :
  let r := run_TimeGAN w num_samples n_trials database_name shift_numbers
             (initial_state fs stored) in
  r.2 = Return tt ->
  exists written_to fake_data,
    csv_written (trace r.1) = [(written_to, fake_data)] /\
    files r.1 !! written_to = Some (csv_file fake_data) /\
    head (Evaluate.test_samples ew database_name print_data).1 =
      Some (Evaluate.EvLoadData "test_data_schachtschneider.csv" written_to).
Proof.
  cbv zeta. intros Hret.
  destruct (run_TimeGAN_success (initial_state fs stored) Hret)
    as (best & seq_len & parameters & fake & _ & _ & _ & _ & _ & _ & Htr
        & Hcsv).
  destruct (loop_quiet (Z.to_nat n_trials)
              (loop_start (initial_state fs stored)))
    as (_ & Hcsvs & _).
  cbv zeta in Htr, Hcsv.
  exists csv, fake. split; [|split; [exact Hcsv|]].
  - rewrite Htr. unfold csv_written in *. rewrite omap_app, Hcsvs.
    reflexivity.
  - destruct print_data; reflexivity.
Qed.

End RunFacts.

(** ** Concrete runs

    Runs on [sample_world], whose trials score the values listed, in a new
    process with an empty file store. *)

(** A run whose only trial scores exactly 0: the trial is the best of the
    run, yet no checkpoint is written and [db.gz] does not exist afterwards;
    the run ends in the plotting of the study, which holds one trial. *)
Lemma best_trial_scoring_zero_leaves_no_checkpoint :
  let r := run_TimeGAN (sample_world [0%float]) 500 1 "db" [0]
             (initial_state ∅ []) in
  told (trace r.1) = [(0%nat, 0%float)] /\
  dumps (trace r.1) = [] /\
  checkpoint_trial (trace r.1) = None /\
  files r.1 !! "db.gz" = None /\
  r.2 = Raised ValueError.
Proof. vm_compute. repeat split; reflexivity. Qed.

(** Three runs in which the final generation does not happen or uses other
    parameters than the study reports. In the first the only trial scores
    0.5 and writes the checkpoint, but the plotting of the one-trial study
    raises: nothing is loaded and no CSV file is written. In the second the
    two trials score 0 and -0.5: there is no checkpoint, the run raises and
    writes no CSV file. In the third the database of the study already holds
    trial 0 of an earlier process with value 0.75 and the only trial of the
    run, trial 1, scores 0.5: the run returns, the parameters written as the
    best of the study are those of trial 0 (sequence length 1) while the
    data is generated with those of trial 1 (sequence length 5). *)
Lemma run_without_generation_or_with_earlier_trials :
  let w0 := sample_world [0.5%float] in
  let r0 := run_TimeGAN w0 500 1 "db" [0] (initial_state ∅ []) in
  let w1 := sample_world [0%float; (-0.5)%float] in
  let r1 := run_TimeGAN w1 500 2 "db" [0] (initial_state ∅ []) in
  let r2 := run_TimeGAN w0 500 1 "db" [0]
              (initial_state (<["db.db" := sqlite_database]> ∅)
                 [earlier_trial 0.75 (built_parameters w0 0)]) in
  (told (trace r0.1) = [(0%nat, 0.5%float)] /\
   dumps (trace r0.1) = ["db.gz"] /\
   r0.2 = Raised ValueError /\
   loads (trace r0.1) = [] /\
   length (timegan_calls_of (trace r0.1)) = 1%nat /\
   csv_written (trace r0.1) = [] /\
   files r0.1 !! "fake_data_db.csv" = None) /\
  (told (trace r1.1) = [(0%nat, 0%float); (1%nat, (-0.5)%float)] /\
   dumps (trace r1.1) = [] /\
   (exists e, r1.2 = Raised e) /\
   csv_written (trace r1.1) = [] /\
   files r1.1 !! "fake_data_db.csv" = None) /\
  (told (trace r2.1) = [(1%nat, 0.5%float)] /\
   r2.2 = Return tt /\
   checkpoint_trial (trace r2.1) = Some 1%nat /\
   map (fun p => p !! "seq_len") (best_params_written (trace r2.1)) =
     [Some (VInt 1)] /\
   option_map (fun call => call.2 !! "seq_len")
     (last (timegan_calls_of (trace r2.1))) = Some (Some (VInt 5)) /\
   map fst (csv_written (trace r2.1)) = ["fake_data_db.csv"]).
Proof.
  cbv zeta. split; [|split].
  - vm_compute. repeat split; reflexivity.
  - split; [vm_compute; reflexivity|]. split; [vm_compute; reflexivity|].
    split; [exists FileNotFoundError; vm_compute; reflexivity|].
    split; vm_compute; reflexivity.
  - vm_compute. repeat split; reflexivity.
Qed.

(** A run of three trials scoring 0.5, 0.25 and 0.75, whose study the
    plotting accepts: its checkpoint is the one of trial 2, which it
    loads. *)
Lemma run_TimeGAN_generates_from_checkpointed_trial_witness :
  let r := run_TimeGAN (sample_world [0.5; 0.25; 0.75]%float) 500 3 "db" [0]
             (initial_state ∅ []) in
  length (told (trace r.1)) = length (asked (trace r.1)) /\
  told (trace r.1) !! 0%nat = Some (0%nat, 0.5%float) /\
  float_gt 0.5 0 = true /\
  plot_study (sample_world [0.5; 0.25; 0.75]%float)
    (study_trials (study r.1)) = Return tt /\
  checkpoint_trial (trace r.1) = Some 2%nat /\
  loads (trace r.1) = ["db.gz"] /\
  r.2 = Return tt.
Proof.
  cbv zeta.
  assert (H1 : length (told (trace (run_TimeGAN
                 (sample_world [0.5; 0.25; 0.75]%float) 500 3 "db" [0]
                 (initial_state ∅ [])).1)) =
               length (asked (trace (run_TimeGAN
                 (sample_world [0.5; 0.25; 0.75]%float) 500 3 "db" [0]
                 (initial_state ∅ [])).1)))
    by (vm_compute; reflexivity).
  assert (H2 : told (trace (run_TimeGAN
                 (sample_world [0.5; 0.25; 0.75]%float) 500 3 "db" [0]
                 (initial_state ∅ [])).1) !! 0%nat =
               Some (0%nat, 0.5%float))
    by (vm_compute; reflexivity).
  assert (H3 : float_gt 0.5 0 = true) by reflexivity.
  assert (H4 : plot_study (sample_world [0.5; 0.25; 0.75]%float)
                 (study_trials (study (run_TimeGAN
                    (sample_world [0.5; 0.25; 0.75]%float) 500 3 "db" [0]
                    (initial_state ∅ [])).1)) = Return tt)
    by (vm_compute; reflexivity).
  split; [exact H1|]. split; [exact H2|]. split; [exact H3|].
  split; [exact H4|]. split; [vm_compute; reflexivity|].
  split; [|vm_compute; reflexivity].
  destruct (run_TimeGAN_generates_from_checkpointed_trial
              (sample_world [0.5; 0.25; 0.75]%float) 500 3 "db" [0] ∅ []
              H1 (ex_intro _ 0%nat (ex_intro _ 0%nat
                    (ex_intro _ 0.5%float (conj H2 H3)))) H4)
    as (k & ft & seq_len & parameters & n & _ & _ & _ & _ & _ & _ & _
        & Hloads & _).
  exact Hloads.
Defined.

(** A run asked for 100 trials in which every trial scores 0.5 stops after
    the 61 trials numbered 0 to 60, all of which report their score; the
    plotting then rejects the study, whose values are all equal. *)
Lemma hundred_trials_requested_sixty_one_run :
  let r := run_TimeGAN (sample_world (repeat 0.5%float 100)) 500 100 "db" [0]
             (initial_state ∅ []) in
  r.2 = Raised RuntimeError /\
  asked (trace r.1) = seq 0 61 /\
  length (told (trace r.1)) = 61%nat /\
  length (asked (trace r.1)) <> 100%nat.
Proof. vm_compute. repeat split; try reflexivity. discriminate. Qed.

(** * Edge behaviour of [objective] *)

Section ObjectiveEdgeFacts.

Context (w : World).
Context (t : nat) (dataset_train dataset_val : DataFrame) (num_samples : Z).
Context (columns : list string) (database_name : string).
Context (shift_numbers : list Z) (st : PyState).

Lemma postprocess_data_raised eval_or_opt g cols seq_len shifts e :
  postprocess_data eval_or_opt g cols seq_len shifts = Raised e ->
  e = ValueError /\
  (0 < shape0 g)%nat /\ (0 < shape1 g)%nat /\
  length cols <> columns_kept (shape2 g) shifts.
Proof.
  rewrite postprocess_data_unfold.
  pose proof (conditioned_rows_nil g shifts) as Hnil.
  destruct (bool_decide _) eqn:E; [discriminate|].
  apply bool_decide_eq_false_1 in E. rewrite Hnil in E.
  intros He. split; [congruence|]. repeat split; lia.
Qed.

Lemma postprocess_data_returned eval_or_opt g cols seq_len shifts df :
  postprocess_data eval_or_opt g cols seq_len shifts = Return df ->
  shape0 g = 0%nat \/ shape1 g = 0%nat \/
  length cols = columns_kept (shape2 g) shifts.
Proof.
  rewrite postprocess_data_unfold.
  pose proof (conditioned_rows_nil g shifts) as Hnil.
  destruct (bool_decide _) eqn:E; [|discriminate].
  apply bool_decide_eq_true_1 in E. rewrite Hnil in E. intros _.
  destruct E as [[E|E]|E]; auto.
Qed.

Lemma events_until_training_readings :
  stops (events_until_training w t dataset_train) =
    (if Nat.eqb t 60 then [t] else []) /\
  dumps (events_until_training w t dataset_train) = [] /\
  evaluate_calls (events_until_training w t dataset_train) = [] /\
  failures (events_until_training w t dataset_train) = [].
Proof.
  unfold events_until_training. destruct (Nat.eqb t 60); repeat split.
Qed.

Lemma objective_tail_stops best o :
  stops (objective_tail w dataset_val database_name best o) = [].
Proof.
  unfold objective_tail. destruct o; [|reflexivity].
  destruct (float_gt _ _); reflexivity.
Qed.

(** X4. [objective] raises exactly when the generated array has a row and
    the number of column labels differs from the number of feature columns
    kept by the postprocessing. The exception is then [ValueError]; the GAN
    routine has been called but the scorer has not, nothing is written, and
    the global, the attributes of [objective] and the files are as before;
    the six suggestions stay recorded. *)
Theorem objective_raises_only_in_postprocessing :
  let r := objective w t dataset_train dataset_val num_samples columns
             database_name shift_numbers st in
  let evs := new_events st r.1 in
  let generated_data :=
    timegan w (timegan_calls st)
      (cut_data w dataset_train (suggested_seq_len w t))
      (built_parameters w t) in
  ((exists e, r.2 = Raised e) <->
   (0 < shape0 generated_data)%nat /\ (0 < shape1 generated_data)%nat /\
   length columns <> columns_kept (shape2 generated_data) shift_numbers) /\
  (forall e, r.2 = Raised e ->
     e = ValueError /\
     length (timegan_calls_of evs) = 1%nat /\
     evaluate_calls evs = [] /\ dumps evs = [] /\
     suggestions_of evs = suggested w t /\
     best_scores r.1 = best_scores st /\
     objective_seq_len r.1 = objective_seq_len st /\
     objective_parameters r.1 = objective_parameters st /\
     files r.1 = files st).
Proof.
  cbv zeta.
  pose proof (objective_result w t dataset_train dataset_val num_samples
                columns database_name shift_numbers st) as Hr.
  pose proof (objective_checkpoint w t dataset_train dataset_val num_samples
                columns database_name shift_numbers st) as Hc.
  pose proof (evaluate_calls_objective w t dataset_train dataset_val
                num_samples columns database_name shift_numbers st) as He.
  cbv zeta in Hc. unfold generated_in_trial in *.
  rewrite suggestions_of_objective, timegan_calls_of_objective.
  destruct (postprocess_data _ _ _ _ _) as [fake|e0] eqn:Hp.
  - split.
    + split; [intros [e H]; congruence|].
      intros (H0 & H1 & Hne). apply postprocess_data_returned in Hp. lia.
    + intros e H. congruence.
  - apply postprocess_data_raised in Hp as (-> & H0 & H1 & Hne).
    split; [split; [auto|intros _; eexists; exact Hr]|].
    intros e H. rewrite Hr in H. injection H as <-.
    destruct Hc as [(s & Hs & _)|(_ & Hb & Hsl & Hpar & Hf & Hd)];
      [congruence|].
    repeat split; assumption.
Qed.

(** X5. [objective] requests the stop of the study in the trial numbered 60
    and in no other, before it asks for any suggestion, and it never takes a
    requested stop back. *)
Theorem objective_requests_stop_only_in_trial_60 :
  let r := objective w t dataset_train dataset_val num_samples columns
             database_name shift_numbers st in
  let evs := new_events st r.1 in
  stops evs = (if Nat.eqb t 60 then [60%nat] else []) /\
  (t = 60%nat -> head evs = Some (EvStop 60)) /\
  stop_flag (study r.1) = stop_flag (study st) || Nat.eqb t 60.
Proof.
  cbv zeta. rewrite objective_new_events.
  split; [|split].
  - unfold stops. rewrite omap_app. fold (stops (events_until_training w t dataset_train)).
    fold (stops (objective_tail w dataset_val database_name (best_scores st)
                   (postprocess_data "opt"
                      (generated_in_trial w t (timegan_calls st) dataset_train)
                      columns (suggested_seq_len w t) shift_numbers))).
    rewrite objective_tail_stops, app_nil_r.
    destruct events_until_training_readings as (Hs & _). rewrite Hs.
    destruct (Nat.eqb_spec t 60) as [->|_]; reflexivity.
  - intros ->. reflexivity.
  - rewrite objective_unfold.
    assert (Hs : stop_flag
              (study (state_after_training w t dataset_train st)) =
            stop_flag (study st) || Nat.eqb t 60).
    { unfold state_after_training. run_st.
      unfold study_after_suggestions, set_trial_param, stop_requested.
      destruct (Nat.eqb t 60); cbn [stop_flag];
        destruct (stop_flag (study st)); reflexivity. }
    destruct (postprocess_data _ _ _ _ _); cbn [fst]; [|exact Hs].
    unfold state_after_trial. destruct (float_gt _ _); cbn [study]; exact Hs.
Qed.

(** X6. A trial whose score is NaN neither writes the checkpoint nor
    changes the global [best_scores], the attributes of [objective] or the
    files, whatever the global holds. *)
Theorem objective_nan_score_changes_nothing s :
  let r := objective w t dataset_train dataset_val num_samples columns
             database_name shift_numbers st in
  let evs := new_events st r.1 in
  r.2 = Return s ->
  PrimFloat.is_nan s = true ->
  dumps evs = [] /\
  best_scores r.1 = best_scores st /\
  objective_seq_len r.1 = objective_seq_len st /\
  objective_parameters r.1 = objective_parameters st /\
  files r.1 = files st.
Proof.
  cbv zeta. intros Hs Hnan.
  destruct (objective_checkpoint w t dataset_train dataset_val num_samples
              columns database_name shift_numbers st)
    as [(s' & Hs' & Hgt & _)|(_ & Hb & Hsl & Hpar & Hf & Hd)];
    cbv zeta in *.
  - assert (s' = s) by congruence. subst s'.
    apply float_gt_not_nan in Hgt as [Hn _]. congruence.
  - repeat split; assumption.
Qed.

(** X7. The only file operation of [objective] is the [joblib.dump] of the
    checkpoint [<database_name>.gz], performed at most once: it opens,
    writes, closes and loads no file and writes no CSV file. *)
Theorem objective_only_dumps_the_checkpoint :
  let r := objective w t dataset_train dataset_val num_samples columns
             database_name shift_numbers st in
  let evs := new_events st r.1 in
  (dumps evs = [] \/ dumps evs = [database_name +:+ ".gz"]) /\
  opens evs = [] /\ written evs = [] /\ closes evs = [] /\
  loads evs = [] /\ csv_written evs = [].
Proof.
  cbv zeta. rewrite objective_new_events.
  unfold dumps, opens, written, closes, loads, csv_written.
  rewrite !omap_app.
  unfold events_until_training, objective_tail, suggested.
  destruct (postprocess_data _ _ _ _ _) as [fake|e];
    [destruct (float_gt _ _)|];
    destruct (Nat.eqb t 60);
    cbn [omap list_omap map app fst snd];
    (split; [first [left; reflexivity|right; reflexivity]|]);
    repeat split; reflexivity.
Qed.

End ObjectiveEdgeFacts.

(** X16. The argument [num_samples] has no effect: neither [objective]
    nor [run_TimeGAN] does anything with it but pass it on. *)
Theorem num_samples_is_ignored (w : World) (t : nat)
    (dataset_train dataset_val : DataFrame) (columns : list string)
    (database_name : string) (shift_numbers : list Z)
    (n_trials num_samples num_samples' : Z) :
  objective w t dataset_train dataset_val num_samples columns database_name
    shift_numbers =
  objective w t dataset_train dataset_val num_samples' columns database_name
    shift_numbers /\
  run_TimeGAN w num_samples n_trials database_name shift_numbers =
  run_TimeGAN w num_samples' n_trials database_name shift_numbers.
Proof. split; reflexivity. Qed.

(** * Instances of the further properties *)

(** A 1 x 1 x 2 array with one shift number keeps one column. *)
Lemma postprocess_data_entries_witness :
  postprocess_data "opt" (sample_array 1%float) ["a"] (VInt 1) [7] =
    Return {| df_data := [[1%float]]; df_columns := ["a"] |} /\
  length (df_data {| df_data := [[1%float]]; df_columns := ["a"] |}) =
    (1 * 1)%nat.
Proof.
  assert (H : postprocess_data "opt" (sample_array 1%float) ["a"] (VInt 1)
                [7] =
              Return {| df_data := [[1%float]]; df_columns := ["a"] |})
    by (vm_compute; reflexivity).
  split; [exact H|].
  exact (proj1 (proj2 (postprocess_data_entries "opt" (sample_array 1%float)
                         ["a"] (VInt 1) [7] _ H))).
Defined.

(** A first trial whose score is NaN. *)
Lemma objective_nan_score_changes_nothing_witness :
  let r := objective (sample_world [PrimFloat.nan]) 0 sample_frame
             sample_frame 500 ["a"; "b"] "db" [0] (initial_state ∅ []) in
  r.2 = Return PrimFloat.nan /\
  PrimFloat.is_nan PrimFloat.nan = true /\
  dumps (new_events (initial_state ∅ []) r.1) = [] /\
  best_scores r.1 = 0%float.
Proof.
  cbv zeta.
  assert (H1 : (objective (sample_world [PrimFloat.nan]) 0 sample_frame
                  sample_frame 500 ["a"; "b"] "db" [0]
                  (initial_state ∅ [])).2 = Return PrimFloat.nan)
    by (vm_compute; reflexivity).
  assert (H2 : PrimFloat.is_nan PrimFloat.nan = true) by reflexivity.
  split; [exact H1|]. split; [exact H2|].
  destruct (objective_nan_score_changes_nothing (sample_world [PrimFloat.nan])
              0 sample_frame sample_frame 500 ["a"; "b"] "db" [0]
              (initial_state ∅ []) PrimFloat.nan H1 H2) as (Hd & Hb & _).
  split; [exact Hd|exact Hb].
Defined.


(** Three trials scoring 0.5, 0.25 and 0.75. *)
Lemma run_TimeGAN_output_files_witness :
  let r := run_TimeGAN (sample_world [0.5; 0.25; 0.75]%float) 500 3 "db" [0]
             (initial_state ∅ []) in
  r.2 = Return tt /\
  exists best fake_data,
    best_from 0 (study_trials (study r.1)) None = Some best /\
    files r.1 !! "db.gz" = Some pickle_of_timegan /\
    files r.1 !! "fake_data_db.csv" = Some (csv_file fake_data) /\
    closes (trace r.1) = ["performance_db.txt"].
Proof.
  cbv zeta.
  assert (H : (run_TimeGAN (sample_world [0.5; 0.25; 0.75]%float) 500 3 "db"
                 [0] (initial_state ∅ [])).2 = Return tt)
    by (vm_compute; reflexivity).
  split; [exact H|].
  destruct (run_TimeGAN_output_files
              (sample_world [0.5; 0.25; 0.75]%float) 500 3 "db" [0] ∅ [] H)
    as (best & fake_data & Hbest & Hcp & Hcsv & _ & _ & _ & Hcl & _).
  exists best, fake_data. repeat split; assumption.
Defined.

(** One trial scoring 0: the plotting of the one-trial study raises. *)
Lemma run_TimeGAN_without_score_above_zero_witness :
  let r := run_TimeGAN (sample_world [0%float]) 500 1 "db" [0]
             (initial_state ∅ []) in
  length (told (trace r.1)) = length (asked (trace r.1)) /\
  told (trace r.1) = [(0%nat, 0%float)] /\
  dumps (trace r.1) = [] /\
  closes (trace r.1) = [] /\
  r.2 = Raised ValueError.
Proof.
  cbv zeta.
  assert (Hall : length (told (trace (run_TimeGAN (sample_world [0%float])
                                        500 1 "db" [0]
                                        (initial_state ∅ [])).1)) =
                 length (asked (trace (run_TimeGAN (sample_world [0%float])
                                         500 1 "db" [0]
                                         (initial_state ∅ [])).1)))
    by (vm_compute; reflexivity).
  assert (Et : told (trace (run_TimeGAN (sample_world [0%float]) 500 1 "db"
                              [0] (initial_state ∅ [])).1) =
               [(0%nat, 0%float)])
    by (vm_compute; reflexivity).
  assert (Hle : forall q n u,
            told (trace (run_TimeGAN (sample_world [0%float]) 500 1 "db" [0]
                           (initial_state ∅ [])).1) !! q = Some (n, u) ->
            float_gt u 0 = false).
  { intros q n u Hq. rewrite Et in Hq.
    destruct q as [|q]; [|destruct q; discriminate Hq].
    injection Hq as <- <-. reflexivity. }
  split; [exact Hall|]. split; [exact Et|].
  destruct (run_TimeGAN_without_score_above_zero (sample_world [0%float]) 500
              1 "db" [0] ∅ [] Hall Hle) as (Hd & _ & _ & Hcl & _).
  split; [exact Hd|]. split; [exact Hcl|]. vm_compute. reflexivity.
Defined.


(** Three trials and the final generation: four calls of the GAN routine. *)
Lemma run_TimeGAN_trains_once_per_trial_and_once_more_witness :
  let r := run_TimeGAN (sample_world [0.5; 0.25; 0.75]%float) 500 3 "db" [0]
             (initial_state ∅ []) in
  r.2 = Return tt /\
  asked (trace r.1) = [0; 1; 2]%nat /\
  length (timegan_calls_of (trace r.1)) = S (length (asked (trace r.1))).
Proof.
  cbv zeta.
  assert (H : (run_TimeGAN (sample_world [0.5; 0.25; 0.75]%float) 500 3 "db"
                 [0] (initial_state ∅ [])).2 = Return tt)
    by (vm_compute; reflexivity).
  split; [exact H|]. split; [vm_compute; reflexivity|].
  exact (proj1 (run_TimeGAN_trains_once_per_trial_and_once_more
                  (sample_world [0.5; 0.25; 0.75]%float) 500 3 "db" [0] ∅ []
                  H)).
Defined.

(** The file written by a run for "db" is the one [test_samples "db"]
    loads. *)
Lemma test_samples_loads_the_csv_of_the_run_witness :
  let r := run_TimeGAN (sample_world [0.5; 0.25; 0.75]%float) 500 3 "db" [0]
             (initial_state ∅ []) in
  r.2 = Return tt /\
  exists written_to fake_data,
    csv_written (trace r.1) = [(written_to, fake_data)] /\
    files r.1 !! written_to = Some (csv_file fake_data) /\
    head (Evaluate.test_samples sample_eval_world "db" true).1 =
      Some (Evaluate.EvLoadData "test_data_schachtschneider.csv" written_to).
Proof.
  cbv zeta.
  assert (H : (run_TimeGAN (sample_world [0.5; 0.25; 0.75]%float) 500 3 "db"
                 [0] (initial_state ∅ [])).2 = Return tt)
    by (vm_compute; reflexivity).
  split; [exact H|].
  exact (test_samples_loads_the_csv_of_the_run
           (sample_world [0.5; 0.25; 0.75]%float) 500 3 "db" [0] ∅ []
           sample_eval_world true H).
Defined.
